(** * Django security auditor: a shallow embedding and its properties

    The development follows [skills/django-security/scripts/security_auditor.py].
    Text is modelled by [string]; a character is an [ascii].  The model is
    exact on 7-bit text: characters of code 128 and above are carried along
    unchanged but belong to no character class (white space, word
    characters, letters with a case). *)

From Stdlib Require Import List String Ascii Bool Arith ZArith Lia.
From Stdlib Require Import Permutation Sorted.
From Stdlib Require Import Numbers.DecimalString.
Import ListNotations.

Set Warnings "-register-all".

Open Scope list_scope.
Open Scope string_scope.

(** [++] joins strings; lists are joined by [+++]. *)
Infix "+++" := List.app (right associativity, at level 60).

(** ** Python strings *)

Module Py.

Definition code (c : ascii) : nat := nat_of_ascii c.

Definition in_range (lo hi : nat) (c : ascii) : bool :=
  Nat.leb lo (code c) && Nat.leb (code c) hi.

(** [str.isspace] on the 7-bit range: TAB..CR, FS..US and the blank. *)
Definition is_space (c : ascii) : bool :=
  in_range 9 13 c || in_range 28 32 c.

Definition is_upper (c : ascii) : bool := in_range 65 90 c.
Definition is_lower (c : ascii) : bool := in_range 97 122 c.
Definition is_digit (c : ascii) : bool := in_range 48 57 c.

(** The word characters of [\w] and [\b]. *)
Definition is_word (c : ascii) : bool :=
  is_upper c || is_lower c || is_digit c || Ascii.eqb c "_".

Definition lower_char (c : ascii) : ascii :=
  if is_upper c then ascii_of_nat (code c + 32) else c.

Definition upper_char (c : ascii) : ascii :=
  if is_lower c then ascii_of_nat (code c - 32) else c.

Fixpoint map_str (f : ascii -> ascii) (s : string) : string :=
  match s with
  | EmptyString => EmptyString
  | String c s' => String (f c) (map_str f s')
  end.

Definition lower : string -> string := map_str lower_char.
Definition upper : string -> string := map_str upper_char.

(** [needle in hay]. *)
Fixpoint contains (needle hay : string) : bool :=
  prefix needle hay ||
  match hay with
  | EmptyString => false
  | String _ hay' => contains needle hay'
  end.

(** [s[:n]]. *)
Fixpoint take (n : nat) (s : string) : string :=
  match n, s with
  | S n', String c s' => String c (take n' s')
  | _, _ => EmptyString
  end.

Fixpoint lstrip (s : string) : string :=
  match s with
  | String c s' => if is_space c then lstrip s' else s
  | EmptyString => EmptyString
  end.

(** [rstrip] keeps a character when it is not white space or when
    something is kept after it. *)
Fixpoint rstrip (s : string) : string :=
  match s with
  | EmptyString => EmptyString
  | String c s' =>
      match rstrip s' with
      | EmptyString => if is_space c then EmptyString else String c EmptyString
      | r => String c r
      end
  end.

Definition strip (s : string) : string := rstrip (lstrip s).

(** Line boundaries of [str.splitlines] on the 7-bit range. *)
Definition is_linebreak (c : ascii) : bool :=
  in_range 10 13 c || in_range 28 30 c.

(** [splitlines_aux cur s]: [cur] is the line being read, reversed. *)
Fixpoint rev_str (acc s : string) : string :=
  match s with
  | EmptyString => acc
  | String c s' => rev_str (String c acc) s'
  end.

Fixpoint splitlines_aux (cur : string) (s : string) : list string :=
  match s with
  | EmptyString =>
      match cur with
      | EmptyString => []
      | _ => [rev_str "" cur]
      end
  | String c s' =>
      if is_linebreak c then
        match s' with
        | String d s'' =>
            if Ascii.eqb c "013" && Ascii.eqb d "010"
            then rev_str "" cur :: splitlines_aux "" s''
            else rev_str "" cur :: splitlines_aux "" s'
        | EmptyString => [rev_str "" cur]
        end
      else splitlines_aux (String c cur) s'
  end.

Definition splitlines (s : string) : list string := splitlines_aux "" s.

(** [f.readlines()] on text already read: lines end at a line feed, which
    they keep. *)
Fixpoint readlines_aux (cur : string) (s : string) : list string :=
  match s with
  | EmptyString =>
      match cur with
      | EmptyString => []
      | _ => [rev_str "" cur]
      end
  | String c s' =>
      if Ascii.eqb c "010"
      then rev_str "" (String c cur) :: readlines_aux "" s'
      else readlines_aux (String c cur) s'
  end.

Definition readlines (s : string) : list string := readlines_aux "" s.

(** [sep.join(l)]. *)
Fixpoint join (sep : string) (l : list string) : string :=
  match l with
  | [] => ""
  | [x] => x
  | x :: l' => x ++ sep ++ join sep l'
  end.

(** [s * n]. *)
Fixpoint times (s : string) (n : nat) : string :=
  match n with
  | O => ""
  | S n' => s ++ times s n'
  end.

Definition str_of_nat (n : nat) : string :=
  NilEmpty.string_of_uint (Nat.to_uint n).

Definition str_of_Z (z : Z) : string :=
  NilEmpty.string_of_int (Z.to_int z).

(** [s.split('.')[-1]]: what follows the last dot. *)
Fixpoint after_last_dot_aux (cur s : string) : string :=
  match s with
  | EmptyString => rev_str "" cur
  | String c s' =>
      if Ascii.eqb c "." then after_last_dot_aux "" s'
      else after_last_dot_aux (String c cur) s'
  end.

Definition after_last_dot (s : string) : string := after_last_dot_aux "" s.

Definition endswith (s suffix : string) : bool :=
  prefix (rev_str "" suffix) (rev_str "" s).

(** [enumerate(l, 1)]. *)
Fixpoint enumerate_from {A} (n : nat) (l : list A) : list (nat * A) :=
  match l with
  | [] => []
  | x :: l' => (n, x) :: enumerate_from (S n) l'
  end.

End Py.

(** ** Regular expressions

    The fragment of Python's [re] the auditor uses: literals, [.], [\s],
    bracket sets, [\b], the greedy quantifiers [*], [+] and [?] applied to
    one character item, sequence, ordered alternation and one capturing
    group.  Matching is by backtracking, leftmost start first, as [re]
    does. *)

Module Re.

Inductive item :=
| Lit (c : ascii)
| Dot
| Space
| Set_ (negated : bool) (cs : list ascii).

Inductive regex :=
| Eps
| One (i : item)
| Star (i : item)
| Plus (i : item)
| Opt (i : item)
| WordB
| Seq (r1 r2 : regex)
| Alt (r1 r2 : regex)
| Group (r : regex).

Definition char_eq (icase : bool) (a b : ascii) : bool :=
  if icase then Ascii.eqb (Py.lower_char a) (Py.lower_char b)
  else Ascii.eqb a b.

Definition item_match (icase : bool) (i : item) (c : ascii) : bool :=
  match i with
  | Lit a => char_eq icase a c
  | Dot => negb (Ascii.eqb c "010")
  | Space => Py.is_space c
  | Set_ neg cs => xorb neg (existsb (fun a => char_eq icase a c) cs)
  end.

Definition word_opt (c : option ascii) : bool :=
  match c with
  | Some a => Py.is_word a
  | None => false
  end.

Definition next_char (s : string) : option ascii :=
  match s with
  | String c _ => Some c
  | EmptyString => None
  end.

(** What a group captured between two suffixes of the subject. *)
Definition consumed (s s' : string) : string :=
  Py.take (String.length s - String.length s') s.

(** A match result: the text of group 1, when the pattern has a group
    that took part in the match. *)
Definition capture := option string.

Definition cont := option ascii -> string -> capture -> option capture.

Fixpoint star (icase : bool) (i : item) (k : cont)
         (prev : option ascii) (s : string) (cap : capture) : option capture :=
  match s with
  | String c s' =>
      if item_match icase i c then
        match star icase i k (Some c) s' cap with
        | Some r => Some r
        | None => k prev s cap
        end
      else k prev s cap
  | EmptyString => k prev s cap
  end.

Fixpoint run (icase : bool) (r : regex) (k : cont)
         (prev : option ascii) (s : string) (cap : capture) : option capture :=
  match r with
  | Eps => k prev s cap
  | One i =>
      match s with
      | String c s' => if item_match icase i c then k (Some c) s' cap else None
      | EmptyString => None
      end
  | Star i => star icase i k prev s cap
  | Plus i =>
      match s with
      | String c s' =>
          if item_match icase i c then star icase i k (Some c) s' cap else None
      | EmptyString => None
      end
  | Opt i =>
      match s with
      | String c s' =>
          if item_match icase i c then
            match k (Some c) s' cap with
            | Some r => Some r
            | None => k prev s cap
            end
          else k prev s cap
      | EmptyString => k prev s cap
      end
  | WordB =>
      if xorb (word_opt prev) (word_opt (next_char s)) then k prev s cap
      else None
  | Seq r1 r2 => run icase r1 (run icase r2 k) prev s cap
  | Alt r1 r2 =>
      match run icase r1 k prev s cap with
      | Some r => Some r
      | None => run icase r2 k prev s cap
      end
  | Group r1 =>
      run icase r1 (fun p s' _ => k p s' (Some (consumed s s'))) prev s cap
  end.

Definition accept : cont := fun _ _ cap => Some cap.

(** [re.search]: the first start position, from the left, with a match. *)
Fixpoint search_from (icase : bool) (r : regex)
         (prev : option ascii) (s : string) : option capture :=
  match run icase r accept prev s None with
  | Some cap => Some cap
  | None =>
      match s with
      | String c s' => search_from icase r (Some c) s'
      | EmptyString => None
      end
  end.

(** [re.search(pattern, s)] and [re.search(pattern, s, re.IGNORECASE)]. *)
Definition search (r : regex) (s : string) : option capture :=
  search_from false r None s.

Definition search_i (r : regex) (s : string) : option capture :=
  search_from true r None s.

Definition found (m : option capture) : bool :=
  match m with
  | Some _ => true
  | None => false
  end.

(** Pattern building. *)
Fixpoint lit (s : string) : regex :=
  match s with
  | EmptyString => Eps
  | String c EmptyString => One (Lit c)
  | String c s' => Seq (One (Lit c)) (lit s')
  end.

Fixpoint seq (l : list regex) : regex :=
  match l with
  | [] => Eps
  | [r] => r
  | r :: l' => Seq r (seq l')
  end.

(** White space, any number of times; a quote character of either kind;
    anything but a quote character. *)
Definition ws : regex := Star Space.
Definition quote : item := Set_ false ["034" ; "'"]%char.
Definition not_quote : item := Set_ true ["034" ; "'"]%char.

End Re.

(** ** Issue model *)

Inductive Severity := CRITICAL | HIGH | MEDIUM | LOW | INFO.

(** The members of the enumeration, in definition order ([for severity in
    Severity]). *)
Definition all_severities : list Severity := [CRITICAL; HIGH; MEDIUM; LOW; INFO].

(** [Severity.value]. *)
Definition value (s : Severity) : string :=
  match s with
  | CRITICAL => "CRITICAL"
  | HIGH => "HIGH"
  | MEDIUM => "MEDIUM"
  | LOW => "LOW"
  | INFO => "INFO"
  end.

(** The [order] dictionary of [Severity.__lt__]. *)
Definition order (s : Severity) : nat :=
  match s with
  | CRITICAL => 0
  | HIGH => 1
  | MEDIUM => 2
  | LOW => 3
  | INFO => 4
  end.

(** [Severity.__lt__]. *)
Definition Severity_lt (self other : Severity) : bool :=
  Nat.ltb (order self) (order other).

(** [==] on members of the enumeration. *)
Definition Severity_eqb (a b : Severity) : bool :=
  match a, b with
  | CRITICAL, CRITICAL | HIGH, HIGH | MEDIUM, MEDIUM | LOW, LOW | INFO, INFO => true
  | _, _ => false
  end.

(** Python values that reach a finding from the output of a dependency
    tool: what [json.loads] returns. *)
Inductive pyval :=
| PNone
| PBool (b : bool)
| PInt (z : Z)
| PFloat (repr : string)
| PStr (s : string)
| PList (l : list pyval)
| PDict (d : list (string * pyval)).

(** [SecurityIssue].  [description] and [cve] are declared as strings, but
    the dependency scanner stores in them whatever the tool's JSON holds,
    so they are Python values here; [PNone] is [None]. *)
Record SecurityIssue := mkIssue {
  severity : Severity;
  category : string;
  title : string;
  description : pyval;
  file_path : option string;
  line_number : option nat;
  code_snippet : option string;
  recommendation : option string;
  cve : pyval;
  auto_fixable : bool
}.

(** [SecurityAuditor]: the fields set by [__init__]; [secret_patterns] is
    the constant below. *)
Record SecurityAuditor := mkAuditor {
  project_root : string;
  auto_fix : bool;
  issues : list SecurityIssue
}.

(** [SecurityAuditor.__init__]. *)
Definition init (root : string) (fix_flag : bool) : SecurityAuditor :=
  {| project_root := root; auto_fix := fix_flag; issues := [] |}.

(** [add_issue]: [self.issues.append(issue)]. *)
Definition add_issue (issue : SecurityIssue) (self : SecurityAuditor) : SecurityAuditor :=
  {| project_root := project_root self;
     auto_fix := auto_fix self;
     issues := issues self +++ [issue] |}.

(** A [for] loop whose body updates the state. *)
Definition for_each {A S : Type} (l : list A) (body : A -> S -> S) (st : S) : S :=
  fold_left (fun s x => body x s) l st.

(** ** The world the auditor runs in *)

(** What [open(path).read()] gives: the text, or an exception with its
    message. *)
Inductive file :=
| Readable (content : string)
| Unreadable (error : string).

(** What [subprocess.run] gives: [FileNotFoundError] when the program is
    not installed, another exception (a timeout, say) with its message, or
    a completed process. *)
Inductive proc :=
| NotFound
| Failed (error : string)
| Completed (returncode : Z) (stdout : string).

(** Results of operations that can raise; [Raise] carries [str(e)]. *)
Inductive outcome (A : Type) :=
| Return (a : A)
| Raise (error : string).
Arguments Return {A} a.
Arguments Raise {A} error.

(** The inputs of a run.  [tree] is the file system when the process
    starts: the entries below the project root in the order [rglob] meets
    them, each under [str(path)]; the two tools are run on the manifest's
    path; [json_loads] is [json.loads], whose [Raise] is a
    [JSONDecodeError]. *)
Record Env := mkEnv {
  tree : list (string * file);
  pip_audit : string -> proc;
  safety : string -> proc;
  json_loads : string -> outcome pyval
}.

(** The last component of a path. *)
Fixpoint basename_aux (cur s : string) : string :=
  match s with
  | EmptyString => Py.rev_str "" cur
  | String c s' =>
      if Ascii.eqb c "/" then basename_aux "" s'
      else basename_aux (String c cur) s'
  end.

Definition basename (p : string) : string := basename_aux "" p.

(** [root.rglob("settings.py")] and [root.rglob("*.py")]. *)
Definition files := list (string * file).

Definition rglob_settings (t : files) : files :=
  filter (fun e => String.eqb (basename (fst e)) "settings.py") t.

Definition rglob_py (t : files) : files :=
  filter (fun e => Py.endswith (basename (fst e)) ".py") t.

(** [path.exists()]. *)
Definition exists_ (t : files) (p : string) : bool :=
  existsb (fun e => String.eqb (fst e) p) t.

(** [str(root / name)] for a root already normalised by [Path]. *)
Definition path_join (root name : string) : string :=
  if String.eqb root "." then name
  else if Py.endswith root "/" then root ++ name
  else root ++ "/" ++ name.

(** The program's state: the auditor, the file system and the two output
    streams. *)
Record state := mkState {
  self_ : SecurityAuditor;
  fs : files;
  out : string;
  err : string
}.

Definition newline : string := String "010" "".

(** [print(msg)] and [print(msg, file=sys.stderr)]. *)
Definition print (msg : string) (st : state) : state :=
  {| self_ := self_ st; fs := fs st; out := out st ++ msg ++ newline; err := err st |}.

Definition print_err (msg : string) (st : state) : state :=
  {| self_ := self_ st; fs := fs st; out := out st; err := err st ++ msg ++ newline |}.

(** A method of the auditor run on the program's state. *)
Definition on_self (f : SecurityAuditor -> SecurityAuditor) (st : state) : state :=
  {| self_ := f (self_ st); fs := fs st; out := out st; err := err st |}.

(** ** Settings scanner *)

Module Pat.
Import Re.

Definition assign (name : string) (rhs : list regex) : regex :=
  seq ([lit name; ws; lit "="; ws] +++ rhs).

(** [\bDEBUG\s*=\s*True\b] *)
Definition debug_true : regex :=
  seq [WordB; lit "DEBUG"; ws; lit "="; ws; lit "True"; WordB].

(** [SECRET_KEY\s*=\s*[QUOTE][^QUOTE]+[QUOTE]], QUOTE being either quote
    character. *)
Definition secret_key_literal : regex :=
  assign "SECRET_KEY" [One quote; Plus not_quote; One quote].

(** [ALLOWED_HOSTS\s*=\s*\[\s*\*\s*\]] *)
Definition allowed_hosts_star : regex :=
  assign "ALLOWED_HOSTS" [lit "["; ws; lit "*"; ws; lit "]"].

(** [ALLOWED_HOSTS\s*=\s*\[\s*[QUOTE]\\?\*[QUOTE]] *)
Definition allowed_hosts_quoted_star : regex :=
  assign "ALLOWED_HOSTS" [lit "["; ws; One quote; Opt (Lit "\"); lit "*"; One quote].

(** [f'{setting}\\s*=\\s*False'] *)
Definition setting_false (setting : string) : regex :=
  assign setting [lit "False"].

(** [CONTENT_SECURITY_POLICY_REPORT_ONLY\s*=\s*(True|False|DEBUG)] *)
Definition csp_report_only : regex :=
  assign "CONTENT_SECURITY_POLICY_REPORT_ONLY"
         [Group (Alt (lit "True") (Alt (lit "False") (lit "DEBUG")))].

End Pat.

Definition required_middleware : list string :=
  [ "django.middleware.security.SecurityMiddleware";
    "django.middleware.csrf.CsrfViewMiddleware";
    "django.middleware.clickjacking.XFrameOptionsMiddleware" ].

(** [https_settings], in insertion order: the setting, the expected value
    and the severity paired with it. *)
Definition https_settings : list (string * (string * Severity)) :=
  [ ("SECURE_SSL_REDIRECT", ("True", HIGH));
    ("SESSION_COOKIE_SECURE", ("True", HIGH));
    ("CSRF_COOKIE_SECURE", ("True", HIGH));
    ("SECURE_BROWSER_XSS_FILTER", ("True", MEDIUM));
    ("SECURE_CONTENT_TYPE_NOSNIFF", ("True", MEDIUM)) ].

(** The findings [scan_settings] constructs. *)
Definition debug_enabled_issue (settings_path : string) : SecurityIssue :=
  {| severity := CRITICAL;
     category := "Settings";
     title := "DEBUG enabled";
     description := PStr "DEBUG = True in settings - NEVER use in production";
     file_path := Some settings_path;
     line_number := None;
     code_snippet := None;
     recommendation := Some "Set DEBUG = False for production. Use environment variable: DEBUG = os.environ.get('DEBUG', 'False') == 'True'";
     cve := PNone;
     auto_fixable := true |}.

Definition hardcoded_secret_key_issue (settings_path : string) : SecurityIssue :=
  {| severity := CRITICAL;
     category := "Settings";
     title := "Hardcoded SECRET_KEY";
     description := PStr "SECRET_KEY is hardcoded in settings";
     file_path := Some settings_path;
     line_number := None;
     code_snippet := None;
     recommendation := Some "Use environment variable: SECRET_KEY = os.environ['DJANGO_SECRET_KEY']";
     cve := PNone;
     auto_fixable := false |}.

Definition allowed_hosts_issue (settings_path : string) : SecurityIssue :=
  {| severity := HIGH;
     category := "Settings";
     title := "ALLOWED_HOSTS wildcard";
     description := PStr "ALLOWED_HOSTS = ['*'] allows any host header";
     file_path := Some settings_path;
     line_number := None;
     code_snippet := None;
     recommendation := Some "Set specific hosts: ALLOWED_HOSTS = ['yourdomain.com', 'www.yourdomain.com']";
     cve := PNone;
     auto_fixable := false |}.

Definition missing_middleware_issue (settings_path mw : string) : SecurityIssue :=
  {| severity := HIGH;
     category := "Settings";
     title := "Missing security middleware: " ++ Py.after_last_dot mw;
     description := PStr ("Required security middleware not found: " ++ mw);
     file_path := Some settings_path;
     line_number := None;
     code_snippet := None;
     recommendation := Some ("Add to MIDDLEWARE list: '" ++ mw ++ "'");
     cve := PNone;
     auto_fixable := true |}.

Definition missing_setting_issue (settings_path setting expected : string) : SecurityIssue :=
  {| severity := MEDIUM;
     category := "Settings";
     title := "Missing security setting: " ++ setting;
     description := PStr (setting ++ " not configured");
     file_path := Some settings_path;
     line_number := None;
     code_snippet := None;
     recommendation := Some ("Add " ++ setting ++ " = " ++ expected);
     cve := PNone;
     auto_fixable := true |}.

Definition insecure_setting_issue (settings_path setting : string) : SecurityIssue :=
  {| severity := HIGH;
     category := "Settings";
     title := "Insecure setting: " ++ setting ++ " = False";
     description := PStr (setting ++ " is disabled");
     file_path := Some settings_path;
     line_number := None;
     code_snippet := None;
     recommendation := Some ("Set " ++ setting ++ " = True");
     cve := PNone;
     auto_fixable := true |}.

Definition missing_validators_issue (settings_path : string) : SecurityIssue :=
  {| severity := MEDIUM;
     category := "Settings";
     title := "Missing password validators";
     description := PStr "AUTH_PASSWORD_VALIDATORS not configured";
     file_path := Some settings_path;
     line_number := None;
     code_snippet := None;
     recommendation := Some "Configure Django password validators";
     cve := PNone;
     auto_fixable := true |}.

Definition csp_issue (settings_path : string) : SecurityIssue :=
  {| severity := HIGH;
     category := "Settings";
     title := "CSP report-only mode misconfigured";
     description := PStr "CONTENT_SECURITY_POLICY_REPORT_ONLY set to boolean (causes AttributeError in django-csp 4.0+)";
     file_path := Some settings_path;
     line_number := None;
     code_snippet := None;
     recommendation := Some "Remove line or set to dict: CONTENT_SECURITY_POLICY_REPORT_ONLY = {'DIRECTIVES': {...}}";
     cve := PNone;
     auto_fixable := false |}.

(** The body of [scan_settings] once the file has been read. *)
Definition scan_settings_content (settings_path content : string)
           (self : SecurityAuditor) : SecurityAuditor :=
  (* Check DEBUG setting *)
  let self :=
    if Re.found (Re.search Pat.debug_true content)
    then add_issue (debug_enabled_issue settings_path) self
    else self in
  (* Check SECRET_KEY *)
  let self :=
    if Re.found (Re.search Pat.secret_key_literal content) then
      if negb (Py.contains "os.environ" content) && negb (Py.contains "env(" content)
      then add_issue (hardcoded_secret_key_issue settings_path) self
      else self
    else self in
  (* Check ALLOWED_HOSTS *)
  let self :=
    if Re.found (Re.search Pat.allowed_hosts_star content)
       || Re.found (Re.search Pat.allowed_hosts_quoted_star content)
    then add_issue (allowed_hosts_issue settings_path) self
    else self in
  (* Check for missing security middleware *)
  let self :=
    for_each required_middleware (fun mw self =>
      if negb (Py.contains mw content)
      then add_issue (missing_middleware_issue settings_path mw) self
      else self) self in
  (* Check HTTPS settings *)
  let self :=
    for_each https_settings (fun '(setting, (expected, _)) self =>
      if negb (Py.contains setting content)
      then add_issue (missing_setting_issue settings_path setting expected) self
      else if Re.found (Re.search (Pat.setting_false setting) content)
      then add_issue (insecure_setting_issue settings_path setting) self
      else self) self in
  (* Check for weak password validators *)
  let self :=
    if negb (Py.contains "AUTH_PASSWORD_VALIDATORS" content)
    then add_issue (missing_validators_issue settings_path) self
    else self in
  (* Check for CSP report-only mode misconfiguration *)
  if Re.found (Re.search Pat.csp_report_only content)
  then add_issue (csp_issue settings_path) self
  else self.

(** [scan_settings()], called without a path as [main] does.  The file is
    opened outside any [try]: an exception of [open] or [read] leaves the
    method, and is returned here beside the state with its message. *)
Definition scan_settings (st : state) : state * option string :=
  match rglob_settings (fs st) with
  | [] => (print "❌ Could not find settings.py" st, None)
  | (settings_path, f) :: _ =>
      if negb (exists_ (fs st) settings_path) then (st, None)
      else
        match f with
        | Unreadable e => (st, Some e)
        | Readable content =>
            (on_self (scan_settings_content settings_path content) st, None)
        end
  end.

(** ** Code vulnerability scanner *)

Module CodePat.
Import Re.

Definition not_rparen : item := Set_ true [")"]%char.
Definition not_lparen : item := Set_ true ["("]%char.

(** [CALL\([^)]*[QUOTE].*%s.*%.*[QUOTE]] for CALL = [\.raw], [\.execute] *)
Definition sql_format (call : string) : regex :=
  seq [lit call; lit "("; Star not_rparen; One quote; Star Dot; lit "%s";
       Star Dot; lit "%"; Star Dot; One quote].

(** [CALL\([^)]*f[QUOTE]] *)
Definition sql_fstring (call : string) : regex :=
  seq [lit call; lit "("; Star not_rparen; lit "f"; One quote].

Definition sql_injection_patterns : list (regex * string) :=
  [ (sql_format ".raw", "String formatting in raw SQL");
    (sql_fstring ".raw", "F-string in raw SQL");
    (sql_format ".execute", "String formatting in execute");
    (sql_fstring ".execute", "F-string in execute") ].

(** [mark_safe\(], [\|\s*safe], [safestring\.SafeString] *)
Definition xss_patterns : list (regex * string) :=
  [ (lit "mark_safe(", "mark_safe usage");
    (seq [lit "|"; ws; lit "safe"], "|safe filter");
    (lit "safestring.SafeString", "SafeString usage") ].

(** [NAME\s*=\s*[QUOTE]([^QUOTE]+)[QUOTE]] *)
Definition quoted_value (name : regex) : regex :=
  seq [name; ws; lit "="; ws; One quote; Group (Plus not_quote); One quote].

Definition dash : item := Set_ false ["_"; "-"]%char.

(** [self.secret_patterns]: [SECRET_KEY], [AWS_SECRET_ACCESS_KEY],
    [api[_-]?key], [password], [(?:auth|token)[_-]?key], each followed by
    the assignment of a quoted value. *)
Definition secret_patterns : list (regex * string) :=
  [ (quoted_value (lit "SECRET_KEY"), "SECRET_KEY");
    (quoted_value (lit "AWS_SECRET_ACCESS_KEY"), "AWS Secret");
    (quoted_value (seq [lit "api"; Opt dash; lit "key"]), "API Key");
    (quoted_value (lit "password"), "Password");
    (quoted_value (seq [Alt (lit "auth") (lit "token"); Opt dash; lit "key"]),
     "Auth Token") ].

(** [\beval\(], [\bexec\(], [pickle\.loads?\(],
    [subprocess\.[^(]*\(.*shell\s*=\s*True], [os\.system\(] *)
Definition dangerous_patterns : list (regex * string * Severity) :=
  [ (seq [WordB; lit "eval("], "eval() usage", CRITICAL);
    (seq [WordB; lit "exec("], "exec() usage", CRITICAL);
    (seq [lit "pickle.load"; Opt (Lit "s"); lit "("], "pickle deserialization", HIGH);
    (seq [lit "subprocess."; Star not_lparen; lit "("; Star Dot; lit "shell";
          ws; lit "="; ws; lit "True"], "shell=True in subprocess", HIGH);
    (lit "os.system(", "os.system() usage", HIGH) ].

(** [open\([^)]*user|request], [Path\([^)]*user|request],
    [os\.path\.join\([^)]*user|request]: the alternation is at top level. *)
Definition user_or_request (call : string) : regex :=
  Alt (seq [lit call; lit "("; Star not_rparen; lit "user"]) (lit "request").

Definition path_traversal_patterns : list regex :=
  [ user_or_request "open"; user_or_request "Path"; user_or_request "os.path.join" ].

(** [\.objects\.all\(\)] and [\.objects\.get\([^)]*\)] *)
Definition objects_all : regex := lit ".objects.all()".
Definition objects_get : regex := seq [lit ".objects.get("; Star not_rparen; lit ")"].

End CodePat.

(** [match.group(1) if match.groups() else '']: every secret pattern has
    one group, which every match sets. *)
Definition group1 (cap : Re.capture) : string :=
  match cap with
  | Some v => v
  | None => ""
  end.

(** [value not in ['your-secret-key', 'changeme', 'dummy']] *)
Definition placeholders : list string := ["your-secret-key"; "changeme"; "dummy"].

Definition is_placeholder (v : string) : bool :=
  existsb (String.eqb v) placeholders.

Definition enumerate1 (lines : list string) : list (nat * string) :=
  Py.enumerate_from 1 lines.

(** The findings [_scan_file_for_vulnerabilities] constructs. *)
Definition sql_issue (file_path desc : string) (i : nat) (line : string) : SecurityIssue :=
  {| severity := CRITICAL;
     category := "SQL Injection";
     title := "Potential SQL injection: " ++ desc;
     description := PStr "SQL query with string formatting detected";
     file_path := Some file_path;
     line_number := Some i;
     code_snippet := Some (Py.strip line);
     recommendation := Some "Use parameterized queries: .raw('SELECT * FROM table WHERE id = %s', [value])";
     cve := PNone;
     auto_fixable := false |}.

Definition xss_issue (file_path desc : string) (i : nat) (line : string) : SecurityIssue :=
  {| severity := HIGH;
     category := "XSS";
     title := "Potential XSS: " ++ desc;
     description := PStr "Unsafe HTML rendering detected";
     file_path := Some file_path;
     line_number := Some i;
     code_snippet := Some (Py.strip line);
     recommendation := Some "Only use mark_safe with trusted, sanitized content. Consider using django.utils.html.escape()";
     cve := PNone;
     auto_fixable := false |}.

Definition secret_issue (file_path secret_type : string) (i : nat) (line : string) : SecurityIssue :=
  {| severity := CRITICAL;
     category := "Secrets";
     title := "Hardcoded " ++ secret_type;
     description := PStr ("Hardcoded " ++ secret_type ++ " found in code");
     file_path := Some file_path;
     line_number := Some i;
     code_snippet := Some (Py.take 100 (Py.strip line));
     recommendation := Some ("Use environment variables: " ++ Py.upper secret_type
                               ++ " = os.environ['" ++ Py.upper secret_type ++ "']");
     cve := PNone;
     auto_fixable := false |}.

Definition dangerous_issue (file_path desc : string) (sev : Severity)
           (i : nat) (line : string) : SecurityIssue :=
  {| severity := sev;
     category := "Dangerous Functions";
     title := "Dangerous function: " ++ desc;
     description := PStr (desc ++ " can lead to code execution");
     file_path := Some file_path;
     line_number := Some i;
     code_snippet := Some (Py.strip line);
     recommendation := Some ("Avoid " ++ desc ++ ". Use safer alternatives.");
     cve := PNone;
     auto_fixable := false |}.

Definition traversal_issue (file_path : string) (i : nat) (line : string) : SecurityIssue :=
  {| severity := HIGH;
     category := "Path Traversal";
     title := "Potential path traversal";
     description := PStr "File path constructed with user input";
     file_path := Some file_path;
     line_number := Some i;
     code_snippet := Some (Py.strip line);
     recommendation := Some "Validate and sanitize file paths. Use django.core.files.storage for uploads.";
     cve := PNone;
     auto_fixable := false |}.

(** The test on one line for one secret pattern: a match, no environment
    accessor on the line, a value of more than 10 characters that is no
    placeholder. *)
Definition secret_hit (pattern : Re.regex) (line : string) : bool :=
  match Re.search_i pattern line with
  | Some cap =>
      if negb (Py.contains "os.environ" line) && negb (Py.contains "env(" line) then
        (* Check if it looks like a real secret (not example/dummy) *)
        let value := group1 cap in
        Nat.ltb 10 (String.length value) && negb (is_placeholder value)
      else false
  | None => false
  end.

(** [_scan_file_for_vulnerabilities] *)
Definition _scan_file_for_vulnerabilities (file_path content : string)
           (lines : list string) (self : SecurityAuditor) : SecurityAuditor :=
  (* Check for SQL injection vulnerabilities *)
  let self :=
    for_each CodePat.sql_injection_patterns (fun '(pattern, desc) =>
      for_each (enumerate1 lines) (fun '(i, line) self =>
        if Re.found (Re.search pattern line)
        then add_issue (sql_issue file_path desc i line) self
        else self)) self in
  (* Check for XSS vulnerabilities *)
  let self :=
    for_each CodePat.xss_patterns (fun '(pattern, desc) =>
      for_each (enumerate1 lines) (fun '(i, line) self =>
        if Re.found (Re.search pattern line)
        then add_issue (xss_issue file_path desc i line) self
        else self)) self in
  (* Check for hardcoded secrets *)
  let self :=
    for_each CodePat.secret_patterns (fun '(pattern, secret_type) =>
      for_each (enumerate1 lines) (fun '(i, line) self =>
        if secret_hit pattern line
        then add_issue (secret_issue file_path secret_type i line) self
        else self)) self in
  (* Check for dangerous functions *)
  let self :=
    for_each CodePat.dangerous_patterns (fun '(pattern, desc, severity) =>
      for_each (enumerate1 lines) (fun '(i, line) self =>
        if Re.found (Re.search pattern line)
        then add_issue (dangerous_issue file_path desc severity i line) self
        else self)) self in
  (* Check for path traversal vulnerabilities *)
  for_each CodePat.path_traversal_patterns (fun pattern =>
    for_each (enumerate1 lines) (fun '(i, line) self =>
      if Re.found (Re.search_i pattern line)
      then add_issue (traversal_issue file_path i line) self
      else self)) self.

(** ['venv' in str(file_path) or 'migrations' in str(file_path)] *)
Definition skipped (file_path : string) : bool :=
  Py.contains "venv" file_path || Py.contains "migrations" file_path.

(** [scan_code()]: the loop over the Python files, each opened and scanned
    inside a [try] whose handler prints the exception. *)
Definition scan_code (st : state) : state :=
  for_each (rglob_py (fs st)) (fun '(file_path, f) st =>
    if skipped file_path then st
    else
      match f with
      | Readable content =>
          let lines := Py.splitlines content in
          on_self (_scan_file_for_vulnerabilities file_path content lines) st
      | Unreadable e =>
          print ("Error scanning " ++ file_path ++ ": " ++ e) st
      end) st.

(** ** Tenancy scanner *)

Definition unfiltered_issue (file_path : string) (i : nat) (line : string) : SecurityIssue :=
  {| severity := MEDIUM;
     category := "Multi-Tenant";
     title := "Unfiltered query - potential tenant leak";
     description := PStr ".all() query without tenant filter";
     file_path := Some file_path;
     line_number := Some i;
     code_snippet := Some (Py.strip line);
     recommendation := Some "Ensure query filters by tenant: .filter(tenant=request.tenant)";
     cve := PNone;
     auto_fixable := false |}.

Definition no_tenant_issue (file_path : string) (i : nat) (line : string) : SecurityIssue :=
  {| severity := MEDIUM;
     category := "Multi-Tenant";
     title := "Query without tenant filter";
     description := PStr ".get() query may not filter by tenant";
     file_path := Some file_path;
     line_number := Some i;
     code_snippet := Some (Py.strip line);
     recommendation := Some "Include tenant in query: .get(pk=pk, tenant=request.tenant)";
     cve := PNone;
     auto_fixable := false |}.

(** [_scan_file_for_multi_tenant_issues] *)
Definition _scan_file_for_multi_tenant_issues (file_path : string)
           (lines : list string) (self : SecurityAuditor) : SecurityAuditor :=
  for_each (enumerate1 lines) (fun '(i, line) self =>
    (* Check for unfiltered .all() queries *)
    let self :=
      if Re.found (Re.search CodePat.objects_all line) then
        (* Check if not using unfiltered() explicitly *)
        if negb (Py.contains "unfiltered" line) && negb (Py.contains "admin.py" file_path)
        then add_issue (unfiltered_issue file_path i line) self
        else self
      else self in
    (* Check for .get() without tenant *)
    if Re.found (Re.search CodePat.objects_get line) then
      if negb (Py.contains "tenant" line) && negb (Py.contains "admin.py" file_path)
      then add_issue (no_tenant_issue file_path i line) self
      else self
    else self) self.

(** [scan_multi_tenant()] *)
Definition scan_multi_tenant (st : state) : state :=
  for_each (rglob_py (fs st)) (fun '(file_path, f) st =>
    if skipped file_path then st
    else
      match f with
      | Readable content =>
          let lines := Py.readlines content in
          on_self (_scan_file_for_multi_tenant_issues file_path lines) st
      | Unreadable e =>
          print ("Error scanning " ++ file_path ++ ": " ++ e) st
      end) st.

(** ** Python values: the operations the dependency scanner applies to
    parsed JSON, with the exceptions they raise *)

Module PyVal.

Definition bind {A B} (m : outcome A) (f : A -> outcome B) : outcome B :=
  match m with
  | Return a => f a
  | Raise e => Raise e
  end.

Notation "x <- m ;; k" := (bind m (fun x => k))
  (at level 61, m at next level, right associativity).

Definition type_name (v : pyval) : string :=
  match v with
  | PNone => "NoneType"
  | PBool _ => "bool"
  | PInt _ => "int"
  | PFloat _ => "float"
  | PStr _ => "str"
  | PList _ => "list"
  | PDict _ => "dict"
  end.

Fixpoint lookup (key : string) (d : list (string * pyval)) : option pyval :=
  match d with
  | [] => None
  | (k, v) :: d' => if String.eqb k key then Some v else lookup key d'
  end.

(** [v.get(key, default)]: an [AttributeError] unless [v] is a dict. *)
Definition get (v : pyval) (key : string) (default : pyval) : outcome pyval :=
  match v with
  | PDict d =>
      match lookup key d with
      | Some x => Return x
      | None => Return default
      end
  | _ => Raise ("'" ++ type_name v ++ "' object has no attribute 'get'")
  end.

Fixpoint chars (s : string) : list pyval :=
  match s with
  | EmptyString => []
  | String c s' => PStr (String c "") :: chars s'
  end.

(** [v[i]] for a literal index [i]. *)
Definition index (v : pyval) (i : nat) : outcome pyval :=
  match v with
  | PList l =>
      match nth_error l i with
      | Some x => Return x
      | None => Raise "list index out of range"
      end
  | PStr s =>
      match nth_error (chars s) i with
      | Some x => Return x
      | None => Raise "string index out of range"
      end
  | PDict _ => Raise (Py.str_of_nat i)
  | _ => Raise ("'" ++ type_name v ++ "' object is not subscriptable")
  end.

(** The items of [for x in v]. *)
Definition iter (v : pyval) : outcome (list pyval) :=
  match v with
  | PList l => Return l
  | PStr s => Return (chars s)
  | PDict d => Return (map (fun kv => PStr (fst kv)) d)
  | _ => Raise ("'" ++ type_name v ++ "' object is not iterable")
  end.

(** [len(v)] *)
Definition len (v : pyval) : outcome nat :=
  match v with
  | PList l => Return (List.length l)
  | PStr s => Return (String.length s)
  | PDict d => Return (List.length d)
  | _ => Raise ("object of type '" ++ type_name v ++ "' has no len()")
  end.

Definition hex_digit (n : nat) : string :=
  String (ascii_of_nat (if Nat.ltb n 10 then 48 + n else 87 + n)) "".

Definition hex2 (n : nat) : string :=
  hex_digit (Nat.div n 16) ++ hex_digit (Nat.modulo n 16).

Definition dquote : string := String "034" "".

(** [repr(s)] for a string: single quotes unless the text holds one and
    no double quote. *)
Definition repr_char (q : ascii) (c : ascii) : string :=
  if Ascii.eqb c "\" then "\\"
  else if Ascii.eqb c q then String "\" (String q "")
  else if Ascii.eqb c "009" then "\t"
  else if Ascii.eqb c "010" then "\n"
  else if Ascii.eqb c "013" then "\r"
  else if Nat.ltb (Py.code c) 32 || Nat.eqb (Py.code c) 127
       then "\x" ++ hex2 (Py.code c)
  else String c "".

Fixpoint concat_map (f : ascii -> string) (s : string) : string :=
  match s with
  | EmptyString => ""
  | String c s' => f c ++ concat_map f s'
  end.

Definition repr_str (s : string) : string :=
  let q := if Py.contains "'" s && negb (Py.contains dquote s)
           then "034"%char else "'"%char in
  String q (concat_map (repr_char q) s) ++ String q "".

Fixpoint repr (v : pyval) : string :=
  match v with
  | PNone => "None"
  | PBool true => "True"
  | PBool false => "False"
  | PInt z => Py.str_of_Z z
  | PFloat r => r
  | PStr s => repr_str s
  | PList l => "[" ++ Py.join ", " (map repr l) ++ "]"
  | PDict d =>
      "{" ++ Py.join ", " (map (fun kv => repr_str (fst kv) ++ ": " ++ repr (snd kv)) d) ++ "}"
  end.

(** [str(v)], what an f-string writes for [{v}]. *)
Definition str (v : pyval) : string :=
  match v with
  | PStr s => s
  | _ => repr v
  end.

(** Truth value of [v] in a condition. *)
Definition truthy (v : pyval) : bool :=
  match v with
  | PNone => false
  | PBool b => b
  | PInt z => negb (Z.eqb z 0)
  | PFloat r => negb (String.eqb r "0.0" || String.eqb r "-0.0")
  | PStr s => negb (String.eqb s "")
  | PList l => negb (Nat.eqb (List.length l) 0)
  | PDict d => negb (Nat.eqb (List.length d) 0)
  end.

Definition of_opt_str (o : option string) : pyval :=
  match o with
  | Some s => PStr s
  | None => PNone
  end.

Definition of_opt_nat (o : option nat) : pyval :=
  match o with
  | Some n => PInt (Z.of_nat n)
  | None => PNone
  end.

End PyVal.

Import PyVal.

(** ** Dependency scanner *)

(** The finding built from one entry of pip-audit's [dependencies]; the
    keyword arguments are evaluated in the order written. *)
Definition pip_audit_issue (vuln : pyval) : outcome SecurityIssue :=
  name <- get vuln "name" PNone ;;
  version <- get vuln "version" PNone ;;
  fix_versions <- get vuln "fix_versions" (PList [PStr "latest"]) ;;
  fix0 <- index fix_versions 0 ;;
  vulns <- get vuln "vulns" (PList [PDict []]) ;;
  vuln0 <- index vulns 0 ;;
  id <- get vuln0 "id" PNone ;;
  Return {| severity := HIGH;
            category := "Dependencies";
            title := "Vulnerable package: " ++ str name;
            description := PStr ("Version " ++ str version ++ " has known vulnerabilities");
            file_path := None;
            line_number := None;
            code_snippet := None;
            recommendation := Some ("Update to version " ++ str fix0);
            cve := id;
            auto_fixable := false |}.

(** The finding built from one row of safety's output. *)
Definition safety_issue (vuln : pyval) : outcome SecurityIssue :=
  v0 <- index vuln 0 ;;
  v2 <- index vuln 2 ;;
  n <- len vuln ;;
  v1 <- (if Nat.ltb 1 n then index vuln 1 else Return PNone) ;;
  Return {| severity := HIGH;
            category := "Dependencies";
            title := "Vulnerable package: " ++ str v0;
            description := v2;
            file_path := None;
            line_number := None;
            code_snippet := None;
            recommendation := Some "Update to safe version";
            cve := v1;
            auto_fixable := false |}.

(** A loop adding one finding per item, left by the first exception. *)
Fixpoint add_each (mk : pyval -> outcome SecurityIssue) (l : list pyval)
         (self : SecurityAuditor) : SecurityAuditor * option string :=
  match l with
  | [] => (self, None)
  | vuln :: l' =>
      match mk vuln with
      | Return issue => add_each mk l' (add_issue issue self)
      | Raise e => (self, Some e)
      end
  end.

(** A loop over the items of a Python value inside a [try]: the state
    after it and the exception that left it, if any. *)
Definition add_from (mk : pyval -> outcome SecurityIssue) (items : outcome pyval)
           (st : state) : state * option string :=
  match (v <- items ;; iter v) with
  | Raise e => (st, Some e)
  | Return l =>
      let (self', exc) := add_each mk l (self_ st) in
      (on_self (fun _ => self') st, exc)
  end.

Definition handle (prefix : string) (r : state * option string) : state :=
  match r with
  | (st, Some e) => print (prefix ++ e) st
  | (st, None) => st
  end.

Definition no_scanner_issue : SecurityIssue :=
  {| severity := INFO;
     category := "Dependencies";
     title := "No dependency scanner available";
     description := PStr "Install pip-audit or safety to scan dependencies";
     file_path := None;
     line_number := None;
     code_snippet := None;
     recommendation := Some "pip install pip-audit";
     cve := PNone;
     auto_fixable := false |}.

(** The [try] block of [scan_dependencies]: pip-audit, then safety when
    pip-audit is not installed. *)
Definition audit_manifest (env : Env) (requirements_file : string) (st : state) : state :=
  (* Try using pip-audit *)
  match pip_audit env requirements_file with
  | Completed returncode stdout =>
      if Z.eqb returncode 0 then
        match json_loads env stdout with
        | Raise _ => st
        | Return vulns =>
            handle "⚠️  Error scanning dependencies: "
                   (add_from pip_audit_issue (get vulns "dependencies" (PList [])) st)
        end
      else st
  | NotFound =>
      (* pip-audit not installed, try safety *)
      match safety env requirements_file with
      | Completed _ stdout =>
          if negb (String.eqb stdout "") then
            match json_loads env stdout with
            | Raise e => print ("⚠️  Error running safety: " ++ e) st
            | Return vulns =>
                handle "⚠️  Error running safety: "
                       (add_from safety_issue (Return vulns) st)
            end
          else st
      | NotFound => on_self (add_issue no_scanner_issue) st
      | Failed e => print ("⚠️  Error running safety: " ++ e) st
      end
  | Failed e => print ("⚠️  Error scanning dependencies: " ++ e) st
  end.

(** [scan_dependencies()] *)
Definition scan_dependencies (env : Env) (st : state) : state :=
  let root := project_root (self_ st) in
  let requirements_files :=
    [path_join root "requirements.txt"; path_join root "pyproject.toml"] in
  match find (exists_ (fs st)) requirements_files with
  | None => print "ℹ️  No requirements.txt or pyproject.toml found" st
  | Some requirements_file => audit_manifest env requirements_file st
  end.

(** ** Report engine *)

(** [by_severity.get(severity, [])]: the findings of one severity, in
    discovery order. *)
Definition by_severity (issues : list SecurityIssue) (s : Severity) : list SecurityIssue :=
  filter (fun issue => Severity_eqb (severity issue) s) issues.

Definition severity_icons (s : Severity) : string :=
  match s with
  | CRITICAL => "🔴"
  | HIGH => "🟠"
  | MEDIUM => "🟡"
  | LOW => "🔵"
  | INFO => "ℹ️ "
  end.

Definition nonempty (o : option string) : option string :=
  match o with
  | Some "" => None
  | o => o
  end.

Definition nonzero (o : option nat) : option nat :=
  match o with
  | Some 0 => None
  | o => o
  end.

(** The block of one finding in the text report. *)
Definition text_issue (issue : SecurityIssue) : list string :=
  ([ ""; "[" ++ category issue ++ "] " ++ title issue;
     "Description: " ++ str (description issue) ]
   +++ match nonempty (file_path issue) with
      | Some p =>
          [ "Location: " ++ p ++
            match nonzero (line_number issue) with
            | Some n => ":" ++ Py.str_of_nat n
            | None => ""
            end ]
      | None => []
      end
   +++ match nonempty (code_snippet issue) with
      | Some c => ["Code: " ++ c]
      | None => []
      end
   +++ match nonempty (recommendation issue) with
      | Some r => ["Recommendation: " ++ r]
      | None => []
      end
   +++ (if truthy (cve issue) then ["CVE: " ++ str (cve issue)] else [])
   +++ (if auto_fixable issue then ["✅ Auto-fixable"] else [])).

(** [_generate_text_report] *)
Definition _generate_text_report (self : SecurityAuditor) : string :=
  let count s := List.length (by_severity (issues self) s) in
  let report :=
    ([ Py.times "=" 80; "DJANGO SECURITY AUDIT REPORT"; Py.times "=" 80; "";
       "Total Issues Found: " ++ Py.str_of_nat (List.length (issues self)) ]
     +++ flat_map (fun s =>
          if Nat.ltb 0 (count s)
          then ["  " ++ severity_icons s ++ " " ++ value s ++ ": " ++ Py.str_of_nat (count s)]
          else []) all_severities
     +++ [""]
     +++ flat_map (fun s =>
          match by_severity (issues self) s with
          | [] => []
          | found =>
              [ Py.times "-" 80;
                severity_icons s ++ " " ++ value s ++ " SEVERITY ("
                  ++ Py.str_of_nat (List.length found) ++ " issues)";
                Py.times "-" 80 ]
              +++ flat_map text_issue found
          end) all_severities
     +++ [""; Py.times "=" 80]
     +++ (if Nat.ltb 0 (count CRITICAL)
         then ["🔴 CRITICAL: " ++ Py.str_of_nat (count CRITICAL)
                 ++ " critical issues must be fixed immediately!"]
         else [])
     +++ (if Nat.ltb 0 (count HIGH)
         then ["🟠 HIGH: " ++ Py.str_of_nat (count HIGH)
                 ++ " high severity issues should be addressed soon."]
         else [])) in
  Py.join newline report.

(** [SecurityIssue.to_dict] *)
Definition to_dict (issue : SecurityIssue) : pyval :=
  PDict [ ("severity", PStr (value (severity issue)));
          ("category", PStr (category issue));
          ("title", PStr (title issue));
          ("description", description issue);
          ("file_path", of_opt_str (file_path issue));
          ("line_number", of_opt_nat (line_number issue));
          ("code_snippet", of_opt_str (code_snippet issue));
          ("recommendation", of_opt_str (recommendation issue));
          ("cve", cve issue);
          ("auto_fixable", PBool (auto_fixable issue)) ].

(** [json.dumps(v, indent=2)], with the default [ensure_ascii]. *)
Module Json.

Definition escape_char (c : ascii) : string :=
  if Ascii.eqb c "034" then String "\" dquote
  else if Ascii.eqb c "\" then "\\"
  else if Ascii.eqb c "010" then "\n"
  else if Ascii.eqb c "013" then "\r"
  else if Ascii.eqb c "009" then "\t"
  else if Ascii.eqb c "008" then "\b"
  else if Ascii.eqb c "012" then "\f"
  else if Nat.ltb (Py.code c) 32 || Nat.ltb 126 (Py.code c)
       then "\u00" ++ hex2 (Py.code c)
  else String c "".

Definition encode_str (s : string) : string :=
  dquote ++ concat_map escape_char s ++ dquote.

Definition encode_float (r : string) : string :=
  if String.eqb r "nan" then "NaN"
  else if String.eqb r "inf" then "Infinity"
  else if String.eqb r "-inf" then "-Infinity"
  else r.

Definition break (level : nat) : string := newline ++ Py.times "  " level.

Definition block (opening closing : string) (level : nat) (items : list string) : string :=
  match items with
  | [] => opening ++ closing
  | _ => opening ++ break (S level) ++ Py.join ("," ++ break (S level)) items
         ++ break level ++ closing
  end.

Fixpoint encode (level : nat) (v : pyval) : string :=
  match v with
  | PNone => "null"
  | PBool true => "true"
  | PBool false => "false"
  | PInt z => Py.str_of_Z z
  | PFloat r => encode_float r
  | PStr s => encode_str s
  | PList l => block "[" "]" level (map (encode (S level)) l)
  | PDict d =>
      block "{" "}" level
            (map (fun kv => encode_str (fst kv) ++ ": " ++ encode (S level) (snd kv)) d)
  end.

Definition dumps (v : pyval) : string := encode 0 v.

End Json.

(** The dictionary [_generate_json_report] builds. *)
Definition json_report (self : SecurityAuditor) : pyval :=
  PDict [ ("total_issues", PInt (Z.of_nat (List.length (issues self))));
          ("by_severity",
           PDict (map (fun s =>
                    (value s,
                     PInt (Z.of_nat (List.length (by_severity (issues self) s)))))
                  all_severities));
          ("issues", PList (map to_dict (issues self))) ].

(** [_generate_json_report] *)
Definition _generate_json_report (self : SecurityAuditor) : string :=
  Json.dumps (json_report self).

(** [_generate_html_report] *)
Definition html_issue (issue : SecurityIssue) : list string :=
  let severity_class := Py.lower (value (severity issue)) in
  ([ "<div class='" ++ severity_class ++ "'>";
     "<h3>[" ++ value (severity issue) ++ "] " ++ title issue ++ "</h3>";
     "<p>" ++ str (description issue) ++ "</p>" ]
   +++ match nonempty (file_path issue) with
      | Some p =>
          [ "<p><strong>File:</strong> " ++ p ++ ":" ++
            match nonzero (line_number issue) with
            | Some n => Py.str_of_nat n
            | None => ""
            end ++ "</p>" ]
      | None => []
      end
   +++ match nonempty (recommendation issue) with
      | Some r => ["<p><strong>Fix:</strong> " ++ r ++ "</p>"]
      | None => []
      end
   +++ ["</div><hr>"]).

Definition _generate_html_report (self : SecurityAuditor) : string :=
  let html :=
    ([ "<html><head><title>Django Security Audit</title>";
       "<style>";
       "body { font-family: Arial, sans-serif; margin: 20px; }";
       ".critical { color: #d32f2f; }";
       ".high { color: #f57c00; }";
       ".medium { color: #fbc02d; }";
       ".low { color: #1976d2; }";
       ".info { color: #0097a7; }";
       "</style></head><body>";
       "<h1>Django Security Audit Report</h1>";
       "<p>Total Issues: " ++ Py.str_of_nat (List.length (issues self)) ++ "</p>" ]
     +++ flat_map html_issue (issues self)
     +++ ["</body></html>"]) in
  Py.join "" html.

Inductive format_choice := Text | Json_ | Html.

(** [generate_report] *)
Definition generate_report (format : format_choice) (self : SecurityAuditor) : string :=
  match format with
  | Json_ => _generate_json_report self
  | Html => _generate_html_report self
  | Text => _generate_text_report self
  end.

(** [get_exit_code]: the loop returns at the first Critical or High
    finding. *)
Fixpoint get_exit_code_loop (l : list SecurityIssue) : Z :=
  match l with
  | [] => 0
  | issue :: l' =>
      match severity issue with
      | CRITICAL | HIGH => 1
      | _ => get_exit_code_loop l'
      end
  end.

Definition get_exit_code (self : SecurityAuditor) : Z :=
  get_exit_code_loop (issues self).

(** ** Command line *)

Inductive scan_choice :=
| ScanSettings | ScanCode | ScanDependencies | ScanMultiTenant | ScanAll.

Inductive fail_choice := FailCritical | FailHigh | FailMedium | FailLow.

(** What [parse_args] returns. *)
Record Args := mkArgs {
  arg_scan : scan_choice;
  arg_auto_fix : bool;
  arg_report_only : bool;
  arg_format : format_choice;
  arg_project_root : string;
  arg_fail_on : option fail_choice
}.

(** The [fail_severity] dictionary of [main]. *)
Definition fail_severity (f : fail_choice) : Severity :=
  match f with
  | FailCritical => CRITICAL
  | FailHigh => HIGH
  | FailMedium => MEDIUM
  | FailLow => LOW
  end.

(** The loop of [main] under [--fail-on]: [sys.exit(1)] at the first
    finding with [issue.severity.value <= fail_severity.value], a
    comparison of two strings. *)
Fixpoint fail_on_hit (threshold : Severity) (l : list SecurityIssue) : bool :=
  match l with
  | [] => false
  | issue :: l' =>
      if String.leb (value (severity issue)) (value threshold) then true
      else fail_on_hit threshold l'
  end.

(** The exit code [main] ends with. *)
Definition determine_exit_code (fail_on : option fail_choice) (self : SecurityAuditor) : Z :=
  match fail_on with
  | Some f =>
      if fail_on_hit (fail_severity f) (issues self) then 1
      else get_exit_code self
  | None => get_exit_code self
  end.

(** How the process ends: [sys.exit(code)], or an exception nobody caught,
    after which the interpreter prints a traceback and exits with status
    1. *)
Inductive ending :=
| Exit (code : Z)
| Uncaught (error : string).

Definition exit_status (e : ending) : Z :=
  match e with
  | Exit code => code
  | Uncaught _ => 1
  end.

Definition structured (format : format_choice) : bool :=
  match format with
  | Json_ | Html => true
  | Text => false
  end.

(** The [log] function of [main]. *)
Definition log (args : Args) (msg : string) (st : state) : state :=
  if structured (arg_format args) then print_err msg st else print msg st.

Definition wants (args : Args) (which : scan_choice) : bool :=
  match arg_scan args, which with
  | ScanAll, _ => true
  | ScanSettings, ScanSettings | ScanCode, ScanCode
  | ScanDependencies, ScanDependencies | ScanMultiTenant, ScanMultiTenant => true
  | _, _ => false
  end.

(** What [main] does after the settings scan. *)
Definition main_after_settings (args : Args) (env : Env) (st : state) : state * ending :=
  let st :=
    if wants args ScanCode
    then scan_code (log args "🔍 Scanning code for vulnerabilities..." st)
    else st in
  let st :=
    if wants args ScanDependencies
    then scan_dependencies env (log args "🔍 Checking dependencies..." st)
    else st in
  let st :=
    if wants args ScanMultiTenant
    then scan_multi_tenant (log args "🔍 Checking multi-tenant security..." st)
    else st in
  (* Generate and display report *)
  let report := generate_report (arg_format args) (self_ st) in
  let st :=
    match arg_format args with
    | Json_ => print report st
    | _ => print (newline ++ report) st
    end in
  (* Determine exit code *)
  (st, Exit (determine_exit_code (arg_fail_on args) (self_ st))).

(** [main]: the state the process ends in, and how it ends. *)
Definition main (args : Args) (env : Env) : state * ending :=
  (* Initialize auditor *)
  let auto_fix := arg_auto_fix args && negb (arg_report_only args) in
  let st := {| self_ := init (arg_project_root args) auto_fix;
               fs := tree env; out := ""; err := "" |} in
  (* Run scans *)
  if wants args ScanSettings then
    match scan_settings (log args "🔍 Scanning Django settings..." st) with
    | (st, Some e) => (st, Uncaught e)
    | (st, None) => main_after_settings args env st
    end
  else main_after_settings args env st.

(** * Statements about the auditor *)

(** ** What the scanners add, written as lists *)

(** [self] with the findings [l] appended. *)
Definition add_all (l : list SecurityIssue) (self : SecurityAuditor) : SecurityAuditor :=
  {| project_root := project_root self;
     auto_fix := auto_fix self;
     issues := issues self +++ l |}.

(** A state with [l] appended to the findings and [o] to standard output. *)
Definition emit (l : list SecurityIssue) (o : string) (st : state) : state :=
  {| self_ := add_all l (self_ st); fs := fs st; out := out st ++ o; err := err st |}.

Definition when (b : bool) (issue : SecurityIssue) : list SecurityIssue :=
  if b then [issue] else [].

(** The findings of [scan_settings_content]. *)
Definition settings_findings (path content : string) : list SecurityIssue :=
  when (Re.found (Re.search Pat.debug_true content)) (debug_enabled_issue path)
  +++ when (Re.found (Re.search Pat.secret_key_literal content)
            && (negb (Py.contains "os.environ" content) && negb (Py.contains "env(" content)))
           (hardcoded_secret_key_issue path)
  +++ when (Re.found (Re.search Pat.allowed_hosts_star content)
            || Re.found (Re.search Pat.allowed_hosts_quoted_star content))
           (allowed_hosts_issue path)
  +++ flat_map (fun mw => when (negb (Py.contains mw content))
                               (missing_middleware_issue path mw))
               required_middleware
  +++ flat_map (fun '(setting, (expected, _)) =>
                  if negb (Py.contains setting content)
                  then [missing_setting_issue path setting expected]
                  else when (Re.found (Re.search (Pat.setting_false setting) content))
                            (insecure_setting_issue path setting))
               https_settings
  +++ when (negb (Py.contains "AUTH_PASSWORD_VALIDATORS" content))
           (missing_validators_issue path)
  +++ when (Re.found (Re.search Pat.csp_report_only content)) (csp_issue path).

(** The secret findings of one file. *)
Definition secret_findings (path : string) (lines : list string) : list SecurityIssue :=
  flat_map (fun '(pattern, secret_type) =>
    flat_map (fun '(i, line) =>
      when (secret_hit pattern line) (secret_issue path secret_type i line))
      (enumerate1 lines)) CodePat.secret_patterns.

(** The findings of [_scan_file_for_vulnerabilities]. *)
Definition file_findings (path : string) (lines : list string) : list SecurityIssue :=
  flat_map (fun '(pattern, desc) =>
    flat_map (fun '(i, line) =>
      when (Re.found (Re.search pattern line)) (sql_issue path desc i line))
      (enumerate1 lines)) CodePat.sql_injection_patterns
  +++ flat_map (fun '(pattern, desc) =>
    flat_map (fun '(i, line) =>
      when (Re.found (Re.search pattern line)) (xss_issue path desc i line))
      (enumerate1 lines)) CodePat.xss_patterns
  +++ secret_findings path lines
  +++ flat_map (fun '(pattern, desc, sev) =>
    flat_map (fun '(i, line) =>
      when (Re.found (Re.search pattern line)) (dangerous_issue path desc sev i line))
      (enumerate1 lines)) CodePat.dangerous_patterns
  +++ flat_map (fun pattern =>
    flat_map (fun '(i, line) =>
      when (Re.found (Re.search_i pattern line)) (traversal_issue path i line))
      (enumerate1 lines)) CodePat.path_traversal_patterns.

(** The findings of [_scan_file_for_multi_tenant_issues]. *)
Definition tenant_findings (path : string) (lines : list string) : list SecurityIssue :=
  flat_map (fun '(i, line) =>
    when (Re.found (Re.search CodePat.objects_all line)
          && (negb (Py.contains "unfiltered" line) && negb (Py.contains "admin.py" path)))
         (unfiltered_issue path i line)
    +++ when (Re.found (Re.search CodePat.objects_get line)
              && (negb (Py.contains "tenant" line) && negb (Py.contains "admin.py" path)))
             (no_tenant_issue path i line))
    (enumerate1 lines).

(** What one entry of the tree gives to [scan_code] and to
    [scan_multi_tenant]: findings, and text on standard output. *)
Definition code_entry_findings (e : string * file) : list SecurityIssue :=
  if skipped (fst e) then []
  else match snd e with
       | Readable content => file_findings (fst e) (Py.splitlines content)
       | Unreadable _ => []
       end.

Definition tenant_entry_findings (e : string * file) : list SecurityIssue :=
  if skipped (fst e) then []
  else match snd e with
       | Readable content => tenant_findings (fst e) (Py.readlines content)
       | Unreadable _ => []
       end.

Definition entry_output (e : string * file) : string :=
  if skipped (fst e) then ""
  else match snd e with
       | Readable _ => ""
       | Unreadable msg => "Error scanning " ++ fst e ++ ": " ++ msg ++ newline
       end.

Fixpoint concat_str (l : list string) : string :=
  match l with
  | [] => ""
  | x :: l' => x ++ concat_str l'
  end.

(** What the [try] block of [scan_dependencies] adds and prints for a
    manifest, read off a run that starts with no finding and nothing
    printed. *)
Definition blank (root : string) (t : files) : state :=
  {| self_ := init root false; fs := t; out := ""; err := "" |}.

Definition manifest_findings (env : Env) (manifest : string) : list SecurityIssue :=
  issues (self_ (audit_manifest env manifest (blank "." []))).

Definition manifest_output (env : Env) (manifest : string) : string :=
  out (audit_manifest env manifest (blank "." [])).

(** The manifest [scan_dependencies] settles on: the first of
    [requirements.txt] and [pyproject.toml] that exists at the root. *)
Definition manifest_of (t : files) (root : string) : option string :=
  find (exists_ t) [path_join root "requirements.txt"; path_join root "pyproject.toml"].

Definition dependency_findings (env : Env) (t : files) (root : string) : list SecurityIssue :=
  match manifest_of t root with
  | Some manifest => manifest_findings env manifest
  | None => []
  end.

Definition dependency_output (env : Env) (t : files) (root : string) : string :=
  match manifest_of t root with
  | Some manifest => manifest_output env manifest
  | None => "ℹ️  No requirements.txt or pyproject.toml found" ++ newline
  end.

(** What a loop of [add_each] adds, and the exception that ends it. *)
Fixpoint collect (mk : pyval -> outcome SecurityIssue) (l : list pyval)
  : list SecurityIssue * option string :=
  match l with
  | [] => ([], None)
  | vuln :: l' =>
      match mk vuln with
      | Return issue => (issue :: fst (collect mk l'), snd (collect mk l'))
      | Raise e => ([], Some e)
      end
  end.

Definition collect_from (mk : pyval -> outcome SecurityIssue) (items : outcome pyval)
  : list SecurityIssue * option string :=
  match (v <- items ;; iter v) with
  | Raise e => ([], Some e)
  | Return l => collect mk l
  end.

Definition warning (prefix : string) (exc : option string) : string :=
  match exc with
  | Some e => prefix ++ e ++ newline
  | None => ""
  end.

(** Two states that differ at most in the auditor's [auto_fix] flag. *)
Definition same_but_fix (s1 s2 : state) : Prop :=
  project_root (self_ s1) = project_root (self_ s2)
  /\ issues (self_ s1) = issues (self_ s2)
  /\ fs s1 = fs s2 /\ out s1 = out s2 /\ err s1 = err s2.

(** Two states of runs over the same tree met in two orders: the same
    root, the findings and the entries of the tree up to their order, and
    the same settings file in front. *)
Definition same_but_order (s1 s2 : state) : Prop :=
  project_root (self_ s1) = project_root (self_ s2)
  /\ Permutation (issues (self_ s1)) (issues (self_ s2))
  /\ Permutation (fs s1) (fs s2)
  /\ hd_error (rglob_settings (fs s1)) = hd_error (rglob_settings (fs s2)).

(** A field of the JSON report. *)
Definition json_field (key : string) (v : pyval) : option pyval :=
  match v with
  | PDict d => lookup key d
  | _ => None
  end.

(** ** The ranking of the specification and sorting by severity *)

(** Critical > High > Medium > Low > Info, as the specification ranks the
    severities: the larger the rank, the more severe. *)
Definition rank (s : Severity) : nat :=
  match s with
  | CRITICAL => 4
  | HIGH => 3
  | MEDIUM => 2
  | LOW => 1
  | INFO => 0
  end.

Definition more_severe (a b : Severity) : Prop := rank b < rank a.

(** [a] is at or above [b] in that ranking. *)
Definition at_or_above (a b : Severity) : bool := Nat.leb (rank b) (rank a).

(** [sorted(findings, key=lambda f: f.severity)]: Python's sort is stable
    and compares keys with [<] only, here [Severity.__lt__]. *)
Fixpoint insert_by_severity (x : SecurityIssue) (l : list SecurityIssue) : list SecurityIssue :=
  match l with
  | [] => [x]
  | y :: l' =>
      if Severity_lt (severity y) (severity x)
      then y :: insert_by_severity x l'
      else x :: y :: l'
  end.

Definition sort_by_severity (l : list SecurityIssue) : list SecurityIssue :=
  fold_right insert_by_severity [] l.

(** [x] stands before [y] in [l]. *)
Definition before (x y : SecurityIssue) (l : list SecurityIssue) : Prop :=
  exists l1 l2 l3, l = l1 +++ x :: l2 +++ y :: l3.

(** The order a sorted list is in: by the [order] of [Severity.__lt__]. *)
Definition sev_le (x y : SecurityIssue) : Prop :=
  order (severity x) <= order (severity y).

(** Critical or High: what [get_exit_code] looks for. *)
Definition critical_or_high (issue : SecurityIssue) : bool :=
  match severity issue with
  | CRITICAL | HIGH => true
  | _ => false
  end.

(** The test of the [--fail-on] loop on one finding. *)
Definition name_le (threshold : Severity) (issue : SecurityIssue) : bool :=
  String.leb (value (severity issue)) (value threshold).

(** ** Findings about the debug flag *)

(** A finding is about the debug flag when its title, description or
    recommendation names it. *)
Definition about_debug (issue : SecurityIssue) : bool :=
  Py.contains "DEBUG" (title issue)
  || Py.contains "DEBUG" (str (description issue))
  || match recommendation issue with
     | Some r => Py.contains "DEBUG" r
     | None => false
     end.

(** A finding of the hardcoded-secret rule. *)
Definition is_secret (issue : SecurityIssue) : bool :=
  String.eqb (category issue) "Secrets".

(** ** Snippets *)

Definition snippet_length (issue : SecurityIssue) : nat :=
  match code_snippet issue with
  | Some s => String.length s
  | None => 0
  end.

(** ** Sample inputs *)

Module Sample.

Definition dq : string := String "034" "".

(** A finding of a given severity. *)
Definition finding (s : Severity) : SecurityIssue :=
  dangerous_issue "app/views.py" "eval() usage" s 1 "eval(x)".

Definition auditor (l : list SecurityIssue) : SecurityAuditor :=
  {| project_root := "."; auto_fix := false; issues := l |}.

Definition no_json : string -> outcome pyval :=
  fun _ => Raise "Expecting value: line 1 column 1 (char 0)".

(** No tool installed. *)
Definition env_of (t : files) : Env :=
  {| tree := t;
     pip_audit := fun _ => NotFound;
     safety := fun _ => NotFound;
     json_loads := no_json |}.

Definition args_of (scan : scan_choice) (format : format_choice) : Args :=
  {| arg_scan := scan;
     arg_auto_fix := false;
     arg_report_only := false;
     arg_format := format;
     arg_project_root := ".";
     arg_fail_on := None |}.

(** A settings file nobody may read. *)
Definition locked_settings : files :=
  [("proj/settings.py", Unreadable "[Errno 13] Permission denied: 'proj/settings.py'")].

(** A source file nobody may read, beside one with a finding. *)
Definition locked_source : files :=
  [ ("app/locked.py", Unreadable "[Errno 13] Permission denied: 'app/locked.py'");
    ("app/views.py", Readable "result = eval(expr)") ].

(** Settings with the debug flag on, and settings without the flag. *)
Definition settings_debug_on : string :=
  "DEBUG = True" ++ newline ++ "ALLOWED_HOSTS = ['example.com']" ++ newline.

Definition settings_no_debug : string :=
  "ALLOWED_HOSTS = ['example.com']" ++ newline.


Definition secret_key_line : string :=
  "SECRET_KEY = " ++ dq ++ "aVeryLongActualSecretValue123" ++ dq.


(** A line of 126 characters calling [eval]. *)
Definition long_line : string := "eval(" ++ Py.times "x" 120 ++ ")".

Definition long_source : files := [("app/long.py", Readable long_line)].

(** Runs under [--fail-on]: a source file with one High finding, and a
    source file with one Medium finding of the tenancy scanner. *)
Definition high_source : files :=
  [("app/cache.py", Readable "data = pickle.loads(blob)")].

Definition medium_source : files :=
  [("app/views.py", Readable "items = Item.objects.all()")].

Definition args_fail_on (scan : scan_choice) (f : fail_choice) : Args :=
  {| arg_scan := scan;
     arg_auto_fix := false;
     arg_report_only := false;
     arg_format := Text;
     arg_project_root := ".";
     arg_fail_on := Some f |}.

(** A manifest, and no tool to read it. *)
Definition manifest_only : files :=
  [("requirements.txt", Readable "Django==3.2")].

(** pip-audit installed and answering with text that is not JSON. *)
Definition env_garbled : Env :=
  {| tree := manifest_only;
     pip_audit := fun _ => Completed 0 "not json";
     safety := fun _ => NotFound;
     json_loads := no_json |}.

(** Two files with one finding each, met in the two possible orders. *)
Definition file_a : string * file := ("a.py", Readable "eval(a)").
Definition file_b : string * file := ("b.py", Readable "eval(b)").

Definition env_ab : Env := env_of [file_a; file_b].
Definition env_ba : Env := env_of [file_b; file_a].

(** Two settings files, the first with the debug flag on, met in the two
    possible orders. *)
Definition settings_a : string * file := ("a/settings.py", Readable "DEBUG = True").
Definition settings_b : string * file := ("b/settings.py", Readable "DEBUG = False").
Definition env_sab : Env := env_of [settings_a; settings_b].
Definition env_sba : Env := env_of [settings_b; settings_a].

End Sample.

(** ** Further notions *)

(** The sum of the integer values of a JSON object. *)
Definition sum_counts (d : list (string * pyval)) : Z :=
  fold_right (fun kv acc => match snd kv with
                            | PInt z => (z + acc)%Z
                            | _ => acc
                            end) 0%Z d.

(** What all findings of the file scanners have: the file they come from,
    a line of it with its 1-based number, and a snippet taken from that
    line; no reference id and no automatic fix. *)
Definition located_in (path : string) (lines : list string) (issue : SecurityIssue) : Prop :=
  file_path issue = Some path
  /\ cve issue = PNone
  /\ auto_fixable issue = false
  /\ exists i line,
       line_number issue = Some i
       /\ 1 <= i <= List.length lines
       /\ nth_error lines (i - 1) = Some line
       /\ (code_snippet issue = Some (Py.strip line)
           \/ code_snippet issue = Some (Py.take 100 (Py.strip line))).

(** An entry of the tree that neither [scan_code] nor [scan_multi_tenant]
    opens: not a [*.py] name, or a path with [venv] or [migrations] in
    it. *)
Definition ignored_entry (e : string * file) : bool :=
  negb (Py.endswith (basename (fst e)) ".py") || skipped (fst e).

Definition is_traversal (issue : SecurityIssue) : bool :=
  String.eqb (category issue) "Path Traversal".

Definition is_hardcoded_secret_key (issue : SecurityIssue) : bool :=
  String.eqb (title issue) "Hardcoded SECRET_KEY".

(** [s2] comes from [s1] by adding findings after those of [s1] and text
    to standard output, and nothing else. *)
Definition grows (s1 s2 : state) : Prop :=
  project_root (self_ s2) = project_root (self_ s1)
  /\ auto_fix (self_ s2) = auto_fix (self_ s1)
  /\ fs s2 = fs s1
  /\ err s2 = err s1
  /\ (exists l, issues (self_ s2) = issues (self_ s1) +++ l)
  /\ (exists o, out s2 = out s1 ++ o).

(** A state with [l] appended to the findings, [o] to standard output and
    [e] to standard error. *)
Definition emit_all (l : list SecurityIssue) (o e : string) (st : state) : state :=
  {| self_ := add_all l (self_ st); fs := fs st; out := out st ++ o; err := err st ++ e |}.

(** What a progress line of [main] adds to each stream. *)
Definition progress_out (args : Args) (msg : string) : string :=
  if structured (arg_format args) then "" else msg ++ newline.

Definition progress_err (args : Args) (msg : string) : string :=
  if structured (arg_format args) then msg ++ newline else "".

(** The settings file [scan_settings] picks, and what the scan gives for
    it. *)
Definition settings_issues (t : files) : list SecurityIssue :=
  match hd_error (rglob_settings t) with
  | Some (path, Readable content) => settings_findings path content
  | _ => []
  end.

Definition settings_output (t : files) : string :=
  match hd_error (rglob_settings t) with
  | None => "❌ Could not find settings.py" ++ newline
  | Some _ => ""
  end.

Definition settings_error (t : files) : option string :=
  match hd_error (rglob_settings t) with
  | Some (_, Unreadable e) => Some e
  | _ => None
  end.

(** What the scans after the settings scan add and print in a run. *)
Definition later_issues (args : Args) (env : Env) (t : files) (root : string)
  : list SecurityIssue :=
  (if wants args ScanCode then flat_map code_entry_findings (rglob_py t) else [])
  +++ (if wants args ScanDependencies then dependency_findings env t root else [])
  +++ (if wants args ScanMultiTenant then flat_map tenant_entry_findings (rglob_py t)
       else []).

Definition later_out (args : Args) (env : Env) (t : files) (root : string) : string :=
  (if wants args ScanCode
   then progress_out args "🔍 Scanning code for vulnerabilities..."
        ++ concat_str (map entry_output (rglob_py t))
   else "")
  ++ (if wants args ScanDependencies
      then progress_out args "🔍 Checking dependencies..."
           ++ dependency_output env t root
      else "")
  ++ (if wants args ScanMultiTenant
      then progress_out args "🔍 Checking multi-tenant security..."
           ++ concat_str (map entry_output (rglob_py t))
      else "").

Definition later_err (args : Args) : string :=
  (if wants args ScanCode
   then progress_err args "🔍 Scanning code for vulnerabilities..." else "")
  ++ (if wants args ScanDependencies
      then progress_err args "🔍 Checking dependencies..." else "")
  ++ (if wants args ScanMultiTenant
      then progress_err args "🔍 Checking multi-tenant security..." else "").


(** The text [main] prints for the report. *)
Definition printed_report (format : format_choice) (self : SecurityAuditor) : string :=
  match format with
  | Json_ => generate_report format self
  | _ => newline ++ generate_report format self
  end.

(** What every finding of the dependency scanner looks like: of category
    Dependencies, with no file, line or snippet, not auto-fixable, and
    High unless it is the finding that no scanner is available. *)
Definition dependency_shaped (issue : SecurityIssue) : Prop :=
  category issue = "Dependencies"
  /\ file_path issue = None /\ line_number issue = None /\ code_snippet issue = None
  /\ auto_fixable issue = false
  /\ (severity issue = HIGH \/ issue = no_scanner_issue).

(** What every finding of the settings scanner looks like. *)
Definition settings_shaped (path : string) (issue : SecurityIssue) : Prop :=
  category issue = "Settings"
  /\ file_path issue = Some path /\ line_number issue = None /\ code_snippet issue = None
  /\ cve issue = PNone
  /\ (severity issue = CRITICAL \/ severity issue = HIGH \/ severity issue = MEDIUM).

(** A finding on line [i]. *)
Definition on_line (i : nat) (issue : SecurityIssue) : bool :=
  match line_number issue with
  | Some j => Nat.eqb j i
  | None => false
  end.

(** ** Further sample inputs *)

Module Sample2.


(** A view of the administration layer and an ordinary view with the same
    query. *)
Definition query_lines : list string := ["rows = Order.objects.all()"].

(** A tree with a note, a migration and a file of a virtual environment
    beside one source file. *)
Definition note : string * file := ("docs/notes.txt", Readable "eval(x)").
Definition migration : string * file := ("app/migrations/0001_initial.py", Readable "eval(x)").
Definition source : string * file := ("app/views.py", Readable "eval(x)").

End Sample2.

Module Sample3.

(** A project with readable settings, one source file and a manifest. *)
Definition project : files :=
  [ ("proj/settings.py", Readable "DEBUG = True");
    ("app/views.py", Readable "rows = Order.objects.all()");
    ("app/cache.py", Readable "data = pickle.loads(blob)");
    ("requirements.txt", Readable "Django==3.2") ].

(** The same project on a machine where pip-audit answers. *)
Definition env_with_tool : Env :=
  {| tree := project;
     pip_audit := fun _ => Completed 1 "{}";
     safety := fun _ => Completed 0 "[]";
     json_loads := Sample.no_json |}.

(** A project with other file contents and the same manifest. *)
Definition other_project : files :=
  [ ("requirements.txt", Readable "Flask==2.0"); ("run.py", Readable "eval(x)") ].

End Sample3.

Module Sample4.

(** An answer of pip-audit with three packages, the second without known
    vulnerabilities. *)
Definition django : pyval :=
  PDict [ ("name", PStr "django"); ("version", PStr "3.2");
          ("vulns", PList [PDict [("id", PStr "PYSEC-2021-98");
                                  ("fix_versions", PList [PStr "3.2.4"])]]) ].

Definition requests : pyval :=
  PDict [ ("name", PStr "requests"); ("version", PStr "2.31.0"); ("vulns", PList []) ].

Definition flask : pyval :=
  PDict [ ("name", PStr "flask"); ("version", PStr "0.12");
          ("vulns", PList [PDict [("id", PStr "PYSEC-2019-179")]]) ].

Definition answer : pyval := PDict [("dependencies", PList [django; requests; flask])].

Definition env_answer (status : Z) : Env :=
  {| tree := Sample.manifest_only;
     pip_audit := fun _ => Completed status "audit";
     safety := fun _ => NotFound;
     json_loads := fun text => if String.eqb text "audit" then Return answer
                               else Raise "Expecting value: line 1 column 1 (char 0)" |}.

Definition django_issue : SecurityIssue :=
  {| severity := HIGH;
     category := "Dependencies";
     title := "Vulnerable package: django";
     description := PStr "Version 3.2 has known vulnerabilities";
     file_path := None;
     line_number := None;
     code_snippet := None;
     recommendation := Some "Update to version latest";
     cve := PStr "PYSEC-2021-98";
     auto_fixable := false |}.

End Sample4.

Module Sample5.

(** A source file with a key on its second line. *)
Definition keys : string * file :=
  ("app/keys.py", Readable ("import os" ++ newline ++ Sample.secret_key_line)).

End Sample5.

(** * Proofs *)

(** ** Strings and lists *)

Lemma append_nil_r (s : string) : s ++ "" = s.
Proof. induction s as [|c s IH]; simpl; [reflexivity | now rewrite IH]. Qed.

Lemma append_assoc (a b c : string) : (a ++ b) ++ c = a ++ b ++ c.
Proof. induction a as [|x a IH]; simpl; [reflexivity | now rewrite IH]. Qed.

Lemma concat_str_app (l1 l2 : list string) :
  concat_str (l1 +++ l2) = concat_str l1 ++ concat_str l2.
Proof.
  induction l1 as [|x l1 IH]; simpl; [reflexivity|].
  now rewrite IH, append_assoc.
Qed.

Lemma take_length (n : nat) (s : string) : String.length (Py.take n s) <= n.
Proof.
  revert s; induction n as [|n IH]; intros [|c s]; simpl; try lia.
  specialize (IH s); lia.
Qed.

Lemma Permutation_filter {A} (f : A -> bool) (l l' : list A) :
  Permutation l l' -> Permutation (filter f l) (filter f l').
Proof.
  induction 1 as [| x l l' _ IH | x y l | l l' l'' _ IH1 _ IH2]; simpl.
  - constructor.
  - destruct (f x); [now constructor | assumption].
  - destruct (f x), (f y); try reflexivity. apply perm_swap.
  - now transitivity (filter f l').
Qed.

Lemma Permutation_existsb {A} (f : A -> bool) (l l' : list A) :
  Permutation l l' -> existsb f l = existsb f l'.
Proof.
  induction 1 as [| x l l' _ IH | x y l | l l' l'' _ IH1 _ IH2]; simpl.
  - reflexivity.
  - now rewrite IH.
  - destruct (f x), (f y); reflexivity.
  - congruence.
Qed.

(** ** The auditor's loops only append *)

Lemma add_all_nil (self : SecurityAuditor) : add_all [] self = self.
Proof. destruct self; unfold add_all; simpl. now rewrite app_nil_r. Qed.

Lemma add_all_app (l1 l2 : list SecurityIssue) (self : SecurityAuditor) :
  add_all l2 (add_all l1 self) = add_all (l1 +++ l2) self.
Proof. unfold add_all; simpl. now rewrite app_assoc. Qed.

Lemma add_issue_add_all (issue : SecurityIssue) (self : SecurityAuditor) :
  add_issue issue self = add_all [issue] self.
Proof. reflexivity. Qed.

Lemma when_add_all (b : bool) (issue : SecurityIssue) (self : SecurityAuditor) :
  (if b then add_issue issue self else self) = add_all (when b issue) self.
Proof. destruct b; simpl; [reflexivity | now rewrite add_all_nil]. Qed.

Lemma for_each_add_all {A} (g : A -> list SecurityIssue)
      (body : A -> SecurityAuditor -> SecurityAuditor) (l : list A) :
  (forall x self, body x self = add_all (g x) self) ->
  forall self, for_each l body self = add_all (flat_map g l) self.
Proof.
  intros Hbody. unfold for_each.
  induction l as [|x l IH]; intros self; simpl.
  - now rewrite add_all_nil.
  - now rewrite IH, Hbody, add_all_app.
Qed.

Lemma scan_settings_content_spec (path content : string) (self : SecurityAuditor) :
  scan_settings_content path content self = add_all (settings_findings path content) self.
Proof.
  unfold scan_settings_content, settings_findings. cbv zeta.
  rewrite !when_add_all.
  rewrite (for_each_add_all
             (fun mw => when (negb (Py.contains mw content))
                             (missing_middleware_issue path mw)))
    by (intros; apply when_add_all).
  rewrite (for_each_add_all
             (fun '(setting, (expected, _)) =>
                if negb (Py.contains setting content)
                then [missing_setting_issue path setting expected]
                else when (Re.found (Re.search (Pat.setting_false setting) content))
                          (insecure_setting_issue path setting))).
  2:{ intros [setting [expected sev]] self'.
      destruct (negb (Py.contains setting content)); [reflexivity|].
      apply when_add_all. }
  destruct (Re.found (Re.search Pat.secret_key_literal content)); simpl andb.
  - rewrite !add_all_app. f_equal; repeat rewrite <- app_assoc; reflexivity.
  - rewrite !add_all_app. cbv [when]. cbn [app].
    f_equal; repeat rewrite <- app_assoc; reflexivity.
Qed.

Lemma for_each_step {A} (g : A -> list SecurityIssue)
      (body : A -> SecurityAuditor -> SecurityAuditor) (l : list A)
      (self self' : SecurityAuditor) :
  (forall x s, body x s = add_all (g x) s) ->
  self = self' ->
  for_each l body self = add_all (flat_map g l) self'.
Proof. intros Hbody <-. now apply for_each_add_all. Qed.

Ltac line_loop :=
  apply for_each_add_all; intros [? ?] ?; cbv beta iota; apply when_add_all.

Lemma scan_file_spec (path content : string) (lines : list string)
      (self : SecurityAuditor) :
  _scan_file_for_vulnerabilities path content lines self
  = add_all (file_findings path lines) self.
Proof.
  unfold _scan_file_for_vulnerabilities, file_findings, secret_findings. cbv zeta.
  rewrite <- !add_all_app.
  apply for_each_step; [intros pattern s; line_loop|].
  apply for_each_step; [intros [[pattern desc] sev] s; line_loop|].
  apply for_each_step; [intros [pattern secret_type] s; line_loop|].
  apply for_each_step; [intros [pattern desc] s; line_loop|].
  apply for_each_step; [intros [pattern desc] s; line_loop|].
  reflexivity.
Qed.

Lemma scan_tenant_spec (path : string) (lines : list string) (self : SecurityAuditor) :
  _scan_file_for_multi_tenant_issues path lines self
  = add_all (tenant_findings path lines) self.
Proof.
  unfold _scan_file_for_multi_tenant_issues, tenant_findings.
  apply for_each_add_all. intros [i line] s. cbv beta iota zeta.
  destruct (Re.found (Re.search CodePat.objects_all line));
    destruct (Re.found (Re.search CodePat.objects_get line)); cbn [andb];
    rewrite ?when_add_all, ?add_all_app; cbv [when]; cbn [app];
    rewrite ?app_nil_r, ?add_all_nil; reflexivity.
Qed.

(** ** The scanners on the program's state *)

Lemma emit_nil (st : state) : emit [] "" st = st.
Proof.
  destruct st; unfold emit; simpl. now rewrite add_all_nil, append_nil_r.
Qed.

Lemma emit_emit (l1 l2 : list SecurityIssue) (o1 o2 : string) (st : state) :
  emit l2 o2 (emit l1 o1 st) = emit (l1 +++ l2) (o1 ++ o2) st.
Proof. unfold emit; simpl. now rewrite add_all_app, append_assoc. Qed.

Lemma print_emit (msg : string) (st : state) :
  print msg st = emit [] (msg ++ newline) st.
Proof. unfold print, emit. now rewrite add_all_nil. Qed.

Lemma on_self_emit (f : SecurityAuditor -> SecurityAuditor)
      (l : list SecurityIssue) (st : state) :
  (forall self, f self = add_all l self) -> on_self f st = emit l "" st.
Proof. intros H. unfold on_self, emit. now rewrite H, append_nil_r. Qed.

Lemma for_each_emit {A} (g : A -> list SecurityIssue) (o : A -> string)
      (body : A -> state -> state) (l : list A) :
  (forall x st, body x st = emit (g x) (o x) st) ->
  forall st, for_each l body st = emit (flat_map g l) (concat_str (map o l)) st.
Proof.
  intros Hbody. unfold for_each.
  induction l as [|x l IH]; intros st; simpl.
  - now rewrite emit_nil.
  - now rewrite IH, Hbody, emit_emit.
Qed.

Lemma scan_code_spec (st : state) :
  scan_code st
  = emit (flat_map code_entry_findings (rglob_py (fs st)))
         (concat_str (map entry_output (rglob_py (fs st)))) st.
Proof.
  unfold scan_code. apply for_each_emit. intros [path f] st'.
  unfold code_entry_findings, entry_output. cbn [fst snd].
  destruct (skipped path); [now rewrite emit_nil|].
  destruct f as [content|msg].
  - apply on_self_emit. intros self. apply scan_file_spec.
  - rewrite print_emit. now rewrite !append_assoc.
Qed.

Lemma scan_multi_tenant_spec (st : state) :
  scan_multi_tenant st
  = emit (flat_map tenant_entry_findings (rglob_py (fs st)))
         (concat_str (map entry_output (rglob_py (fs st)))) st.
Proof.
  unfold scan_multi_tenant. apply for_each_emit. intros [path f] st'.
  unfold tenant_entry_findings, entry_output. cbn [fst snd].
  destruct (skipped path); [now rewrite emit_nil|].
  destruct f as [content|msg].
  - apply on_self_emit. intros self. apply scan_tenant_spec.
  - rewrite print_emit. now rewrite !append_assoc.
Qed.

Lemma scan_settings_spec (st : state) :
  scan_settings st
  = match rglob_settings (fs st) with
    | [] => (emit [] ("❌ Could not find settings.py" ++ newline) st, None)
    | (path, f) :: _ =>
        if negb (exists_ (fs st) path) then (st, None)
        else match f with
             | Unreadable e => (st, Some e)
             | Readable content => (emit (settings_findings path content) "" st, None)
             end
    end.
Proof.
  unfold scan_settings.
  destruct (rglob_settings (fs st)) as [|[path f] rest].
  - now rewrite print_emit.
  - destruct (negb (exists_ (fs st) path)); [reflexivity|].
    destruct f as [content|e]; [|reflexivity].
    f_equal. apply on_self_emit. intros self. apply scan_settings_content_spec.
Qed.

Lemma add_each_spec (mk : pyval -> outcome SecurityIssue) (l : list pyval)
      (self : SecurityAuditor) :
  add_each mk l self = (add_all (fst (collect mk l)) self, snd (collect mk l)).
Proof.
  revert self. induction l as [|v l IH]; intros self; simpl.
  - now rewrite add_all_nil.
  - destruct (mk v) as [issue|e]; simpl.
    + rewrite IH, add_issue_add_all, add_all_app. reflexivity.
    + now rewrite add_all_nil.
Qed.

Lemma handle_add_from (prefix : string) (mk : pyval -> outcome SecurityIssue)
      (items : outcome pyval) (st : state) :
  handle prefix (add_from mk items st)
  = emit (fst (collect_from mk items)) (warning prefix (snd (collect_from mk items))) st.
Proof.
  unfold add_from, collect_from.
  destruct (v <- items ;; iter v) as [l|e]; simpl.
  - rewrite add_each_spec.
    destruct (collect mk l) as [found [e|]]; simpl.
    + rewrite print_emit. unfold emit, on_self; simpl.
      now rewrite add_all_nil, append_assoc.
    + unfold emit, on_self; simpl. now rewrite append_nil_r.
  - rewrite print_emit. now rewrite append_assoc.
Qed.

Lemma audit_manifest_spec (env : Env) (manifest : string) (st : state) :
  audit_manifest env manifest st
  = emit (manifest_findings env manifest) (manifest_output env manifest) st.
Proof.
  unfold manifest_findings, manifest_output, audit_manifest.
  destruct (pip_audit env manifest) as [|e|code text].
  - destruct (safety env manifest) as [|e|code text].
    + rewrite (on_self_emit _ [no_scanner_issue]) by reflexivity. reflexivity.
    + rewrite !print_emit. reflexivity.
    + destruct (negb (text =? "")); [|now rewrite emit_nil].
      destruct (json_loads env text) as [vulns|e].
      * rewrite !handle_add_from. cbn [emit blank self_ out init issues add_all app].
        reflexivity.
      * rewrite !print_emit. reflexivity.
  - rewrite !print_emit. reflexivity.
  - destruct (Z.eqb code 0); [|now rewrite emit_nil].
    destruct (json_loads env text) as [vulns|e]; [|now rewrite emit_nil].
    rewrite !handle_add_from. cbn [emit blank self_ out init issues add_all app].
    reflexivity.
Qed.

Lemma scan_dependencies_spec (env : Env) (st : state) :
  scan_dependencies env st
  = emit (dependency_findings env (fs st) (project_root (self_ st)))
         (dependency_output env (fs st) (project_root (self_ st))) st.
Proof.
  unfold dependency_findings, dependency_output, manifest_of, scan_dependencies.
  cbv zeta.
  destruct (find _ _) as [manifest|].
  - apply audit_manifest_spec.
  - now rewrite print_emit.
Qed.

(** ** Severity: order and sorting *)

Lemma more_severe_order (a b : Severity) : more_severe a b <-> order a < order b.
Proof. unfold more_severe; destruct a, b; simpl; lia. Qed.

Lemma Severity_lt_order (a b : Severity) : Severity_lt a b = true <-> order a < order b.
Proof. unfold Severity_lt. apply Nat.ltb_lt. Qed.

Lemma insert_perm (x : SecurityIssue) (l : list SecurityIssue) :
  Permutation (x :: l) (insert_by_severity x l).
Proof.
  induction l as [|y l IH]; simpl; [reflexivity|].
  destruct (Severity_lt (severity y) (severity x)); [|reflexivity].
  rewrite perm_swap. now constructor.
Qed.

Lemma sort_perm (l : list SecurityIssue) : Permutation l (sort_by_severity l).
Proof.
  induction l as [|x l IH]; simpl; [constructor|].
  rewrite <- insert_perm. now constructor.
Qed.

Lemma insert_sorted (x : SecurityIssue) (l : list SecurityIssue) :
  StronglySorted sev_le l -> StronglySorted sev_le (insert_by_severity x l).
Proof.
  induction 1 as [|y l Hs IH Hall]; simpl.
  - repeat constructor.
  - destruct (Severity_lt (severity y) (severity x)) eqn:E.
    + constructor; [assumption|].
      apply Severity_lt_order in E.
      rewrite <- (insert_perm x l). constructor; [unfold sev_le; lia | assumption].
    + assert (order (severity x) <= order (severity y)) as Hxy.
      { destruct (Nat.ltb_spec (order (severity y)) (order (severity x))) as [Hlt|Hge];
          [|lia].
        apply Severity_lt_order in Hlt. congruence. }
      constructor; [now constructor|].
      constructor; [exact Hxy|].
      eapply Forall_impl; [|exact Hall]. unfold sev_le. intros z Hz. lia.
Qed.

Lemma sort_sorted (l : list SecurityIssue) : StronglySorted sev_le (sort_by_severity l).
Proof.
  induction l as [|x l IH]; simpl; [constructor | now apply insert_sorted].
Qed.

Lemma sorted_before (l : list SecurityIssue) (x y : SecurityIssue) :
  StronglySorted sev_le l -> before x y l -> sev_le x y.
Proof.
  intros Hs (l1 & l2 & l3 & ->).
  induction l1 as [|z l1 IH]; simpl in Hs.
  - apply StronglySorted_inv in Hs as [_ Hall].
    rewrite Forall_forall in Hall. apply Hall.
    apply in_or_app. right. now left.
  - apply StronglySorted_inv in Hs as [Hs _]. now apply IH.
Qed.

Lemma in_two (l : list SecurityIssue) (x y : SecurityIssue) :
  In x l -> In y l -> x <> y -> before x y l \/ before y x l.
Proof.
  intros Hx Hy Hne.
  apply in_split in Hx as (l1 & l2 & ->).
  apply in_app_or in Hy as [Hy | [Hy | Hy]].
  - right. apply in_split in Hy as (l3 & l4 & ->).
    exists l3, l4, l2. now rewrite <- app_assoc.
  - congruence.
  - left. apply in_split in Hy as (l3 & l4 & ->).
    now exists l1, l3, l4.
Qed.

(** C2, the statement of the claim refuted: CRITICAL is more severe than
    HIGH in the specification's ranking, and [CRITICAL < HIGH] evaluates to
    true, not false. *)
Lemma lt_true_on_more_severe :
  more_severe CRITICAL HIGH /\ Severity_lt CRITICAL HIGH = true.
Proof. split; [unfold more_severe; simpl; lia | reflexivity]. Qed.

(** C2, as amended: [<] on severities means "ranks before", that is "is
    more severe".  For [a] more severe than [b], [a < b] is true and
    [b < a] is false; and in a list of findings sorted by severity every
    finding of severity [a] stands before every finding of severity [b],
    none after one. *)
Theorem severity_lt_and_sort :
  (forall a b, more_severe a b ->
     Severity_lt a b = true /\ Severity_lt b a = false)
  /\ (forall a b l x y, more_severe a b ->
        severity x = a -> severity y = b -> In x l -> In y l ->
        before x y (sort_by_severity l) /\ ~ before y x (sort_by_severity l)).
Proof.
  split.
  - intros a b H. apply more_severe_order in H. split.
    + now apply Severity_lt_order.
    + unfold Severity_lt. apply Nat.ltb_ge. lia.
  - intros a b l x y H Hx Hy Hinx Hiny.
    apply more_severe_order in H.
    assert (~ before y x (sort_by_severity l)) as Hno.
    { intros Hb. apply sorted_before in Hb; [|apply sort_sorted].
      unfold sev_le in Hb. rewrite Hx, Hy in Hb. lia. }
    split; [|exact Hno].
    destruct (in_two (sort_by_severity l) x y) as [Hb|Hb]; try assumption.
    + eapply Permutation_in; [apply sort_perm | exact Hinx].
    + eapply Permutation_in; [apply sort_perm | exact Hiny].
    + intros ->. rewrite Hx in Hy. subst b. lia.
    + contradiction.
Qed.

Lemma severity_lt_and_sort_witness :
  (Severity_lt CRITICAL HIGH = true /\ Severity_lt HIGH CRITICAL = false)
  /\ before (Sample.finding CRITICAL) (Sample.finding HIGH)
            (sort_by_severity [Sample.finding HIGH; Sample.finding MEDIUM;
                               Sample.finding CRITICAL]).
Proof.
  split.
  - apply (proj1 severity_lt_and_sort CRITICAL HIGH).
    unfold more_severe; simpl; lia.
  - apply (proj2 severity_lt_and_sort CRITICAL HIGH
                 [Sample.finding HIGH; Sample.finding MEDIUM; Sample.finding CRITICAL]
                 (Sample.finding CRITICAL) (Sample.finding HIGH)).
    + unfold more_severe; simpl; lia.
    + reflexivity.
    + reflexivity.
    + simpl; tauto.
    + simpl; tauto.
Defined.

(** ** Exit code *)

Lemma get_exit_code_loop_existsb (l : list SecurityIssue) :
  get_exit_code_loop l = if existsb critical_or_high l then 1%Z else 0%Z.
Proof.
  induction l as [|issue l IH]; simpl; [reflexivity|].
  unfold critical_or_high at 1. destruct (severity issue); simpl; auto.
Qed.

Lemma fail_on_hit_existsb (threshold : Severity) (l : list SecurityIssue) :
  fail_on_hit threshold l = existsb (name_le threshold) l.
Proof.
  induction l as [|issue l IH]; simpl; [reflexivity|].
  unfold name_le at 1. destruct (String.leb _ _); simpl; auto.
Qed.

Lemma determine_exit_code_existsb (fail_on : option fail_choice) (self : SecurityAuditor) :
  determine_exit_code fail_on self
  = if match fail_on with
       | Some f => existsb (name_le (fail_severity f)) (issues self)
       | None => false
       end || existsb critical_or_high (issues self)
    then 1%Z else 0%Z.
Proof.
  unfold determine_exit_code, get_exit_code.
  rewrite get_exit_code_loop_existsb.
  destruct fail_on as [f|]; [|reflexivity].
  rewrite fail_on_hit_existsb.
  now destruct (existsb (name_le (fail_severity f)) (issues self)).
Qed.

(** Under [--fail-on critical] and [--fail-on high] the comparison of the
    names adds nothing to the default test. *)
Lemma name_le_critical_high (f : fail_choice) (issue : SecurityIssue) :
  f = FailCritical \/ f = FailHigh ->
  name_le (fail_severity f) issue = true -> critical_or_high issue = true.
Proof.
  unfold name_le, critical_or_high.
  intros [-> | ->]; destruct (severity issue); simpl; intros H;
    try reflexivity; discriminate H.
Qed.

Lemma name_le_refl (f : fail_choice) (issue : SecurityIssue) :
  severity issue = fail_severity f -> name_le (fail_severity f) issue = true.
Proof.
  unfold name_le. intros ->. now destruct f.
Qed.

(** The exit code absent [--fail-on]: 1 exactly when some finding is
    Critical or High, 0 otherwise; it is a function of the severities. *)
Lemma get_exit_code_spec (self : SecurityAuditor) :
  (get_exit_code self = 1%Z <->
   exists issue, In issue (issues self)
                 /\ (severity issue = CRITICAL \/ severity issue = HIGH))
  /\ (get_exit_code self = 0%Z <->
      forall issue, In issue (issues self) ->
                    severity issue <> CRITICAL /\ severity issue <> HIGH).
Proof.
  unfold get_exit_code. rewrite get_exit_code_loop_existsb.
  destruct (existsb critical_or_high (issues self)) eqn:E.
  - apply existsb_exists in E as (issue & Hin & Hc).
    assert (severity issue = CRITICAL \/ severity issue = HIGH) as Hs.
    { unfold critical_or_high in Hc. destruct (severity issue); auto; discriminate. }
    split; split; intros H; try reflexivity; try discriminate.
    + exists issue. auto.
    + exfalso. destruct (H issue Hin) as [H1 H2]. destruct Hs; contradiction.
  - split; split; intros H; try reflexivity; try discriminate.
    + exfalso. destruct H as (issue & Hin & Hs).
      assert (existsb critical_or_high (issues self) = true) as E'.
      { apply existsb_exists. exists issue. split; [assumption|].
        unfold critical_or_high. now destruct Hs as [-> | ->]. }
      congruence.
    + intros issue Hin.
      assert (critical_or_high issue = false) as Hc.
      { destruct (critical_or_high issue) eqn:Hc; [|reflexivity].
        assert (existsb critical_or_high (issues self) = true) as E'
            by (apply existsb_exists; eauto).
        congruence. }
      unfold critical_or_high in Hc.
      destruct (severity issue); try discriminate; split; discriminate.
Qed.

Lemma get_exit_code_severities (a b : SecurityAuditor) :
  map severity (issues a) = map severity (issues b) ->
  get_exit_code a = get_exit_code b.
Proof.
  unfold get_exit_code. generalize (issues a) (issues b).
  induction l as [|x l IH]; intros [|y l'] H; simpl in *; try discriminate;
    [reflexivity|].
  injection H as Hxy Hl. rewrite Hxy. now rewrite (IH l' Hl).
Qed.

(** C1, the code at the failing inputs.  The loop under [--fail-on]
    compares the names of the severities as strings, CRITICAL < HIGH <
    INFO < LOW < MEDIUM.  With [--fail-on medium] a run whose only finding
    is Info exits 1, though none is at or above Medium; with [--fail-on
    low] a run whose only finding is Medium exits 0, though one is above
    Low.  And after the loop [main] goes on to [get_exit_code], so that
    with [--fail-on critical] a run whose only finding is High exits 1. *)
Theorem fail_on_compares_names :
  (let r := main (Sample.args_fail_on ScanDependencies FailMedium)
                 (Sample.env_of Sample.manifest_only) in
   map severity (issues (self_ (fst r))) = [INFO]
   /\ at_or_above INFO MEDIUM = false
   /\ snd r = Exit 1)
  /\ (let r := main (Sample.args_fail_on ScanMultiTenant FailLow)
                    (Sample.env_of Sample.medium_source) in
      map severity (issues (self_ (fst r))) = [MEDIUM]
      /\ at_or_above MEDIUM LOW = true
      /\ snd r = Exit 0)
  /\ (let r := main (Sample.args_fail_on ScanCode FailCritical)
                    (Sample.env_of Sample.high_source) in
      map severity (issues (self_ (fst r))) = [HIGH]
      /\ at_or_above HIGH CRITICAL = false
      /\ snd r = Exit 1).
Proof. vm_compute. repeat split. Qed.

(** The same on the exit code alone. *)
Example fail_on_low_with_medium :
  determine_exit_code (Some FailLow) (Sample.auditor [Sample.finding MEDIUM]) = 0%Z.
Proof. reflexivity. Qed.

Example fail_on_medium_with_info :
  determine_exit_code (Some FailMedium) (Sample.auditor [Sample.finding INFO]) = 1%Z.
Proof. reflexivity. Qed.

Example fail_on_critical_with_high :
  determine_exit_code (Some FailCritical) (Sample.auditor [Sample.finding HIGH]) = 1%Z.
Proof. reflexivity. Qed.

(** What does hold under [--fail-on S]: the exit code is 0 or 1; it is 1
    when some finding has severity S itself or is Critical or High; with
    [--fail-on critical] and [--fail-on high] it is 1 exactly when some
    finding is Critical or High; with no finding it is 0. *)
Lemma fail_on_exit_code (f : fail_choice) (self : SecurityAuditor) :
  (determine_exit_code (Some f) self = 0%Z \/ determine_exit_code (Some f) self = 1%Z)
  /\ ((exists issue, In issue (issues self)
                     /\ (severity issue = fail_severity f
                         \/ severity issue = CRITICAL \/ severity issue = HIGH)) ->
      determine_exit_code (Some f) self = 1%Z)
  /\ (f = FailCritical \/ f = FailHigh ->
      (determine_exit_code (Some f) self = 1%Z <->
       exists issue, In issue (issues self)
                     /\ (severity issue = CRITICAL \/ severity issue = HIGH)))
  /\ (issues self = [] -> determine_exit_code (Some f) self = 0%Z).
Proof.
  rewrite determine_exit_code_existsb.
  split; [|split; [|split]].
  - destruct (_ || _); auto.
  - intros (issue & Hin & Hs).
    assert (existsb (name_le (fail_severity f)) (issues self)
            || existsb critical_or_high (issues self) = true) as ->; [|reflexivity].
    apply orb_true_iff. destruct Hs as [Hs | Hs].
    + left. apply existsb_exists. exists issue. split; [assumption|].
      now apply name_le_refl.
    + right. apply existsb_exists. exists issue. split; [assumption|].
      unfold critical_or_high. now destruct Hs as [-> | ->].
  - intros Hf. split.
    + intros H.
      destruct (existsb (name_le (fail_severity f)) (issues self)) eqn:E1;
        destruct (existsb critical_or_high (issues self)) eqn:E2;
        simpl in H; try discriminate.
      * apply existsb_exists in E2 as (issue & Hin & Hc). exists issue.
        split; [assumption|]. unfold critical_or_high in Hc.
        destruct (severity issue); auto; discriminate.
      * apply existsb_exists in E1 as (issue & Hin & Hc).
        apply (name_le_critical_high f issue Hf) in Hc.
        exists issue. split; [assumption|]. unfold critical_or_high in Hc.
        destruct (severity issue); auto; discriminate.
      * apply existsb_exists in E2 as (issue & Hin & Hc). exists issue.
        split; [assumption|]. unfold critical_or_high in Hc.
        destruct (severity issue); auto; discriminate.
    + intros (issue & Hin & Hs).
      assert (existsb critical_or_high (issues self) = true) as ->.
      { apply existsb_exists. exists issue. split; [assumption|].
        unfold critical_or_high. now destruct Hs as [-> | ->]. }
      now rewrite orb_true_r.
  - intros ->. reflexivity.
Qed.

Example fail_on_high_runs :
  determine_exit_code (Some FailHigh)
    (Sample.auditor [Sample.finding MEDIUM; Sample.finding HIGH]) = 1%Z
  /\ (determine_exit_code (Some FailHigh)
        (Sample.auditor [Sample.finding MEDIUM; Sample.finding LOW]) = 1%Z
      <-> exists issue, In issue [Sample.finding MEDIUM; Sample.finding LOW]
                        /\ (severity issue = CRITICAL \/ severity issue = HIGH))
  /\ determine_exit_code (Some FailHigh) (Sample.auditor []) = 0%Z.
Proof.
  split; [|split].
  - apply (proj1 (proj2 (fail_on_exit_code FailHigh
                   (Sample.auditor [Sample.finding MEDIUM; Sample.finding HIGH])))).
    exists (Sample.finding HIGH). simpl. auto.
  - apply (proj1 (proj2 (proj2 (fail_on_exit_code FailHigh
                   (Sample.auditor [Sample.finding MEDIUM; Sample.finding LOW]))))).
    right. reflexivity.
  - apply (proj2 (proj2 (proj2 (fail_on_exit_code FailHigh (Sample.auditor []))))).
    reflexivity.
Qed.

(** ** Unreadable files *)

Lemma issues_emit (l : list SecurityIssue) (o : string) (st : state) :
  issues (self_ (emit l o st)) = issues (self_ st) +++ l.
Proof. reflexivity. Qed.

(** The code scanner and the tenancy scanner skip an entry they cannot
    read: the findings are those of the tree without it. *)
Lemma scan_code_skips_unreadable (root path e : string) (t1 t2 : files) :
  issues (self_ (scan_code (blank root (t1 +++ (path, Unreadable e) :: t2))))
  = issues (self_ (scan_code (blank root (t1 +++ t2)))).
Proof.
  rewrite !scan_code_spec, !issues_emit. cbn [blank fs]. f_equal.
  unfold rglob_py. rewrite !filter_app, !flat_map_app. f_equal.
  cbn [filter fst]. destruct (Py.endswith (basename path) ".py"); [|reflexivity].
  cbn [flat_map]. unfold code_entry_findings at 1. cbn [fst snd].
  now destruct (skipped path).
Qed.

Lemma scan_multi_tenant_skips_unreadable (root path e : string) (t1 t2 : files) :
  issues (self_ (scan_multi_tenant (blank root (t1 +++ (path, Unreadable e) :: t2))))
  = issues (self_ (scan_multi_tenant (blank root (t1 +++ t2)))).
Proof.
  rewrite !scan_multi_tenant_spec, !issues_emit. cbn [blank fs]. f_equal.
  unfold rglob_py. rewrite !filter_app, !flat_map_app. f_equal.
  cbn [filter fst]. destruct (Py.endswith (basename path) ".py"); [|reflexivity].
  cbn [flat_map]. unfold tenant_entry_findings at 1. cbn [fst snd].
  now destruct (skipped path).
Qed.

(** C3, the code at the failing input: a settings file that cannot be read.
    [scan_settings] opens it outside any [try], the exception leaves
    [main], and the process ends with status 1 although no finding was
    collected, for which [get_exit_code] gives 0. *)
Theorem unreadable_settings_exit_status :
  let r := main (Sample.args_of ScanAll Text) (Sample.env_of Sample.locked_settings) in
  snd r = Uncaught "[Errno 13] Permission denied: 'proj/settings.py'"
  /\ exit_status (snd r) = 1%Z
  /\ issues (self_ (fst r)) = []
  /\ get_exit_code (self_ (fst r)) = 0%Z.
Proof. vm_compute. repeat split. Qed.

(** The same tree read by the code scanner alone: the file is skipped and
    the run ends with the exit code of its findings. *)
Example unreadable_source_skipped :
  let r := main (Sample.args_of ScanCode Text) (Sample.env_of Sample.locked_source) in
  snd r = Exit 1
  /\ map title (issues (self_ (fst r))) = ["Dangerous function: eval() usage"].
Proof. vm_compute. repeat split. Qed.

(** ** The debug flag *)

Lemma filter_when (f : SecurityIssue -> bool) (b : bool) (issue : SecurityIssue) :
  filter f (when b issue) = when (b && f issue) issue.
Proof. destruct b; simpl; [now destruct (f issue) | reflexivity]. Qed.

Lemma filter_if {A} (f : A -> bool) (c : bool) (l1 l2 : list A) :
  filter f (if c then l1 else l2) = if c then filter f l1 else filter f l2.
Proof. now destruct c. Qed.

Lemma if_same {A} (c : bool) (x : A) : (if c then x else x) = x.
Proof. now destruct c. Qed.

Ltac eval_about_debug :=
  repeat match goal with
         | |- context [about_debug ?i] =>
             let v := eval vm_compute in (about_debug i) in
             change (about_debug i) with v
         end.

Lemma settings_findings_about_debug (path content : string) :
  filter about_debug (settings_findings path content)
  = when (Re.found (Re.search Pat.debug_true content)) (debug_enabled_issue path).
Proof.
  unfold settings_findings.
  cbn [flat_map required_middleware https_settings app].
  rewrite !filter_app, !filter_if, !filter_when. cbn [filter].
  eval_about_debug.
  rewrite !andb_false_r, andb_true_r. cbn [when app].
  rewrite !if_same. cbn [app]. now rewrite app_nil_r.
Qed.

(** C4, the statement of the claim refuted: a settings file without the
    debug flag gets findings, and none of them is about that flag. *)
Lemma no_finding_for_absent_debug :
  Py.contains "DEBUG" Sample.settings_no_debug = false
  /\ issues (scan_settings_content "proj/settings.py" Sample.settings_no_debug
                                   (init "." false)) <> []
  /\ filter about_debug
       (issues (scan_settings_content "proj/settings.py" Sample.settings_no_debug
                                      (init "." false))) = [].
Proof.
  split; [reflexivity|]. split; [|reflexivity].
  vm_compute. discriminate.
Qed.

(** A match of the debug pattern starts at the name of the flag. *)
Lemma debug_true_starts_with_name (k : Re.cont) (prev : option ascii) (s : string)
      (cap r : Re.capture) :
  Re.run false Pat.debug_true k prev s cap = Some r -> prefix "DEBUG" s = true.
Proof.
  unfold Pat.debug_true. cbn [Re.seq Re.lit Re.run].
  destruct (xorb _ _); [|discriminate].
  repeat (destruct s as [|? s]; [discriminate|];
          cbn [Re.item_match Re.char_eq];
          match goal with
          | |- (if Ascii.eqb ?a ?c then _ else _) = _ -> _ =>
              destruct (Ascii.eqb_spec a c) as [<-|_]; [|discriminate]
          end).
  intros _. now destruct s.
Qed.

Lemma debug_true_needs_name (prev : option ascii) (s : string) :
  Py.contains "DEBUG" s = false -> Re.search_from false Pat.debug_true prev s = None.
Proof.
  revert prev. induction s as [|c s IH]; intros prev H.
  - cbn [Re.search_from].
    destruct (Re.run false Pat.debug_true Re.accept prev "" None) eqn:E; [|reflexivity].
    apply debug_true_starts_with_name in E. discriminate E.
  - cbn [Re.search_from].
    destruct (Re.run false Pat.debug_true Re.accept prev (String c s) None) eqn:E.
    + apply debug_true_starts_with_name in E.
      cbn [Py.contains] in H. rewrite E in H. discriminate H.
    + apply IH. cbn [Py.contains] in H.
      now apply orb_false_iff in H as [_ H].
Qed.

(** C4, as amended: the findings of a settings scan that are about the
    debug flag are exactly one Critical finding titled "DEBUG enabled"
    when the file sets the flag to True, and none otherwise; a file from
    which the flag is absent gets no finding about it. *)
Theorem debug_flag_findings (path content root : string) (fix_flag : bool) :
  (filter about_debug
     (issues (scan_settings_content path content (init root fix_flag)))
   = (if Re.found (Re.search Pat.debug_true content)
      then [debug_enabled_issue path] else [])
   /\ severity (debug_enabled_issue path) = CRITICAL
   /\ title (debug_enabled_issue path) = "DEBUG enabled")
  /\ (Py.contains "DEBUG" content = false ->
      filter about_debug
        (issues (scan_settings_content path content (init root fix_flag))) = []).
Proof.
  assert (filter about_debug
            (issues (scan_settings_content path content (init root fix_flag)))
          = (if Re.found (Re.search Pat.debug_true content)
             then [debug_enabled_issue path] else [])) as H.
  { rewrite scan_settings_content_spec. cbn [issues add_all init app].
    apply settings_findings_about_debug. }
  split; [split; [exact H | split; reflexivity]|].
  intros Habsent. rewrite H. unfold Re.search.
  now rewrite (debug_true_needs_name None content Habsent).
Qed.

Lemma debug_flag_findings_witness :
  filter about_debug
    (issues (scan_settings_content "proj/settings.py" Sample.settings_no_debug
                                   (init "." false))) = [].
Proof.
  apply (proj2 (debug_flag_findings "proj/settings.py" Sample.settings_no_debug
                                    "." false)).
  reflexivity.
Defined.

Example debug_on_one_finding :
  map (fun i => (severity i, title i))
      (filter about_debug
         (issues (scan_settings_content "proj/settings.py" Sample.settings_debug_on
                                        (init "." false))))
  = [(CRITICAL, "DEBUG enabled")].
Proof. reflexivity. Qed.

(** ** Hardcoded secrets *)

Lemma in_when (b : bool) (x issue : SecurityIssue) :
  In x (when b issue) -> b = true /\ x = issue.
Proof. destruct b; simpl; [intros [H | []]; now split | intros []]. Qed.

Lemma in_enumerate_from (l : list string) (n i : nat) (line : string) :
  In (i, line) (Py.enumerate_from n l) -> nth_error l (i - n) = Some line /\ n <= i.
Proof.
  revert n. induction l as [|x l IH]; intros n; simpl; [intros []|].
  intros [H | H].
  - injection H as <- <-. rewrite Nat.sub_diag. split; [reflexivity | lia].
  - apply IH in H as [H Hle]. split; [|lia].
    replace (i - n) with (S (i - S n)) by lia. exact H.
Qed.

Ltac other_category H :=
  apply in_flat_map in H as (? & _ & H);
  repeat match type of H with
         | In _ (let '(_, _) := ?r in _) => destruct r
         end;
  apply in_flat_map in H as ([? ?] & _ & H);
  apply in_when in H as [_ ->]; discriminate.

(** Where the secret findings of a file come from. *)
Lemma secret_finding_origin (path : string) (lines : list string) (issue : SecurityIssue) :
  In issue (file_findings path lines) ->
  is_secret issue = true ->
  exists pattern secret_type i line cap,
    In (pattern, secret_type) CodePat.secret_patterns
    /\ nth_error lines (i - 1) = Some line /\ 1 <= i
    /\ Re.search_i pattern line = Some cap
    /\ 10 < String.length (group1 cap)
    /\ ~ In (group1 cap) placeholders
    /\ Py.contains "os.environ" line = false
    /\ Py.contains "env(" line = false
    /\ issue = secret_issue path secret_type i line.
Proof.
  unfold file_findings. intros Hin Hsec.
  apply in_app_or in Hin as [H | Hin]; [exfalso; other_category H|].
  apply in_app_or in Hin as [H | Hin]; [exfalso; other_category H|].
  apply in_app_or in Hin as [H | Hin].
  2:{ exfalso. apply in_app_or in Hin as [H | H]; [other_category H|].
      apply in_flat_map in H as (? & _ & H).
      apply in_flat_map in H as ([? ?] & _ & H).
      apply in_when in H as [_ ->]; discriminate. }
  unfold secret_findings in H.
  apply in_flat_map in H as ([pattern secret_type] & Hpat & H).
  apply in_flat_map in H as ([i line] & Hline & H).
  apply in_when in H as [Hhit ->].
  apply in_enumerate_from in Hline as [Hnth Hle].
  unfold secret_hit in Hhit.
  destruct (Re.search_i pattern line) as [cap|] eqn:Hm; [|discriminate].
  destruct (Py.contains "os.environ" line) eqn:He1; [discriminate|].
  destruct (Py.contains "env(" line) eqn:He2; [discriminate|].
  cbn [negb andb] in Hhit.
  apply andb_true_iff in Hhit as [Hlen Hph].
  apply Nat.ltb_lt in Hlen.
  exists pattern, secret_type, i, line, cap.
  repeat split; try assumption.
  intros Hp. unfold is_placeholder in Hph.
  apply negb_true_iff in Hph.
  assert (existsb (String.eqb (group1 cap)) placeholders = true) as Hex.
  { apply existsb_exists. exists (group1 cap). split; [assumption|].
    apply String.eqb_refl. }
  congruence.
Qed.




(** ** Snippets *)

(** The secret rule truncates its snippet. *)
Lemma secret_snippet_bound (path secret_type : string) (i : nat) (line : string) :
  snippet_length (secret_issue path secret_type i line) <= 100.
Proof. apply take_length. Qed.

(** C6, the code at the failing input: a line of 126 characters calling
    [eval].  The finding of the dangerous-function rule carries the whole
    stripped line as its snippet, 126 characters; only the secret rule
    truncates. *)
Theorem long_snippet_not_truncated :
  let found := issues (self_ (scan_code (blank "." Sample.long_source))) in
  map title found = ["Dangerous function: eval() usage"]
  /\ map code_snippet found = [Some Sample.long_line]
  /\ map snippet_length found = [126].
Proof. vm_compute. repeat split. Qed.

(** ** Output streams *)

(** C7, the code at the failing input: a tree without [settings.py],
    scanned with [--format json].  [scan_settings] prints its diagnostic
    with [print], and standard output holds that line before the report. *)
Theorem diagnostic_on_stdout_in_json :
  let r := main (Sample.args_of ScanSettings Json_) (Sample.env_of []) in
  out (fst r)
  = "❌ Could not find settings.py" ++ newline
    ++ generate_report Json_ (self_ (fst r)) ++ newline
  /\ err (fst r) = "🔍 Scanning Django settings..." ++ newline.
Proof. vm_compute. split; reflexivity. Qed.

(** The same with an unreadable source file and [--format html]. *)
Example diagnostic_on_stdout_in_html :
  let r := main (Sample.args_of ScanCode Html) (Sample.env_of Sample.locked_source) in
  out (fst r)
  = "Error scanning app/locked.py: [Errno 13] Permission denied: 'app/locked.py'"
    ++ newline ++ newline ++ generate_report Html (self_ (fst r)) ++ newline.
Proof. vm_compute. reflexivity. Qed.

(** ** The run reaches its report *)

Lemma out_log (args : Args) (msg : string) (st : state) :
  exists o, out (log args msg st) = out st ++ o.
Proof.
  unfold log. destruct (structured (arg_format args)); simpl.
  - exists "". now rewrite append_nil_r.
  - now exists (msg ++ newline).
Qed.

Lemma out_trans (a b c : string) (o1 o2 : string) :
  b = a ++ o1 -> c = b ++ o2 -> c = a ++ o1 ++ o2.
Proof. intros -> ->. apply append_assoc. Qed.

Lemma out_step (f : state -> state) (args : Args) (msg : string) (b : bool)
      (st : state) :
  (forall s, exists o, out (f s) = out s ++ o) ->
  exists o, out (if b then f (log args msg st) else st) = out st ++ o.
Proof.
  intros Hf. destruct b.
  - destruct (out_log args msg st) as [o1 H1].
    destruct (Hf (log args msg st)) as [o2 H2].
    exists (o1 ++ o2). eapply out_trans; eassumption.
  - exists "". now rewrite append_nil_r.
Qed.

(** Once the settings scan is over nothing stops the run: it prints the
    report of the findings collected and exits with the code computed from
    them. *)
Lemma main_after_settings_reports (args : Args) (env : Env) (st : state) :
  let r := main_after_settings args env st in
  snd r = Exit (determine_exit_code (arg_fail_on args) (self_ (fst r)))
  /\ exists diag,
       out (fst r)
       = out st ++ diag ++ generate_report (arg_format args) (self_ (fst r)) ++ newline.
Proof.
  unfold main_after_settings. cbv zeta.
  set (st1 := if wants args ScanCode then _ else st).
  set (st2 := if wants args ScanDependencies then _ else st1).
  set (st3 := if wants args ScanMultiTenant then _ else st2).
  assert (exists o, out st1 = out st ++ o) as [o1 H1].
  { apply out_step. intros s. rewrite scan_code_spec. simpl. eauto. }
  assert (exists o, out st2 = out st1 ++ o) as [o2 H2].
  { apply out_step. intros s. rewrite scan_dependencies_spec. simpl. eauto. }
  assert (exists o, out st3 = out st2 ++ o) as [o3 H3].
  { apply out_step. intros s. rewrite scan_multi_tenant_spec. simpl. eauto. }
  assert (out st3 = out st ++ o1 ++ o2 ++ o3) as H.
  { rewrite H3, H2, H1. now rewrite !append_assoc. }
  destruct (arg_format args); cbn [fst snd print self_ out]; (split; [reflexivity|]).
  - exists (o1 ++ o2 ++ o3 ++ newline). rewrite H. now rewrite !append_assoc.
  - exists (o1 ++ o2 ++ o3). rewrite H. now rewrite !append_assoc.
  - exists (o1 ++ o2 ++ o3 ++ newline). rewrite H. now rewrite !append_assoc.
Qed.

(** ** Dependency scanner *)

(** C8, the statement of the claim refuted: no tool installed and no
    manifest at the root.  The scan returns before it tries any tool and
    adds no finding. *)
Lemma no_tool_no_manifest_no_finding :
  pip_audit (Sample.env_of []) = (fun _ => NotFound)
  /\ safety (Sample.env_of []) = (fun _ => NotFound)
  /\ issues (self_ (scan_dependencies (Sample.env_of []) (blank "." []))) = [].
Proof. repeat split. Qed.

(** C8, as amended: with a manifest at the root and neither tool
    installed, the scan adds exactly one finding, of severity Info, that
    says no scanner is available; with no manifest it adds none; when a
    tool runs and its output is not JSON the scan adds none; and in every
    case the run goes on to print its report and to exit with the code of
    the findings. *)
Theorem dependency_scan_soft_failures (env : Env) (st : state) :
  let root := project_root (self_ st) in
  let after := scan_dependencies env st in
  (manifest_of (fs st) root = None -> issues (self_ after) = issues (self_ st))
  /\ (forall manifest, manifest_of (fs st) root = Some manifest ->
        (pip_audit env manifest = NotFound -> safety env manifest = NotFound ->
         issues (self_ after) = issues (self_ st) +++ [no_scanner_issue])
        /\ (forall code text e,
              pip_audit env manifest = Completed code text ->
              json_loads env text = Raise e ->
              issues (self_ after) = issues (self_ st))
        /\ (forall code text e,
              pip_audit env manifest = NotFound ->
              safety env manifest = Completed code text ->
              json_loads env text = Raise e ->
              issues (self_ after) = issues (self_ st)))
  /\ (severity no_scanner_issue = INFO
      /\ title no_scanner_issue = "No dependency scanner available")
  /\ (forall args,
        arg_scan args = ScanDependencies ->
        let r := main args env in
        snd r = Exit (determine_exit_code (arg_fail_on args) (self_ (fst r)))
        /\ exists diag,
             out (fst r)
             = diag ++ generate_report (arg_format args) (self_ (fst r)) ++ newline).
Proof.
  cbv zeta. unfold manifest_of, scan_dependencies, audit_manifest.
  split; [|split; [|split]].
  - intros ->. reflexivity.
  - intros manifest ->. split; [|split].
    + intros -> ->. reflexivity.
    + intros code text e -> He. rewrite He. now destruct (Z.eqb code 0).
    + intros code text e -> -> He. rewrite He.
      now destruct (negb (text =? "")).
  - split; reflexivity.
  - intros args Hscan. unfold main, wants. rewrite Hscan.
    match goal with
    | |- context [main_after_settings args env ?s] =>
        destruct (main_after_settings_reports args env s) as [H1 [diag H2]]
    end.
    split; [exact H1|].
    exists diag. rewrite H2. reflexivity.
Qed.

Lemma dependency_scan_soft_failures_witness :
  issues (self_ (scan_dependencies (Sample.env_of Sample.manifest_only)
                                   (blank "." Sample.manifest_only)))
  = [no_scanner_issue]
  /\ issues (self_ (scan_dependencies Sample.env_garbled
                                      (blank "." Sample.manifest_only))) = []
  /\ issues (self_ (scan_dependencies (Sample.env_of []) (blank "." []))) = []
  /\ snd (main (Sample.args_of ScanDependencies Json_)
               (Sample.env_of Sample.manifest_only)) = Exit 0.
Proof.
  split; [|split; [|split]].
  - apply (proj1 (proj1 (proj2 (dependency_scan_soft_failures
                   (Sample.env_of Sample.manifest_only)
                   (blank "." Sample.manifest_only))) "requirements.txt" eq_refl));
      reflexivity.
  - apply (proj1 (proj2 (proj1 (proj2 (dependency_scan_soft_failures
                   Sample.env_garbled (blank "." Sample.manifest_only)))
                   "requirements.txt" eq_refl))
                 0%Z "not json" "Expecting value: line 1 column 1 (char 0)");
      reflexivity.
  - apply (proj1 (dependency_scan_soft_failures (Sample.env_of []) (blank "." []))).
    reflexivity.
  - rewrite (proj1 (proj2 (proj2 (proj2 (dependency_scan_soft_failures
                   (Sample.env_of Sample.manifest_only)
                   (blank "." Sample.manifest_only))))
                 (Sample.args_of ScanDependencies Json_) eq_refl)).
    reflexivity.
Defined.

(** ** The auto-fix flag and the file system *)

Lemma same_log (a1 a2 : Args) (msg : string) (s1 s2 : state) :
  arg_format a1 = arg_format a2 ->
  same_but_fix s1 s2 -> same_but_fix (log a1 msg s1) (log a2 msg s2).
Proof.
  unfold same_but_fix, log. intros <- (H1 & H2 & H3 & H4 & H5).
  destruct (structured (arg_format a1)); simpl; repeat split; congruence.
Qed.

Lemma same_emit (l : list SecurityIssue) (o : string) (s1 s2 : state) :
  same_but_fix s1 s2 -> same_but_fix (emit l o s1) (emit l o s2).
Proof.
  unfold same_but_fix. intros (H1 & H2 & H3 & H4 & H5).
  simpl. repeat split; congruence.
Qed.

Lemma same_scan_code (s1 s2 : state) :
  same_but_fix s1 s2 -> same_but_fix (scan_code s1) (scan_code s2).
Proof.
  intros H. rewrite !scan_code_spec.
  destruct H as (H1 & H2 & H3 & H4 & H5). rewrite H3.
  apply same_emit. repeat split; assumption.
Qed.

Lemma same_scan_multi_tenant (s1 s2 : state) :
  same_but_fix s1 s2 -> same_but_fix (scan_multi_tenant s1) (scan_multi_tenant s2).
Proof.
  intros H. rewrite !scan_multi_tenant_spec.
  destruct H as (H1 & H2 & H3 & H4 & H5). rewrite H3.
  apply same_emit. repeat split; assumption.
Qed.

Lemma same_scan_dependencies (env : Env) (s1 s2 : state) :
  same_but_fix s1 s2 ->
  same_but_fix (scan_dependencies env s1) (scan_dependencies env s2).
Proof.
  intros H. rewrite !scan_dependencies_spec.
  destruct H as (H1 & H2 & H3 & H4 & H5). rewrite H1, H3.
  apply same_emit. repeat split; assumption.
Qed.

Lemma same_scan_settings (s1 s2 : state) :
  same_but_fix s1 s2 ->
  same_but_fix (fst (scan_settings s1)) (fst (scan_settings s2))
  /\ snd (scan_settings s1) = snd (scan_settings s2).
Proof.
  intros H. rewrite !scan_settings_spec.
  assert (fs s1 = fs s2) as Hfs by apply H. rewrite Hfs.
  destruct (rglob_settings (fs s2)) as [|[path f] rest]; cbn [fst snd].
  - split; [now apply same_emit | reflexivity].
  - destruct (negb (exists_ (fs s2) path)); cbn [fst snd]; [now split|].
    destruct f; cbn [fst snd]; split; try reflexivity; try assumption.
    now apply same_emit.
Qed.

Lemma generate_report_issues (format : format_choice) (a b : SecurityAuditor) :
  issues a = issues b -> generate_report format a = generate_report format b.
Proof.
  intros H.
  unfold generate_report, _generate_json_report, json_report,
    _generate_html_report, _generate_text_report.
  now rewrite H.
Qed.

Lemma determine_exit_code_issues (f : option fail_choice) (a b : SecurityAuditor) :
  issues a = issues b -> determine_exit_code f a = determine_exit_code f b.
Proof.
  intros H. unfold determine_exit_code, get_exit_code. now rewrite H.
Qed.

Lemma same_step (f : state -> state) (a1 a2 : Args) (msg : string) (b : bool)
      (s1 s2 : state) :
  (forall u v, same_but_fix u v -> same_but_fix (f u) (f v)) ->
  arg_format a1 = arg_format a2 ->
  same_but_fix s1 s2 ->
  same_but_fix (if b then f (log a1 msg s1) else s1)
               (if b then f (log a2 msg s2) else s2).
Proof.
  intros Hf Hfmt H. destruct b; [|assumption].
  apply Hf. now apply same_log.
Qed.

Lemma same_main_after_settings (a1 a2 : Args) (env : Env) (s1 s2 : state) :
  arg_scan a1 = arg_scan a2 -> arg_format a1 = arg_format a2 ->
  arg_fail_on a1 = arg_fail_on a2 ->
  same_but_fix s1 s2 ->
  same_but_fix (fst (main_after_settings a1 env s1)) (fst (main_after_settings a2 env s2))
  /\ snd (main_after_settings a1 env s1) = snd (main_after_settings a2 env s2).
Proof.
  intros Hscan Hfmt Hfail H.
  unfold main_after_settings, wants. cbv zeta. rewrite <- Hscan, <- Hfail.
  match goal with
  | |- context [if ?b then scan_code (log a1 ?m s1) else s1] =>
      pose proof (same_step scan_code a1 a2 m b s1 s2 same_scan_code Hfmt H) as H1;
      set (u1 := if b then scan_code (log a1 m s1) else s1) in *;
      set (v1 := if b then scan_code (log a2 m s2) else s2) in *
  end.
  match goal with
  | |- context [if ?b then scan_dependencies env (log a1 ?m u1) else u1] =>
      pose proof (same_step (scan_dependencies env) a1 a2 m b u1 v1
                            (same_scan_dependencies env) Hfmt H1) as H2;
      set (u2 := if b then scan_dependencies env (log a1 m u1) else u1) in *;
      set (v2 := if b then scan_dependencies env (log a2 m v1) else v1) in *
  end.
  match goal with
  | |- context [if ?b then scan_multi_tenant (log a1 ?m u2) else u2] =>
      pose proof (same_step scan_multi_tenant a1 a2 m b u2 v2
                            same_scan_multi_tenant Hfmt H2) as H3;
      set (u3 := if b then scan_multi_tenant (log a1 m u2) else u2) in *;
      set (v3 := if b then scan_multi_tenant (log a2 m v2) else v2) in *
  end.
  clearbody u3 v3. clear - Hfmt H3.
  destruct H3 as (R & I & F & O & E). rewrite <- Hfmt.
  assert (generate_report (arg_format a1) (self_ u3)
          = generate_report (arg_format a1) (self_ v3)) as Hrep
      by now apply generate_report_issues.
  rewrite Hrep.
  destruct (arg_format a1); cbn [fst snd print self_ fs out err];
    (split; [unfold same_but_fix; cbn [print self_ fs out err];
             repeat split; congruence
            | f_equal; now apply determine_exit_code_issues]).
Qed.

Lemma fs_emit (l : list SecurityIssue) (o : string) (st : state) :
  fs (emit l o st) = fs st.
Proof. reflexivity. Qed.

Lemma fs_log (args : Args) (msg : string) (st : state) : fs (log args msg st) = fs st.
Proof. unfold log. now destruct (structured (arg_format args)). Qed.

Lemma fs_step (f : state -> state) (args : Args) (msg : string) (b : bool) (st : state) :
  (forall s, fs (f s) = fs s) ->
  fs (if b then f (log args msg st) else st) = fs st.
Proof. intros Hf. destruct b; [|reflexivity]. now rewrite Hf, fs_log. Qed.

Lemma fs_scan_settings (st : state) : fs (fst (scan_settings st)) = fs st.
Proof.
  rewrite scan_settings_spec.
  destruct (rglob_settings (fs st)) as [|[path f] rest]; [reflexivity|].
  destruct (negb (exists_ (fs st) path)); [reflexivity|].
  now destruct f.
Qed.

Lemma fs_main_after_settings (args : Args) (env : Env) (st : state) :
  fs (fst (main_after_settings args env st)) = fs st.
Proof.
  unfold main_after_settings. cbv zeta.
  assert (forall s x, fs (match arg_format args with
                          | Json_ => print x s
                          | _ => print (newline ++ x) s
                          end) = fs s) as Hp
      by (intros; now destruct (arg_format args)).
  cbn [fst]. rewrite Hp.
  rewrite fs_step by (intros; now rewrite scan_multi_tenant_spec).
  rewrite fs_step by (intros; now rewrite scan_dependencies_spec).
  rewrite fs_step by (intros; now rewrite scan_code_spec).
  reflexivity.
Qed.

(** C10: a run leaves the file system as it found it, and the findings,
    the rendered report, both output streams and the way the process ends
    are the same whatever [--auto-fix] and [--report-only] are. *)
Theorem auto_fix_is_classification_only
        (scan : scan_choice) (fix1 fix2 only1 only2 : bool) (format : format_choice)
        (root : string) (fail_on : option fail_choice) (env : Env) :
  let r1 := main (mkArgs scan fix1 only1 format root fail_on) env in
  let r2 := main (mkArgs scan fix2 only2 format root fail_on) env in
  fs (fst r1) = tree env
  /\ issues (self_ (fst r1)) = issues (self_ (fst r2))
  /\ generate_report format (self_ (fst r1)) = generate_report format (self_ (fst r2))
  /\ out (fst r1) = out (fst r2)
  /\ err (fst r1) = err (fst r2)
  /\ snd r1 = snd r2.
Proof.
  cbv zeta.
  set (a1 := mkArgs scan fix1 only1 format root fail_on).
  set (a2 := mkArgs scan fix2 only2 format root fail_on).
  split.
  - unfold main.
    destruct (wants a1 ScanSettings).
    + match goal with
      | |- context [scan_settings ?s] =>
          pose proof (fs_scan_settings s) as Hs; destruct (scan_settings s) as [st [e|]]
      end; cbn [fst] in *.
      * now rewrite Hs, fs_log.
      * now rewrite fs_main_after_settings, Hs, fs_log.
    + now rewrite fs_main_after_settings.
  - assert (same_but_fix (fst (main a1 env)) (fst (main a2 env))
            /\ snd (main a1 env) = snd (main a2 env)) as [(_ & I & _ & O & E) Hend].
    { unfold main.
      assert (same_but_fix
                {| self_ := init (arg_project_root a1) (arg_auto_fix a1 && negb (arg_report_only a1));
                   fs := tree env; out := ""; err := "" |}
                {| self_ := init (arg_project_root a2) (arg_auto_fix a2 && negb (arg_report_only a2));
                   fs := tree env; out := ""; err := "" |}) as H0
          by (repeat split).
      change (wants a2 ScanSettings) with (wants a1 ScanSettings).
      destruct (wants a1 ScanSettings).
      - match goal with
        | |- context [scan_settings (log a1 ?m ?s1)] =>
            match goal with
            | |- context [scan_settings (log a2 m ?s2)] =>
                destruct (same_scan_settings (log a1 m s1) (log a2 m s2)
                            (same_log a1 a2 m s1 s2 eq_refl H0)) as [Hst Hex];
                destruct (scan_settings (log a1 m s1)) as [u [e|]];
                destruct (scan_settings (log a2 m s2)) as [v [e'|]]
            end
        end; cbn [fst snd] in *; try discriminate.
        + split; [assumption | congruence].
        + now apply same_main_after_settings.
      - now apply same_main_after_settings. }
    repeat split; try assumption.
    now apply generate_report_issues.
Qed.

(** ** Traversal order *)

Lemma manifest_of_perm (t1 t2 : files) (root : string) :
  Permutation t1 t2 -> manifest_of t1 root = manifest_of t2 root.
Proof.
  intros H. unfold manifest_of, exists_. cbn [find].
  now rewrite !(Permutation_existsb _ t1 t2 H).
Qed.

Lemma order_log (args : Args) (msg : string) (s1 s2 : state) :
  same_but_order s1 s2 -> same_but_order (log args msg s1) (log args msg s2).
Proof.
  unfold same_but_order, log.
  destruct (structured (arg_format args)); simpl; auto.
Qed.

Lemma order_emit (l1 l2 : list SecurityIssue) (o1 o2 : string) (s1 s2 : state) :
  Permutation l1 l2 ->
  same_but_order s1 s2 -> same_but_order (emit l1 o1 s1) (emit l2 o2 s2).
Proof.
  unfold same_but_order. intros Hl (H1 & H2 & H3 & H4). simpl.
  repeat split; try assumption. now apply Permutation_app.
Qed.

Lemma order_scan_code (s1 s2 : state) :
  same_but_order s1 s2 -> same_but_order (scan_code s1) (scan_code s2).
Proof.
  intros H. rewrite !scan_code_spec. apply order_emit; [|assumption].
  apply Permutation_flat_map. apply Permutation_filter. apply H.
Qed.

Lemma order_scan_multi_tenant (s1 s2 : state) :
  same_but_order s1 s2 -> same_but_order (scan_multi_tenant s1) (scan_multi_tenant s2).
Proof.
  intros H. rewrite !scan_multi_tenant_spec. apply order_emit; [|assumption].
  apply Permutation_flat_map. apply Permutation_filter. apply H.
Qed.

Lemma order_scan_dependencies (env1 env2 : Env) (s1 s2 : state) :
  pip_audit env1 = pip_audit env2 -> safety env1 = safety env2 ->
  json_loads env1 = json_loads env2 ->
  same_but_order s1 s2 ->
  same_but_order (scan_dependencies env1 s1) (scan_dependencies env2 s2).
Proof.
  intros Hp Hs Hj H. rewrite !scan_dependencies_spec.
  apply order_emit; [|assumption].
  destruct H as (H1 & H2 & H3 & H4).
  unfold dependency_findings. rewrite H1, (manifest_of_perm _ _ _ H3).
  destruct (manifest_of (fs s2) (project_root (self_ s2))) as [m|]; [|reflexivity].
  unfold manifest_findings, audit_manifest. now rewrite Hp, Hs, Hj.
Qed.

Lemma order_scan_settings (s1 s2 : state) :
  same_but_order s1 s2 ->
  same_but_order (fst (scan_settings s1)) (fst (scan_settings s2))
  /\ snd (scan_settings s1) = snd (scan_settings s2).
Proof.
  intros H. rewrite !scan_settings_spec.
  pose proof H as (_ & _ & Hperm & Hhd).
  destruct (rglob_settings (fs s1)) as [|[p1 f1] r1];
    destruct (rglob_settings (fs s2)) as [|[p2 f2] r2];
    cbn [hd_error] in Hhd; try discriminate.
  - cbn [fst snd]. split; [now apply order_emit | reflexivity].
  - injection Hhd as <- <-.
    unfold exists_. rewrite (Permutation_existsb _ _ _ Hperm).
    destruct (negb _); cbn [fst snd]; [now split|].
    destruct f1; cbn [fst snd]; split; try reflexivity; try assumption.
    now apply order_emit.
Qed.

Lemma determine_exit_code_perm (f : option fail_choice) (a b : SecurityAuditor) :
  Permutation (issues a) (issues b) ->
  determine_exit_code f a = determine_exit_code f b.
Proof.
  intros H. rewrite !determine_exit_code_existsb.
  rewrite (Permutation_existsb critical_or_high _ _ H).
  destruct f as [f|]; [|reflexivity].
  now rewrite (Permutation_existsb (name_le (fail_severity f)) _ _ H).
Qed.

Lemma order_step (f1 f2 : state -> state) (args : Args) (msg : string) (b : bool)
      (s1 s2 : state) :
  (forall u v, same_but_order u v -> same_but_order (f1 u) (f2 v)) ->
  same_but_order s1 s2 ->
  same_but_order (if b then f1 (log args msg s1) else s1)
                 (if b then f2 (log args msg s2) else s2).
Proof.
  intros Hf H. destruct b; [|assumption].
  apply Hf. now apply order_log.
Qed.

Lemma order_main_after_settings (args : Args) (env1 env2 : Env) (s1 s2 : state) :
  pip_audit env1 = pip_audit env2 -> safety env1 = safety env2 ->
  json_loads env1 = json_loads env2 ->
  same_but_order s1 s2 ->
  Permutation (issues (self_ (fst (main_after_settings args env1 s1))))
              (issues (self_ (fst (main_after_settings args env2 s2))))
  /\ snd (main_after_settings args env1 s1) = snd (main_after_settings args env2 s2).
Proof.
  intros Hp Hs Hj H.
  unfold main_after_settings. cbv zeta.
  match goal with
  | |- context [if ?b then scan_code (log args ?m s1) else s1] =>
      pose proof (order_step scan_code scan_code args m b s1 s2 order_scan_code H) as H1;
      set (u1 := if b then scan_code (log args m s1) else s1) in *;
      set (v1 := if b then scan_code (log args m s2) else s2) in *
  end.
  match goal with
  | |- context [if ?b then scan_dependencies env1 (log args ?m u1) else u1] =>
      pose proof (order_step (scan_dependencies env1) (scan_dependencies env2)
                             args m b u1 v1
                             (fun u v => order_scan_dependencies env1 env2 u v Hp Hs Hj)
                             H1) as H2;
      set (u2 := if b then scan_dependencies env1 (log args m u1) else u1) in *;
      set (v2 := if b then scan_dependencies env2 (log args m v1) else v1) in *
  end.
  match goal with
  | |- context [if ?b then scan_multi_tenant (log args ?m u2) else u2] =>
      pose proof (order_step scan_multi_tenant scan_multi_tenant args m b u2 v2
                             order_scan_multi_tenant H2) as H3;
      set (u3 := if b then scan_multi_tenant (log args m u2) else u2) in *;
      set (v3 := if b then scan_multi_tenant (log args m v2) else v2) in *
  end.
  clearbody u3 v3. clear - H3.
  destruct H3 as (_ & I & _ & _).
  destruct (arg_format args); cbn [fst snd print self_];
    (split; [assumption | f_equal; now apply determine_exit_code_perm]).
Qed.

Lemma by_severity_counts_perm (l1 l2 : list SecurityIssue) :
  Permutation l1 l2 ->
  map (fun s => (value s, PInt (Z.of_nat (List.length (by_severity l1 s))))) all_severities
  = map (fun s => (value s, PInt (Z.of_nat (List.length (by_severity l2 s))))) all_severities.
Proof.
  intros H. apply map_ext. intros s. unfold by_severity.
  now rewrite (Permutation_length (Permutation_filter _ _ _ H)).
Qed.

(** C9, the statement of the claim refuted: one tree of two files, each
    with one Critical finding, met in the two possible orders.  The JSON
    texts differ, the findings are listed in the order of discovery, and
    sorting them by severity leaves them in that order.  And with two
    settings files in the tree the order decides which one is scanned:
    here one order gives ten findings and the other nine. *)
Lemma traversal_order_shows_in_json :
  let r1 := main (Sample.args_of ScanCode Json_) Sample.env_ab in
  let r2 := main (Sample.args_of ScanCode Json_) Sample.env_ba in
  let s1 := main (Sample.args_of ScanSettings Json_) Sample.env_sab in
  let s2 := main (Sample.args_of ScanSettings Json_) Sample.env_sba in
  Permutation (tree Sample.env_ab) (tree Sample.env_ba)
  /\ out (fst r1) <> out (fst r2)
  /\ map file_path (sort_by_severity (issues (self_ (fst r1))))
     = [Some "a.py"; Some "b.py"]
  /\ map file_path (sort_by_severity (issues (self_ (fst r2))))
     = [Some "b.py"; Some "a.py"]
  /\ Permutation (tree Sample.env_sab) (tree Sample.env_sba)
  /\ json_field "total_issues" (json_report (self_ (fst s1))) = Some (PInt 10)
  /\ json_field "total_issues" (json_report (self_ (fst s2))) = Some (PInt 9).
Proof.
  cbv zeta. split; [apply perm_swap|]. split; [|split; [|split]]; try reflexivity.
  - apply String.eqb_neq. vm_compute. reflexivity.
  - split; [apply perm_swap|]. split; vm_compute; reflexivity.
Qed.

(** C9, as amended: for one tree met in two orders, with the same settings
    file in front and the same answers of the tools, the two runs end the
    same way, the findings of one are a rearrangement of those of the
    other, and the JSON reports have the same [total_issues] and
    [by_severity] and [issues] arrays that are rearrangements of one
    another: the array is in the order of discovery and no sort is applied
    to it.  Two runs that meet the tree in the same order give the same
    result, JSON text included. *)
Theorem traversal_order_and_report (args : Args) (env1 env2 : Env) :
  Permutation (tree env1) (tree env2) ->
  hd_error (rglob_settings (tree env1)) = hd_error (rglob_settings (tree env2)) ->
  pip_audit env1 = pip_audit env2 ->
  safety env1 = safety env2 ->
  json_loads env1 = json_loads env2 ->
  let r1 := main args env1 in
  let r2 := main args env2 in
  let j1 := json_report (self_ (fst r1)) in
  let j2 := json_report (self_ (fst r2)) in
  snd r1 = snd r2
  /\ Permutation (issues (self_ (fst r1))) (issues (self_ (fst r2)))
  /\ json_field "total_issues" j1 = json_field "total_issues" j2
  /\ json_field "by_severity" j1 = json_field "by_severity" j2
  /\ (exists l1 l2,
        json_field "issues" j1 = Some (PList l1)
        /\ json_field "issues" j2 = Some (PList l2)
        /\ Permutation l1 l2)
  /\ (tree env1 = tree env2 -> main args env1 = main args env2).
Proof.
  intros Hperm Hhd Hp Hs Hj. cbv zeta.
  assert (snd (main args env1) = snd (main args env2)
          /\ Permutation (issues (self_ (fst (main args env1))))
                         (issues (self_ (fst (main args env2))))) as [Hend Hiss].
  { unfold main.
    match goal with
    | |- context [log args ?m {| self_ := ?a; fs := tree env1; out := ?o; err := ?e |}] =>
        assert (same_but_order {| self_ := a; fs := tree env1; out := o; err := e |}
                               {| self_ := a; fs := tree env2; out := o; err := e |}) as H0
            by (repeat split; simpl; try reflexivity; assumption)
    end.
    destruct (wants args ScanSettings).
    - match goal with
      | |- context [scan_settings (log args ?m ?s1)] =>
          match goal with
          | |- context [scan_settings (log args m {| self_ := ?a; fs := tree env2;
                                                    out := ?o; err := ?e |})] =>
              destruct (order_scan_settings (log args m s1)
                          (log args m {| self_ := a; fs := tree env2; out := o; err := e |})
                          (order_log args m _ _ H0)) as [Hst Hex];
              destruct (scan_settings (log args m s1)) as [u [x|]];
              destruct (scan_settings (log args m {| self_ := a; fs := tree env2;
                                                     out := o; err := e |})) as [v [y|]]
          end
      end; cbn [fst snd] in *; try discriminate.
      + split; [congruence | apply Hst].
      + destruct (order_main_after_settings args env1 env2 u v Hp Hs Hj Hst).
        now split.
    - destruct (order_main_after_settings args env1 env2 _ _ Hp Hs Hj H0).
      now split. }
  split; [assumption|]. split; [assumption|].
  unfold json_report, json_field. cbn [lookup String.eqb Ascii.eqb Bool.eqb].
  split; [now rewrite (Permutation_length Hiss)|].
  split; [now rewrite (by_severity_counts_perm _ _ Hiss)|].
  split.
  - eexists. eexists. split; [reflexivity|]. split; [reflexivity|].
    now apply Permutation_map.
  - intros Htree. destruct env1, env2. simpl in *. now subst.
Qed.

Lemma traversal_order_and_report_witness :
  let r1 := main (Sample.args_of ScanAll Json_) Sample.env_ab in
  let r2 := main (Sample.args_of ScanAll Json_) Sample.env_ba in
  snd r1 = snd r2
  /\ Permutation (issues (self_ (fst r1))) (issues (self_ (fst r2))).
Proof.
  cbv zeta.
  pose proof (traversal_order_and_report (Sample.args_of ScanAll Json_)
                Sample.env_ab Sample.env_ba (perm_swap _ _ _)
                eq_refl eq_refl eq_refl eq_refl) as H.
  cbv zeta in H. split; [apply H | apply (proj1 (proj2 H))].
Defined.

(** * Further properties of the auditor *)

(** ** The order on severities *)

(** X1: [Severity.__lt__] is a strict total order on the five levels, and
    the five [value] tokens are distinct. *)
Theorem severity_lt_strict_total :
  (forall a, Severity_lt a a = false)
  /\ (forall a b c, Severity_lt a b = true -> Severity_lt b c = true ->
                    Severity_lt a c = true)
  /\ (forall a b, Severity_lt a b = true -> Severity_lt b a = false)
  /\ (forall a b, a = b \/ Severity_lt a b = true \/ Severity_lt b a = true)
  /\ (forall a b, value a = value b -> a = b).
Proof.
  split; [|split; [|split; [|split]]].
  - intros a. unfold Severity_lt. apply Nat.ltb_irrefl.
  - intros a b c H1 H2. apply Severity_lt_order in H1, H2.
    apply Severity_lt_order. lia.
  - intros a b H. apply Severity_lt_order in H.
    unfold Severity_lt. apply Nat.ltb_ge. lia.
  - intros a b. destruct a, b; auto.
  - intros a b. destruct a, b; simpl; intros H; try reflexivity; discriminate H.
Qed.

Lemma severity_lt_strict_total_witness :
  Severity_lt CRITICAL LOW = true /\ Severity_lt LOW CRITICAL = false.
Proof.
  split.
  - apply (proj1 (proj2 severity_lt_strict_total) CRITICAL MEDIUM LOW); reflexivity.
  - apply (proj1 (proj2 (proj2 severity_lt_strict_total)) CRITICAL LOW). reflexivity.
Defined.

(** ** The JSON form of a finding *)

Lemma of_opt_str_inj (a b : option string) : of_opt_str a = of_opt_str b -> a = b.
Proof. destruct a, b; simpl; intros H; try discriminate; congruence. Qed.

Lemma of_opt_nat_inj (a b : option nat) : of_opt_nat a = of_opt_nat b -> a = b.
Proof.
  destruct a, b; simpl; intros H; try discriminate; try reflexivity.
  injection H as H. apply Nat2Z.inj in H. now subst.
Qed.

Lemma value_inj (a b : Severity) : value a = value b -> a = b.
Proof. destruct a, b; simpl; intros H; try reflexivity; discriminate H. Qed.

(** X2: [to_dict] loses nothing: two findings with the same dictionary are
    the same finding. *)
Theorem to_dict_injective (a b : SecurityIssue) : to_dict a = to_dict b -> a = b.
Proof.
  destruct a, b. unfold to_dict. cbn [severity category title description
    file_path line_number code_snippet recommendation cve auto_fixable].
  intros H. injection H as Hs Hc Ht Hd Hf Hl Hsn Hr Hcve Ha.
  apply value_inj in Hs.
  apply of_opt_str_inj in Hf, Hsn, Hr. apply of_opt_nat_inj in Hl.
  now subst.
Qed.

Lemma to_dict_injective_witness :
  Sample.finding HIGH = Sample.finding HIGH.
Proof. apply (to_dict_injective (Sample.finding HIGH) (Sample.finding HIGH)). reflexivity. Defined.

(** ** Counts of the reports *)

Lemma length_by_severity (l : list SecurityIssue) :
  List.length l
  = List.length (by_severity l CRITICAL) + List.length (by_severity l HIGH)
    + List.length (by_severity l MEDIUM) + List.length (by_severity l LOW)
    + List.length (by_severity l INFO).
Proof.
  unfold by_severity. induction l as [|x l IH]; [reflexivity|].
  cbn [filter List.length]. destruct (severity x); cbn [Severity_eqb List.length]; lia.
Qed.

Lemma by_severity_partition (l : list SecurityIssue) :
  Permutation l (flat_map (by_severity l) all_severities).
Proof.
  unfold all_severities. cbn [flat_map]. rewrite app_nil_r.
  unfold by_severity. induction l as [|x l IH]; [reflexivity|].
  cbn [filter]. destruct (severity x); cbn [Severity_eqb app].
  - now constructor.
  - now apply Permutation_cons_app.
  - rewrite app_assoc. apply Permutation_cons_app. now rewrite <- app_assoc.
  - rewrite !app_assoc. apply Permutation_cons_app. now rewrite <- !app_assoc.
  - rewrite !app_assoc. apply Permutation_cons_app. now rewrite <- !app_assoc.
Qed.

(** X3: in the JSON report [by_severity] has one count for each of the
    five severity tokens, in the order of the enumeration and also when the
    count is zero, and [total_issues] is the sum of the five counts; the
    groups by severity hold every finding once. *)
Theorem json_counts_add_up (self : SecurityAuditor) :
  exists counts,
    json_field "by_severity" (json_report self) = Some (PDict counts)
    /\ map fst counts = ["CRITICAL"; "HIGH"; "MEDIUM"; "LOW"; "INFO"]
    /\ json_field "total_issues" (json_report self) = Some (PInt (sum_counts counts))
    /\ Permutation (issues self) (flat_map (by_severity (issues self)) all_severities).
Proof.
  eexists. split; [reflexivity|]. split; [reflexivity|]. split.
  - unfold json_report, json_field. cbn [lookup String.eqb Ascii.eqb Bool.eqb].
    do 2 f_equal. cbn [all_severities map sum_counts fold_right snd].
    rewrite (length_by_severity (issues self)). lia.
  - apply by_severity_partition.
Qed.

(** ** Scanners only append *)

Lemma emit_grows (l : list SecurityIssue) (o : string) (st : state) :
  grows st (emit l o st).
Proof. unfold grows, emit. simpl. repeat split; eauto. Qed.

Lemma grows_refl (st : state) : grows st st.
Proof.
  unfold grows. repeat split; [exists [] | exists ""].
  - now rewrite app_nil_r.
  - now rewrite append_nil_r.
Qed.

Lemma scan_settings_grows (st : state) : grows st (fst (scan_settings st)).
Proof.
  rewrite scan_settings_spec.
  destruct (rglob_settings (fs st)) as [|[path f] rest]; cbn [fst].
  - apply emit_grows.
  - destruct (negb _); cbn [fst]; [apply grows_refl|].
    destruct f; cbn [fst]; [apply emit_grows | apply grows_refl].
Qed.

Lemma exit_code_app (f : option fail_choice) (a b : SecurityAuditor) (l : list SecurityIssue) :
  issues b = issues a +++ l ->
  determine_exit_code f a = 1%Z -> determine_exit_code f b = 1%Z.
Proof.
  intros Hb. rewrite !determine_exit_code_existsb, Hb.
  destruct f as [f|]; rewrite !existsb_app;
    repeat match goal with
           | |- context [existsb ?g ?x] => destruct (existsb g x)
           end; simpl; intros H; try reflexivity; discriminate H.
Qed.

(** X4: each of the four scanners only appends: the findings collected
    before it are still there, in the same order and in front; it writes to
    standard output only, never to standard error; and it leaves the
    project root, the auto-fix flag and the file system as they were. *)
Theorem scanners_only_append (env : Env) (st : state) :
  grows st (fst (scan_settings st))
  /\ grows st (scan_code st)
  /\ grows st (scan_dependencies env st)
  /\ grows st (scan_multi_tenant st).
Proof.
  split; [apply scan_settings_grows|]. split; [|split].
  - rewrite scan_code_spec. apply emit_grows.
  - rewrite scan_dependencies_spec. apply emit_grows.
  - rewrite scan_multi_tenant_spec. apply emit_grows.
Qed.

(** X5: the exit code never drops during a run: if the findings collected
    so far already give exit code 1, under a [--fail-on] threshold or
    without one, they still do after any further scanner has run. *)
Theorem exit_code_never_drops (f : option fail_choice) (env : Env) (st : state) :
  determine_exit_code f (self_ st) = 1%Z ->
  determine_exit_code f (self_ (fst (scan_settings st))) = 1%Z
  /\ determine_exit_code f (self_ (scan_code st)) = 1%Z
  /\ determine_exit_code f (self_ (scan_dependencies env st)) = 1%Z
  /\ determine_exit_code f (self_ (scan_multi_tenant st)) = 1%Z.
Proof.
  intros H.
  destruct (scan_settings_grows st) as (_ & _ & _ & _ & [l1 H1] & _).
  split; [now apply (exit_code_app f _ _ l1 H1)|].
  rewrite scan_code_spec, scan_dependencies_spec, scan_multi_tenant_spec.
  split; [|split]; eapply exit_code_app; try exact H; apply issues_emit.
Qed.

Lemma exit_code_never_drops_witness :
  let st := {| self_ := Sample.auditor [Sample.finding HIGH];
               fs := Sample.medium_source; out := ""; err := "" |} in
  determine_exit_code None (self_ (scan_multi_tenant st)) = 1%Z.
Proof.
  cbv zeta.
  apply (exit_code_never_drops None (Sample.env_of Sample.medium_source)
           {| self_ := Sample.auditor [Sample.finding HIGH];
              fs := Sample.medium_source; out := ""; err := "" |}).
  reflexivity.
Defined.

(** ** Where a finding points *)

Lemma nth_error_bound (lines : list string) (i : nat) (line : string) :
  nth_error lines (i - 1) = Some line -> 1 <= i -> 1 <= i <= List.length lines.
Proof.
  intros H Hi. split; [assumption|].
  assert (i - 1 < List.length lines) by (apply nth_error_Some; congruence). lia.
Qed.

Lemma located_in_intro (path : string) (lines : list string) (issue : SecurityIssue)
      (i : nat) (line : string) :
  In (i, line) (enumerate1 lines) ->
  file_path issue = Some path -> cve issue = PNone -> auto_fixable issue = false ->
  line_number issue = Some i ->
  (code_snippet issue = Some (Py.strip line)
   \/ code_snippet issue = Some (Py.take 100 (Py.strip line))) ->
  located_in path lines issue.
Proof.
  intros Hin Hp Hc Ha Hl Hs.
  apply in_enumerate_from in Hin as [Hnth Hle].
  repeat split; try assumption.
  exists i, line. split; [assumption|].
  split; [now apply (nth_error_bound lines i line)|]. now split.
Qed.

Ltac located H :=
  apply in_flat_map in H as (? & _ & H);
  repeat match type of H with
         | In _ (let '(_, _) := ?r in _) => destruct r
         end;
  apply in_flat_map in H as ([? ?] & ? & H);
  apply in_when in H as [_ ->];
  eapply located_in_intro; try eassumption; try reflexivity; auto.

Lemma file_findings_located (path : string) (lines : list string) (issue : SecurityIssue) :
  In issue (file_findings path lines) -> located_in path lines issue.
Proof.
  unfold file_findings, secret_findings. intros Hin.
  apply in_app_or in Hin as [H | Hin]; [located H|].
  apply in_app_or in Hin as [H | Hin]; [located H|].
  apply in_app_or in Hin as [H | Hin]; [located H|].
  apply in_app_or in Hin as [H | H]; [located H|].
  apply in_flat_map in H as (? & _ & H).
  apply in_flat_map in H as ([? ?] & ? & H).
  apply in_when in H as [_ ->].
  eapply located_in_intro; try eassumption; try reflexivity; auto.
Qed.



(** ** Tenancy scanner *)

Lemma tenant_findings_admin (path : string) (lines : list string) :
  Py.contains "admin.py" path = true -> tenant_findings path lines = [].
Proof.
  intros H. unfold tenant_findings. rewrite H. cbn [negb].
  induction (enumerate1 lines) as [|[i line] l IH]; [reflexivity|].
  cbn [flat_map]. rewrite IH, !andb_false_r. reflexivity.
Qed.

Lemma tenant_findings_medium (path : string) (lines : list string) (issue : SecurityIssue) :
  In issue (tenant_findings path lines) ->
  severity issue = MEDIUM /\ category issue = "Multi-Tenant"
  /\ Py.contains "admin.py" path = false
  /\ located_in path lines issue.
Proof.
  unfold tenant_findings. intros H.
  apply in_flat_map in H as ([i line] & Hline & H).
  apply in_app_or in H as [H | H]; apply in_when in H as [Hc ->];
    apply andb_true_iff in Hc as [_ Hc]; apply andb_true_iff in Hc as [_ Hc];
    apply negb_true_iff in Hc;
    (split; [reflexivity|]; split; [reflexivity|]; split; [assumption|]);
    eapply located_in_intro; try eassumption; try reflexivity; auto.
Qed.

(** X7: the tenancy scanner leaves a file alone when its path has
    [admin.py] in it; every finding it adds for another file is Medium, of
    category Multi-Tenant, and names the file and one of its lines. *)
Theorem tenancy_scan_of_a_file (path : string) (lines : list string)
        (self : SecurityAuditor) :
  (Py.contains "admin.py" path = true ->
   _scan_file_for_multi_tenant_issues path lines self = self)
  /\ (forall issue,
        In issue (issues (_scan_file_for_multi_tenant_issues path lines self)) ->
        In issue (issues self)
        \/ (severity issue = MEDIUM /\ category issue = "Multi-Tenant"
            /\ Py.contains "admin.py" path = false
            /\ located_in path lines issue)).
Proof.
  rewrite scan_tenant_spec. split.
  - intros H. rewrite (tenant_findings_admin path lines H). apply add_all_nil.
  - cbn [issues add_all]. intros issue H.
    apply in_app_or in H as [H | H]; [now left | right].
    now apply tenant_findings_medium.
Qed.

Lemma tenancy_scan_of_a_file_witness :
  _scan_file_for_multi_tenant_issues "shop/admin.py" Sample2.query_lines (init "." false)
  = init "." false
  /\ map severity
         (issues (_scan_file_for_multi_tenant_issues "shop/views.py" Sample2.query_lines
                    (init "." false))) = [MEDIUM].
Proof.
  split.
  - apply (proj1 (tenancy_scan_of_a_file "shop/admin.py" Sample2.query_lines
                                         (init "." false))).
    reflexivity.
  - reflexivity.
Defined.

(** ** Entries the scanners do not open *)

Lemma rglob_py_ignored (e : string * file) (t1 t2 : files) :
  ignored_entry e = true ->
  flat_map code_entry_findings (rglob_py (t1 +++ e :: t2))
  = flat_map code_entry_findings (rglob_py (t1 +++ t2))
  /\ flat_map tenant_entry_findings (rglob_py (t1 +++ e :: t2))
     = flat_map tenant_entry_findings (rglob_py (t1 +++ t2))
  /\ concat_str (map entry_output (rglob_py (t1 +++ e :: t2)))
     = concat_str (map entry_output (rglob_py (t1 +++ t2))).
Proof.
  intros H. unfold rglob_py.
  rewrite !filter_app, !flat_map_app, !map_app, !concat_str_app.
  cbn [filter]. unfold ignored_entry in H.
  destruct (Py.endswith (basename (fst e)) ".py"); [|now repeat split].
  cbn [negb orb] in H. cbn [flat_map map concat_str].
  assert (code_entry_findings e = []) as -> by (unfold code_entry_findings; now rewrite H).
  assert (tenant_entry_findings e = []) as ->
      by (unfold tenant_entry_findings; now rewrite H).
  assert (entry_output e = "") as -> by (unfold entry_output; now rewrite H).
  now repeat split.
Qed.

(** X8: the code scanner and the tenancy scanner never open an entry whose
    name does not end in [.py] or whose path has [venv] or [migrations] in
    it: with or without such an entry in the tree they add the same
    findings and print the same text, whatever the entry holds. *)
Theorem ignored_entries_change_nothing (root : string) (e : string * file) (t1 t2 : files) :
  ignored_entry e = true ->
  let with_e := blank root (t1 +++ e :: t2) in
  let without := blank root (t1 +++ t2) in
  self_ (scan_code with_e) = self_ (scan_code without)
  /\ out (scan_code with_e) = out (scan_code without)
  /\ self_ (scan_multi_tenant with_e) = self_ (scan_multi_tenant without)
  /\ out (scan_multi_tenant with_e) = out (scan_multi_tenant without).
Proof.
  intros H. cbv zeta.
  destruct (rglob_py_ignored e t1 t2 H) as (Hc & Ht & Ho).
  rewrite !scan_code_spec, !scan_multi_tenant_spec.
  unfold emit. cbn [blank fs self_ out]. rewrite Hc, Ht, Ho. now repeat split.
Qed.

Lemma ignored_entries_change_nothing_witness :
  self_ (scan_code (blank "." [Sample2.note; Sample2.migration; Sample2.source]))
  = self_ (scan_code (blank "." [Sample2.note; Sample2.source])).
Proof.
  apply (ignored_entries_change_nothing "." Sample2.migration
           [Sample2.note] [Sample2.source]).
  reflexivity.
Defined.

(** ** A run, step by step *)

Lemma emit_all_nil (st : state) : emit_all [] "" "" st = st.
Proof.
  destruct st; unfold emit_all; simpl. now rewrite add_all_nil, !append_nil_r.
Qed.

Lemma emit_all_emit_all (l1 l2 : list SecurityIssue) (o1 o2 e1 e2 : string) (st : state) :
  emit_all l2 o2 e2 (emit_all l1 o1 e1 st) = emit_all (l1 +++ l2) (o1 ++ o2) (e1 ++ e2) st.
Proof. unfold emit_all; simpl. now rewrite add_all_app, !append_assoc. Qed.

Lemma emit_emit_all (l : list SecurityIssue) (o : string) (st : state) :
  emit l o st = emit_all l o "" st.
Proof. unfold emit, emit_all. now rewrite append_nil_r. Qed.

Lemma log_emit_all (args : Args) (msg : string) (st : state) :
  log args msg st = emit_all [] (progress_out args msg) (progress_err args msg) st.
Proof.
  unfold log, progress_out, progress_err, emit_all, print, print_err.
  destruct (structured (arg_format args)); now rewrite add_all_nil, append_nil_r.
Qed.

Lemma step_emit_all (f : state -> state) (l : list SecurityIssue) (o : string)
      (args : Args) (msg : string) (b : bool) (st : state) :
  f (log args msg st) = emit l o (log args msg st) ->
  (if b then f (log args msg st) else st)
  = emit_all (if b then l else [])
             (if b then progress_out args msg ++ o else "")
             (if b then progress_err args msg else "") st.
Proof.
  intros H. destruct b; [|now rewrite emit_all_nil].
  rewrite H, emit_emit_all, log_emit_all, emit_all_emit_all.
  now rewrite append_nil_r.
Qed.

Lemma root_log (args : Args) (msg : string) (st : state) :
  project_root (self_ (log args msg st)) = project_root (self_ st).
Proof. unfold log. now destruct (structured (arg_format args)). Qed.

(** [main] after the settings scan, in one step. *)
Lemma main_after_settings_closed (args : Args) (env : Env) (st : state) :
  let t := fs st in
  let root := project_root (self_ st) in
  let st3 := emit_all (later_issues args env t root) (later_out args env t root)
                      (later_err args) st in
  main_after_settings args env st
  = (print (printed_report (arg_format args) (self_ st3)) st3,
     Exit (determine_exit_code (arg_fail_on args) (self_ st3))).
Proof.
  cbv zeta. unfold main_after_settings. cbv zeta.
  rewrite (step_emit_all scan_code
             (flat_map code_entry_findings (rglob_py (fs st)))
             (concat_str (map entry_output (rglob_py (fs st)))))
    by (rewrite scan_code_spec, fs_log; reflexivity).
  match goal with
  | |- context [scan_dependencies env (log args ?m ?s)] =>
      rewrite (step_emit_all (scan_dependencies env)
                 (dependency_findings env (fs st) (project_root (self_ st)))
                 (dependency_output env (fs st) (project_root (self_ st)))
                 args m _ s)
        by (rewrite scan_dependencies_spec, fs_log, root_log; reflexivity)
  end.
  match goal with
  | |- context [scan_multi_tenant (log args ?m ?s)] =>
      rewrite (step_emit_all scan_multi_tenant
                 (flat_map tenant_entry_findings (rglob_py (fs st)))
                 (concat_str (map entry_output (rglob_py (fs st))))
                 args m _ s)
        by (rewrite scan_multi_tenant_spec, fs_log; reflexivity)
  end.
  rewrite !emit_all_emit_all.
  unfold printed_report, later_issues, later_out, later_err.
  destruct (arg_format args); reflexivity.
Qed.

Lemma exists_head (t : files) (path : string) (f : file) (rest : files) :
  rglob_settings t = (path, f) :: rest -> exists_ t path = true.
Proof.
  intros H.
  assert (In (path, f) (rglob_settings t)) as Hin by (rewrite H; now left).
  apply filter_In in Hin as [Hin _].
  unfold exists_. apply existsb_exists. exists (path, f). split; [assumption|].
  apply String.eqb_refl.
Qed.

Lemma scan_settings_closed (st : state) :
  scan_settings st
  = (emit (settings_issues (fs st)) (settings_output (fs st)) st, settings_error (fs st)).
Proof.
  rewrite scan_settings_spec.
  unfold settings_issues, settings_output, settings_error.
  destruct (rglob_settings (fs st)) as [|[path f] rest] eqn:E; cbn [hd_error].
  - reflexivity.
  - rewrite (exists_head _ _ _ _ E). cbn [negb].
    destruct f; [reflexivity | now rewrite emit_nil].
Qed.

(** The initial state of [main]. *)
Lemma main_closed (args : Args) (env : Env) :
  let st0 := {| self_ := init (arg_project_root args)
                              (arg_auto_fix args && negb (arg_report_only args));
                fs := tree env; out := ""; err := "" |} in
  let logged := log args "🔍 Scanning Django settings..." st0 in
  main args env
  = if wants args ScanSettings then
      match settings_error (tree env) with
      | Some e => (logged, Uncaught e)
      | None =>
          main_after_settings args env
            (emit (settings_issues (tree env)) (settings_output (tree env)) logged)
      end
    else main_after_settings args env st0.
Proof.
  cbv zeta. unfold main.
  destruct (wants args ScanSettings); [|reflexivity].
  rewrite scan_settings_closed, fs_log. cbn [fs].
  destruct (settings_error (tree env)) as [e|] eqn:E; [|reflexivity].
  unfold settings_error in E. unfold settings_issues, settings_output.
  destruct (hd_error (rglob_settings (tree env))) as [[p [c|e']]|]; try discriminate.
  now rewrite emit_nil.
Qed.

Lemma issues_emit_all (l : list SecurityIssue) (o e : string) (st : state) :
  issues (self_ (emit_all l o e st)) = issues (self_ st) +++ l.
Proof. reflexivity. Qed.

(** The findings and the ending of a run. *)
Lemma main_issues (args : Args) (env : Env) :
  issues (self_ (fst (main args env)))
  = if wants args ScanSettings then
      match settings_error (tree env) with
      | Some _ => []
      | None => settings_issues (tree env)
                +++ later_issues args env (tree env) (arg_project_root args)
      end
    else later_issues args env (tree env) (arg_project_root args).
Proof.
  rewrite main_closed. cbv zeta.
  destruct (wants args ScanSettings).
  - destruct (settings_error (tree env)).
    + cbn [fst]. unfold log. now destruct (structured (arg_format args)).
    + rewrite main_after_settings_closed. cbv zeta. cbn [fst print self_].
      rewrite issues_emit_all, issues_emit, fs_emit, fs_log. cbn [fs].
      unfold emit. cbn [self_ add_all project_root].
      rewrite root_log. cbn [self_ init project_root issues].
      unfold log. now destruct (structured (arg_format args)).
  - rewrite main_after_settings_closed. cbv zeta. cbn [fst print self_].
    rewrite issues_emit_all. reflexivity.
Qed.

Lemma main_ending (args : Args) (env : Env) :
  snd (main args env)
  = match (if wants args ScanSettings then settings_error (tree env) else None) with
    | Some e => Uncaught e
    | None => Exit (determine_exit_code (arg_fail_on args) (self_ (fst (main args env))))
    end.
Proof.
  rewrite main_closed. cbv zeta.
  destruct (wants args ScanSettings).
  - destruct (settings_error (tree env)); [reflexivity|].
    now rewrite main_after_settings_closed.
  - now rewrite main_after_settings_closed.
Qed.


(** ** Progress lines *)



(** ** The format of the report *)

(** X10: the format chosen changes the rendering only: two runs that
    differ in [--format] alone collect the same findings and end the same
    way, with the same exit code. *)
Theorem format_changes_rendering_only
        (scan : scan_choice) (fix_flag only : bool) (format1 format2 : format_choice)
        (root : string) (fail_on : option fail_choice) (env : Env) :
  let r1 := main (mkArgs scan fix_flag only format1 root fail_on) env in
  let r2 := main (mkArgs scan fix_flag only format2 root fail_on) env in
  issues (self_ (fst r1)) = issues (self_ (fst r2)) /\ snd r1 = snd r2.
Proof.
  cbv zeta.
  assert (issues (self_ (fst (main (mkArgs scan fix_flag only format1 root fail_on) env)))
          = issues (self_ (fst (main (mkArgs scan fix_flag only format2 root fail_on) env))))
    as H by (rewrite !main_issues; reflexivity).
  split; [exact H|].
  rewrite !main_ending.
  change (wants (mkArgs scan fix_flag only format2 root fail_on) ScanSettings)
    with (wants (mkArgs scan fix_flag only format1 root fail_on) ScanSettings).
  destruct (if wants _ ScanSettings then settings_error (tree env) else None);
    [reflexivity|].
  f_equal. now apply determine_exit_code_issues.
Qed.

(** ** When a run stops early *)




(** ** A full scan and its parts *)

Lemma exit_code_app_iff (f : option fail_choice) (a b c : SecurityAuditor) :
  issues c = issues a +++ issues b ->
  (determine_exit_code f c = 1%Z
   <-> determine_exit_code f a = 1%Z \/ determine_exit_code f b = 1%Z).
Proof.
  intros Hc. rewrite !determine_exit_code_existsb, Hc.
  destruct f as [f|]; rewrite !existsb_app;
    repeat match goal with
           | |- context [existsb ?g ?x] => destruct (existsb g x)
           end; simpl; intuition congruence.
Qed.

(** X12: when the settings file can be read, or there is none, the findings
    of a full scan are those of the four single scans one after the other,
    in the order settings, code, dependencies, multi-tenant, and the full
    scan exits 1 exactly when one of the four does; when the settings scan
    alone stops early, the full scan stops the same way. *)
Theorem full_scan_is_the_four_scans
        (fix_flag only : bool) (format : format_choice) (root : string)
        (fail_on : option fail_choice) (env : Env) :
  let run scan := main (mkArgs scan fix_flag only format root fail_on) env in
  let found scan := issues (self_ (fst (run scan))) in
  (forall e, snd (run ScanSettings) = Uncaught e -> run ScanAll = run ScanSettings)
  /\ ((forall e, snd (run ScanSettings) <> Uncaught e) ->
      found ScanAll
      = found ScanSettings +++ found ScanCode +++ found ScanDependencies
        +++ found ScanMultiTenant
      /\ (snd (run ScanAll) = Exit 1
          <-> snd (run ScanSettings) = Exit 1 \/ snd (run ScanCode) = Exit 1
              \/ snd (run ScanDependencies) = Exit 1
              \/ snd (run ScanMultiTenant) = Exit 1)).
Proof.
  cbv zeta. split.
  - intros e He. rewrite main_ending in He. cbn [wants arg_scan] in He.
    rewrite !main_closed. cbv zeta. cbn [wants arg_scan].
    destruct (settings_error (tree env)); [reflexivity | discriminate].
  - intros Hok.
    assert (settings_error (tree env) = None) as E.
    { destruct (settings_error (tree env)) as [e|] eqn:E; [|reflexivity].
      exfalso. apply (Hok e). rewrite main_ending. cbn [wants arg_scan].
      now rewrite E. }
    assert (issues (self_ (fst (main (mkArgs ScanAll fix_flag only format root fail_on) env)))
            = issues (self_ (fst (main (mkArgs ScanSettings fix_flag only format root fail_on) env)))
              +++ issues (self_ (fst (main (mkArgs ScanCode fix_flag only format root fail_on) env)))
              +++ issues (self_ (fst (main (mkArgs ScanDependencies fix_flag only format root fail_on) env)))
              +++ issues (self_ (fst (main (mkArgs ScanMultiTenant fix_flag only format root fail_on) env))))
      as Hall.
    { rewrite !main_issues. cbn [wants arg_scan]. rewrite E.
      unfold later_issues. cbn [wants arg_scan arg_project_root app].
      now rewrite !app_nil_r. }
    split; [exact Hall|].
    rewrite !main_ending. cbn [wants arg_scan arg_fail_on]. rewrite E.
    set (a := self_ (fst (main (mkArgs ScanSettings fix_flag only format root fail_on) env))) in *.
    set (b := self_ (fst (main (mkArgs ScanCode fix_flag only format root fail_on) env))) in *.
    set (c := self_ (fst (main (mkArgs ScanDependencies fix_flag only format root fail_on) env))) in *.
    set (d := self_ (fst (main (mkArgs ScanMultiTenant fix_flag only format root fail_on) env))) in *.
    set (all := self_ (fst (main (mkArgs ScanAll fix_flag only format root fail_on) env))) in *.
    assert (forall x, Exit (determine_exit_code fail_on x) = Exit 1
                      <-> determine_exit_code fail_on x = 1%Z) as Hx
        by (intros x; split; [now intros [= ->] | now intros ->]).
    rewrite !Hx.
    pose (cd := add_all (issues d) c).
    pose (bcd := add_all (issues cd) b).
    rewrite (exit_code_app_iff fail_on a bcd all)
      by (rewrite Hall; reflexivity).
    rewrite (exit_code_app_iff fail_on b cd bcd) by reflexivity.
    rewrite (exit_code_app_iff fail_on c d cd) by reflexivity.
    reflexivity.
Qed.

Lemma full_scan_is_the_four_scans_witness :
  let run scan := main (Sample.args_of scan Text) (Sample.env_of Sample3.project) in
  map severity (issues (self_ (fst (run ScanAll))))
  = map severity (issues (self_ (fst (run ScanSettings)))
                  +++ issues (self_ (fst (run ScanCode)))
                  +++ issues (self_ (fst (run ScanDependencies)))
                  +++ issues (self_ (fst (run ScanMultiTenant)))).
Proof.
  cbv zeta.
  apply (f_equal (map severity)).
  apply (proj2 (full_scan_is_the_four_scans false false Text "." None
                  (Sample.env_of Sample3.project))).
  intros e. vm_compute. discriminate.
Defined.

(** ** What a selected scan looks at *)

(** X13: unless the dependency scan is selected, neither tool is run nor
    is [json.loads] called: the whole result of the run, state and ending,
    is the same whatever the tools would answer. *)
Theorem tools_run_only_for_dependencies (args : Args) (env1 env2 : Env) :
  tree env1 = tree env2 ->
  arg_scan args <> ScanDependencies -> arg_scan args <> ScanAll ->
  main args env1 = main args env2.
Proof.
  intros Htree H1 H2. unfold main, main_after_settings, wants.
  destruct (arg_scan args); try contradiction; cbv iota; now rewrite Htree.
Qed.

Lemma tools_run_only_for_dependencies_witness :
  main (Sample.args_of ScanCode Text) (Sample.env_of Sample3.project)
  = main (Sample.args_of ScanCode Text) Sample3.env_with_tool.
Proof.
  apply tools_run_only_for_dependencies.
  - reflexivity.
  - discriminate.
  - discriminate.
Defined.

Lemma dependency_findings_manifest (env1 env2 : Env) (t1 t2 : files) (root : string) :
  manifest_of t1 root = manifest_of t2 root ->
  pip_audit env1 = pip_audit env2 -> safety env1 = safety env2 ->
  json_loads env1 = json_loads env2 ->
  dependency_findings env1 t1 root = dependency_findings env2 t2 root
  /\ dependency_output env1 t1 root = dependency_output env2 t2 root.
Proof.
  intros Hm Hp Hs Hj. unfold dependency_findings, dependency_output. rewrite Hm.
  destruct (manifest_of t2 root) as [m|]; [|now split].
  unfold manifest_findings, manifest_output, audit_manifest.
  now rewrite Hp, Hs, Hj.
Qed.

(** X14: a run of the dependency scan alone reads no file: of the tree it
    uses only whether [requirements.txt] or [pyproject.toml] exists at the
    root.  Two trees with the same manifest give the same findings, the
    same text on both streams and the same ending. *)
Theorem dependency_scan_reads_no_file (args : Args) (env1 env2 : Env) :
  arg_scan args = ScanDependencies ->
  manifest_of (tree env1) (arg_project_root args)
  = manifest_of (tree env2) (arg_project_root args) ->
  pip_audit env1 = pip_audit env2 -> safety env1 = safety env2 ->
  json_loads env1 = json_loads env2 ->
  self_ (fst (main args env1)) = self_ (fst (main args env2))
  /\ out (fst (main args env1)) = out (fst (main args env2))
  /\ err (fst (main args env1)) = err (fst (main args env2))
  /\ snd (main args env1) = snd (main args env2).
Proof.
  intros Hscan Hm Hp Hs Hj.
  destruct (dependency_findings_manifest env1 env2 _ _ _ Hm Hp Hs Hj) as [Hf Ho].
  rewrite !main_closed. cbv zeta. unfold wants at 1 3. rewrite Hscan. cbv iota.
  rewrite !main_after_settings_closed. cbv zeta.
  unfold later_issues, later_out, later_err, wants. rewrite Hscan. cbv iota.
  cbn [fs self_ init project_root]. rewrite Hf, Ho.
  repeat split.
Qed.

Lemma dependency_scan_reads_no_file_witness :
  out (fst (main (Sample.args_of ScanDependencies Json_) (Sample.env_of Sample3.project)))
  = out (fst (main (Sample.args_of ScanDependencies Json_)
                   (Sample.env_of Sample3.other_project))).
Proof.
  apply (dependency_scan_reads_no_file (Sample.args_of ScanDependencies Json_)
           (Sample.env_of Sample3.project) (Sample.env_of Sample3.other_project));
    reflexivity.
Defined.

(** ** The dependency tools *)

Lemma collect_good (mk : pyval -> outcome SecurityIssue) (good : list pyval)
      (found : list SecurityIssue) :
  Forall2 (fun v issue => mk v = Return issue) good found ->
  collect mk good = (found, None).
Proof.
  induction 1 as [|v issue good found Hv _ IH]; simpl; [reflexivity|].
  now rewrite Hv, IH.
Qed.

Lemma collect_bad (mk : pyval -> outcome SecurityIssue) (good rest : list pyval)
      (bad : pyval) (found : list SecurityIssue) (e : string) :
  Forall2 (fun v issue => mk v = Return issue) good found ->
  mk bad = Raise e ->
  collect mk (good +++ bad :: rest) = (found, Some e).
Proof.
  intros Hgood Hbad.
  induction Hgood as [|v issue good found Hv _ IH]; simpl.
  - now rewrite Hbad.
  - now rewrite Hv, IH.
Qed.

Lemma out_emit (l : list SecurityIssue) (o : string) (st : state) :
  out (emit l o st) = out st ++ o.
Proof. reflexivity. Qed.

(** X15: pip-audit answers with status 0 and JSON whose [dependencies] is
    a list.  When every entry gives a finding the scan adds one finding per
    entry, in the order of the list, and prints nothing.  When an entry
    raises, the findings of the entries before it are kept, a warning with
    the exception's text is printed on standard output, and the entries
    after it are never looked at. *)
Theorem dependency_loop_stops_at_first_error
        (env : Env) (st : state) (manifest text : string) (vulns : pyval)
        (good : list pyval) (found : list SecurityIssue) :
  manifest_of (fs st) (project_root (self_ st)) = Some manifest ->
  pip_audit env manifest = Completed 0 text ->
  json_loads env text = Return vulns ->
  Forall2 (fun v issue => pip_audit_issue v = Return issue) good found ->
  (get vulns "dependencies" (PList []) = Return (PList good) ->
   issues (self_ (scan_dependencies env st)) = issues (self_ st) +++ found
   /\ List.length found = List.length good
   /\ out (scan_dependencies env st) = out st)
  /\ (forall bad rest e,
        get vulns "dependencies" (PList []) = Return (PList (good +++ bad :: rest)) ->
        pip_audit_issue bad = Raise e ->
        issues (self_ (scan_dependencies env st)) = issues (self_ st) +++ found
        /\ out (scan_dependencies env st)
           = out st ++ "⚠️  Error scanning dependencies: " ++ e ++ newline).
Proof.
  intros Hm Hp Hj Hgood.
  unfold manifest_of in Hm. unfold scan_dependencies, audit_manifest. cbv zeta.
  rewrite Hm, Hp, Hj. cbn [Z.eqb]. rewrite handle_add_from.
  split.
  - intros Hget. unfold collect_from. rewrite Hget. cbn [bind iter].
    rewrite (collect_good _ _ _ Hgood). cbn [fst snd warning].
    rewrite issues_emit, out_emit, append_nil_r.
    repeat split. symmetry. eapply Forall2_length. eassumption.
  - intros bad rest e Hget Hbad. unfold collect_from. rewrite Hget. cbn [bind iter].
    rewrite (collect_bad _ _ _ _ _ _ Hgood Hbad). cbn [fst snd warning].
    now rewrite issues_emit, out_emit.
Qed.

Lemma dependency_loop_stops_at_first_error_witness :
  let after := scan_dependencies (Sample4.env_answer 0) (blank "." Sample.manifest_only) in
  issues (self_ after) = [Sample4.django_issue]
  /\ out after = "⚠️  Error scanning dependencies: list index out of range" ++ newline.
Proof.
  cbv zeta.
  assert (Forall2 (fun v issue => pip_audit_issue v = Return issue)
                  [Sample4.django] [Sample4.django_issue]) as Hgood.
  { constructor; [reflexivity | constructor]. }
  apply (proj2 (dependency_loop_stops_at_first_error
                  (Sample4.env_answer 0) (blank "." Sample.manifest_only)
                  "requirements.txt" "audit" Sample4.answer
                  [Sample4.django] [Sample4.django_issue]
                  eq_refl eq_refl eq_refl Hgood)
               Sample4.requests [Sample4.flask] "list index out of range").
  - reflexivity.
  - reflexivity.
Defined.

(** X16: the answer of pip-audit is read only when its exit status is 0;
    with any other status the scan adds no finding and prints nothing.  And
    safety is run only when pip-audit is not installed: when pip-audit
    could be started, or failed in another way, the result is the same
    whatever safety would answer. *)
Theorem pip_audit_decides (env : Env) (st : state) (manifest : string) :
  manifest_of (fs st) (project_root (self_ st)) = Some manifest ->
  (forall status text,
     pip_audit env manifest = Completed status text -> status <> 0%Z ->
     scan_dependencies env st = st)
  /\ (forall other,
        pip_audit env manifest <> NotFound ->
        scan_dependencies
          {| tree := tree env; pip_audit := pip_audit env;
             safety := other; json_loads := json_loads env |} st
        = scan_dependencies env st).
Proof.
  intros Hm. unfold manifest_of in Hm.
  unfold scan_dependencies, audit_manifest. cbv zeta. rewrite Hm. split.
  - intros status text -> Hne.
    destruct (Z.eqb_spec status 0); [contradiction | reflexivity].
  - intros other Hne. cbn [pip_audit safety json_loads].
    destruct (pip_audit env manifest); [contradiction | reflexivity | reflexivity].
Qed.

Lemma pip_audit_decides_witness :
  scan_dependencies (Sample4.env_answer 1) (blank "." Sample.manifest_only)
  = blank "." Sample.manifest_only.
Proof.
  apply (proj1 (pip_audit_decides (Sample4.env_answer 1) (blank "." Sample.manifest_only)
                  "requirements.txt" eq_refl) 1%Z "audit").
  - reflexivity.
  - discriminate.
Defined.

Ltac split_outcomes H :=
  repeat match type of H with
         | context [bind ?m _] =>
             let E := fresh "E" in
             destruct m eqn:E; cbn [bind] in H; [|discriminate H]
         end.

Lemma pip_audit_issue_shaped (v : pyval) (issue : SecurityIssue) :
  pip_audit_issue v = Return issue -> dependency_shaped issue.
Proof.
  unfold pip_audit_issue. intros H. split_outcomes H.
  injection H as <-. unfold dependency_shaped. cbn. auto 10.
Qed.

Lemma safety_issue_shaped (v : pyval) (issue : SecurityIssue) :
  safety_issue v = Return issue -> dependency_shaped issue.
Proof.
  unfold safety_issue. intros H. split_outcomes H.
  injection H as <-. unfold dependency_shaped. cbn. auto 10.
Qed.

Lemma collect_in (mk : pyval -> outcome SecurityIssue) (l : list pyval)
      (issue : SecurityIssue) :
  In issue (fst (collect mk l)) -> exists v, mk v = Return issue.
Proof.
  induction l as [|v l IH]; simpl; [intros []|].
  destruct (mk v) as [i|e] eqn:E; cbn [fst]; [|intros []].
  intros [<- | H]; [now exists v | now apply IH].
Qed.

Lemma collect_from_in (mk : pyval -> outcome SecurityIssue) (items : outcome pyval)
      (issue : SecurityIssue) :
  In issue (fst (collect_from mk items)) -> exists v, mk v = Return issue.
Proof.
  unfold collect_from. destruct (v <- items ;; iter v); [apply collect_in | intros []].
Qed.

Lemma manifest_findings_shaped (env : Env) (manifest : string) (issue : SecurityIssue) :
  In issue (manifest_findings env manifest) -> dependency_shaped issue.
Proof.
  unfold manifest_findings, audit_manifest.
  destruct (pip_audit env manifest) as [|e|code text].
  - destruct (safety env manifest) as [|e|code text].
    + cbn. intros [<- | []]. unfold dependency_shaped. cbn. auto 10.
    + intros [].
    + destruct (negb (text =? "")); [|intros []].
      destruct (json_loads env text) as [vulns|e]; [|intros []].
      rewrite handle_add_from. rewrite issues_emit. cbn [blank self_ init issues app].
      intros H. apply collect_from_in in H as [v Hv].
      now apply (safety_issue_shaped v).
  - intros [].
  - destruct (Z.eqb code 0); [|intros []].
    destruct (json_loads env text) as [vulns|e]; [|intros []].
    rewrite handle_add_from. rewrite issues_emit. cbn [blank self_ init issues app].
    intros H. apply collect_from_in in H as [v Hv].
    now apply (pip_audit_issue_shaped v).
Qed.

Lemma dependency_findings_shaped (env : Env) (t : files) (root : string)
      (issue : SecurityIssue) :
  In issue (dependency_findings env t root) -> dependency_shaped issue.
Proof.
  unfold dependency_findings. destruct (manifest_of t root); [|intros []].
  apply manifest_findings_shaped.
Qed.

(** X17: every finding the dependency scan adds, whatever the tools
    answer, is of category Dependencies, names no file, line or snippet, is
    not auto-fixable, and is of severity High, the one exception being the
    Info finding that no scanner is available. *)
Theorem dependency_scan_findings_shape (env : Env) (st : state) (issue : SecurityIssue) :
  In issue (issues (self_ (scan_dependencies env st))) ->
  In issue (issues (self_ st)) \/ dependency_shaped issue.
Proof.
  rewrite scan_dependencies_spec, issues_emit. intros H.
  apply in_app_or in H as [H | H]; [now left | right].
  now apply dependency_findings_shaped in H.
Qed.

Lemma dependency_scan_findings_shape_witness :
  dependency_shaped Sample4.django_issue.
Proof.
  destruct (dependency_scan_findings_shape (Sample4.env_answer 0)
              (blank "." Sample.manifest_only) Sample4.django_issue) as [[] | H].
  - vm_compute. left. reflexivity.
  - exact H.
Defined.

(** ** The settings rules *)

Lemma when_length (b : bool) (issue : SecurityIssue) : List.length (when b issue) <= 1.
Proof. destruct b; simpl; lia. Qed.

Lemma flat_map_length_le {A : Type} (f : A -> list SecurityIssue) (l : list A) :
  (forall x, List.length (f x) <= 1) -> List.length (flat_map f l) <= List.length l.
Proof.
  intros Hf. induction l as [|x l IH]; simpl; [lia|].
  rewrite length_app. specialize (Hf x). lia.
Qed.

Ltac in_pieces H :=
  repeat (apply in_app_or in H; destruct H as [H | H]).

Ltac shaped_piece H :=
  first
    [ apply in_when in H as [_ ->]
    | destruct H as [<- | []]
    | destruct H as [] ].

Lemma settings_findings_shaped (path content : string) (issue : SecurityIssue) :
  In issue (settings_findings path content) -> settings_shaped path issue.
Proof.
  unfold settings_findings, required_middleware, https_settings.
  cbn [flat_map]. intros H. in_pieces H.
  all: repeat match type of H with
              | In _ (if ?b then _ else _) => destruct b
              end.
  all: shaped_piece H.
  all: unfold settings_shaped; cbn; auto 10.
Qed.

Lemma settings_findings_length (path content : string) :
  List.length (settings_findings path content) <= 13.
Proof.
  unfold settings_findings. rewrite !length_app.
  pose proof (when_length (Re.found (Re.search Pat.debug_true content))
                          (debug_enabled_issue path)).
  pose proof (when_length
                (Re.found (Re.search Pat.secret_key_literal content)
                 && (negb (Py.contains "os.environ" content)
                     && negb (Py.contains "env(" content)))
                (hardcoded_secret_key_issue path)).
  pose proof (when_length
                (Re.found (Re.search Pat.allowed_hosts_star content)
                 || Re.found (Re.search Pat.allowed_hosts_quoted_star content))
                (allowed_hosts_issue path)).
  pose proof (when_length (negb (Py.contains "AUTH_PASSWORD_VALIDATORS" content))
                          (missing_validators_issue path)).
  pose proof (when_length (Re.found (Re.search Pat.csp_report_only content))
                          (csp_issue path)).
  pose proof (flat_map_length_le
                (fun mw => when (negb (Py.contains mw content))
                                (missing_middleware_issue path mw))
                required_middleware (fun mw => when_length _ _)) as Hmw.
  assert (List.length
            (flat_map (fun '(setting, (expected, _)) =>
                         if negb (Py.contains setting content)
                         then [missing_setting_issue path setting expected]
                         else when (Re.found (Re.search (Pat.setting_false setting) content))
                                   (insecure_setting_issue path setting))
                      https_settings) <= List.length https_settings) as Hhttps.
  { apply flat_map_length_le. intros [setting [expected sev]].
    destruct (negb (Py.contains setting content)); [simpl; lia | apply when_length]. }
  change (List.length required_middleware) with 3 in Hmw.
  change (List.length https_settings) with 5 in Hhttps.
  lia.
Qed.

(** X18: what the settings scan can add.  It looks at one file only, the
    first [settings.py] of the tree, and adds at most thirteen findings.
    Each of them is of category Settings, names that file without a line
    number or a snippet, has no reference id, and is Critical, High or
    Medium. *)
Theorem settings_scan_findings_shape (st : state) :
  exists new,
    issues (self_ (fst (scan_settings st))) = issues (self_ st) +++ new
    /\ List.length new <= 13
    /\ forall issue,
         In issue new ->
         exists path content,
           hd_error (rglob_settings (fs st)) = Some (path, Readable content)
           /\ settings_shaped path issue.
Proof.
  exists (settings_issues (fs st)).
  rewrite scan_settings_closed. cbn [fst]. rewrite issues_emit.
  unfold settings_issues.
  destruct (hd_error (rglob_settings (fs st))) as [[path [content|e]]|].
  - repeat split.
    + apply settings_findings_length.
    + intros issue H. exists path, content. split; [reflexivity|].
      now apply (settings_findings_shaped path content).
  - repeat split; [simpl; lia | intros ? []].
  - repeat split; [simpl; lia | intros ? []].
Qed.

Ltac other_rule H :=
  first
    [ apply in_when in H as [_ H]; exfalso; vm_compute in H; discriminate H
    | destruct H as [H | []]; exfalso; vm_compute in H; discriminate H
    | destruct H as [] ].

(** X19: the rule for the five HTTPS settings of the table.  A setting
    whose name occurs nowhere in the file is reported as missing; one whose
    name occurs and that is assigned [False] somewhere is reported as
    disabled; in every other case nothing is reported for it.  The finding
    for a missing setting is Medium and the one for a disabled setting
    High, whatever severity the table pairs with the setting. *)
Theorem https_setting_rule (path content setting expected : string) (sev : Severity) :
  In (setting, (expected, sev)) https_settings ->
  (In (missing_setting_issue path setting expected) (settings_findings path content)
   <-> Py.contains setting content = false)
  /\ (In (insecure_setting_issue path setting) (settings_findings path content)
      <-> Py.contains setting content = true
          /\ Re.found (Re.search (Pat.setting_false setting) content) = true)
  /\ severity (missing_setting_issue path setting expected) = MEDIUM
  /\ severity (insecure_setting_issue path setting) = HIGH.
Proof.
  intros Hin.
  assert (forall issue,
             In issue (if negb (Py.contains setting content)
                       then [missing_setting_issue path setting expected]
                       else when (Re.found (Re.search (Pat.setting_false setting) content))
                                 (insecure_setting_issue path setting)) ->
             In issue (settings_findings path content)) as Hback.
  { intros issue H. unfold settings_findings.
    apply in_or_app; right. apply in_or_app; right. apply in_or_app; right.
    apply in_or_app; right. apply in_or_app; left.
    apply in_flat_map. now exists (setting, (expected, sev)). }
  repeat split.
  - intros H. destruct (Py.contains setting content) eqn:Hc; [exfalso | reflexivity].
    unfold settings_findings, required_middleware, https_settings in H.
    cbn [flat_map] in H.
    simpl in Hin.
    repeat (destruct Hin as [Hin | Hin]; [injection Hin as <- <- <-|]); [..|destruct Hin].
    all: in_pieces H.
    all: try rewrite Hc in H; cbn [negb] in H.
    all: repeat match type of H with
                | In _ (if ?b then _ else _) => destruct b
                end.
    all: other_rule H.
  - intros Hc. apply Hback. rewrite Hc. now left.
  - destruct (Py.contains setting content) eqn:Hc; [reflexivity | exfalso].
    unfold settings_findings, required_middleware, https_settings in H.
    cbn [flat_map] in H.
    simpl in Hin.
    repeat (destruct Hin as [Hin | Hin]; [injection Hin as <- <- <-|]); [..|destruct Hin].
    all: in_pieces H.
    all: try rewrite Hc in H; cbn [negb] in H.
    all: repeat match type of H with
                | In _ (if ?b then _ else _) => destruct b
                end.
    all: other_rule H.
  - destruct (Re.found (Re.search (Pat.setting_false setting) content)) eqn:Hf;
      [reflexivity | exfalso].
    destruct (Py.contains setting content) eqn:Hc.
    + unfold settings_findings, required_middleware, https_settings in H.
      cbn [flat_map] in H.
      simpl in Hin.
      repeat (destruct Hin as [Hin | Hin]; [injection Hin as <- <- <-|]); [..|destruct Hin].
      all: in_pieces H.
      all: try rewrite Hc in H; try rewrite Hf in H; cbn [negb when] in H.
      all: repeat match type of H with
                  | In _ (if ?b then _ else _) => destruct b
                  end.
      all: other_rule H.
    + unfold settings_findings, required_middleware, https_settings in H.
      cbn [flat_map] in H.
      simpl in Hin.
      repeat (destruct Hin as [Hin | Hin]; [injection Hin as <- <- <-|]); [..|destruct Hin].
      all: in_pieces H.
      all: try rewrite Hc in H; cbn [negb] in H.
      all: repeat match type of H with
                  | In _ (if ?b then _ else _) => destruct b
                  end.
      all: other_rule H.
  - intros [Hc Hf]. apply Hback. rewrite Hc, Hf. now left.
Qed.

Lemma https_setting_rule_witness :
  In (insecure_setting_issue "settings.py" "SECURE_BROWSER_XSS_FILTER")
     (settings_findings "settings.py" "SECURE_BROWSER_XSS_FILTER = False")
  /\ severity (insecure_setting_issue "settings.py" "SECURE_BROWSER_XSS_FILTER") = HIGH.
Proof.
  destruct (https_setting_rule "settings.py" "SECURE_BROWSER_XSS_FILTER = False"
              "SECURE_BROWSER_XSS_FILTER" "True" MEDIUM) as (_ & Hdis & _ & Hsev).
  - simpl. auto 10.
  - split; [apply Hdis; split; reflexivity | exact Hsev].
Defined.

(** X20: the hardcoded SECRET_KEY finding of the settings scan.  It is
    reported exactly when the file assigns a quoted value to SECRET_KEY
    and contains neither [os.environ] nor [env(] anywhere: one mention of
    either, on any line, suppresses the finding. *)
Theorem hardcoded_secret_key_rule (path content : string) :
  In (hardcoded_secret_key_issue path) (settings_findings path content)
  <-> Re.found (Re.search Pat.secret_key_literal content) = true
      /\ Py.contains "os.environ" content = false
      /\ Py.contains "env(" content = false.
Proof.
  split.
  - intros H.
    unfold settings_findings, required_middleware, https_settings in H.
    cbn [flat_map] in H. in_pieces H.
    2:{ apply in_when in H as [H _].
        apply andb_prop in H as [H1 H]. apply andb_prop in H as [H2 H3].
        apply negb_true_iff in H2, H3. auto. }
    all: repeat match type of H with
                | In _ (if ?b then _ else _) => destruct b
                end.
    all: other_rule H.
  - intros (H1 & H2 & H3). unfold settings_findings.
    apply in_or_app; right. apply in_or_app; left.
    rewrite H1, H2, H3. now left.
Qed.

Lemma hardcoded_secret_key_rule_witness :
  ~ In (hardcoded_secret_key_issue "settings.py")
       (settings_findings "settings.py"
          ("SECRET_KEY = 'django-insecure-4x'" ++ newline ++ "# env('DEBUG') is unused")).
Proof.
  intros H.
  apply (proj1 (hardcoded_secret_key_rule "settings.py" _)) in H.
  destruct H as (_ & _ & H). vm_compute in H. discriminate H.
Defined.

(** ** Findings of a whole run *)

Lemma settings_issues_origin (t : files) (issue : SecurityIssue) :
  In issue (settings_issues t) ->
  exists path content, In (path, Readable content) t /\ settings_shaped path issue.
Proof.
  unfold settings_issues.
  destruct (rglob_settings t) as [|[path [content|e]] rest] eqn:E; cbn [hd_error];
    try (intros []).
  intros H. exists path, content. split.
  - assert (In (path, Readable content) (rglob_settings t)) as Hin
        by (rewrite E; now left).
    unfold rglob_settings in Hin. now apply filter_In in Hin.
  - now apply (settings_findings_shaped path content).
Qed.

Lemma code_entry_origin (t : files) (issue : SecurityIssue) :
  In issue (flat_map code_entry_findings (rglob_py t)) ->
  exists path content,
    In (path, Readable content) t
    /\ In issue (file_findings path (Py.splitlines content)).
Proof.
  intros H. apply in_flat_map in H as ([path f] & He & H).
  unfold rglob_py in He. apply filter_In in He as [He _].
  unfold code_entry_findings in H. cbn [fst snd] in H.
  destruct (skipped path); [destruct H|].
  destruct f as [content|e]; [|destruct H].
  now exists path, content.
Qed.

Lemma tenant_entry_origin (t : files) (issue : SecurityIssue) :
  In issue (flat_map tenant_entry_findings (rglob_py t)) ->
  exists path content,
    In (path, Readable content) t
    /\ In issue (tenant_findings path (Py.readlines content)).
Proof.
  intros H. apply in_flat_map in H as ([path f] & He & H).
  unfold rglob_py in He. apply filter_In in He as [He _].
  unfold tenant_entry_findings in H. cbn [fst snd] in H.
  destruct (skipped path); [destruct H|].
  destruct f as [content|e]; [|destruct H].
  now exists path, content.
Qed.

Lemma run_finding_cases (args : Args) (env : Env) (issue : SecurityIssue) :
  In issue (issues (self_ (fst (main args env)))) ->
  In issue (settings_issues (tree env))
  \/ In issue (flat_map code_entry_findings (rglob_py (tree env)))
  \/ In issue (dependency_findings env (tree env) (arg_project_root args))
  \/ In issue (flat_map tenant_entry_findings (rglob_py (tree env))).
Proof.
  rewrite main_issues.
  assert (In issue (later_issues args env (tree env) (arg_project_root args)) ->
          In issue (flat_map code_entry_findings (rglob_py (tree env)))
          \/ In issue (dependency_findings env (tree env) (arg_project_root args))
          \/ In issue (flat_map tenant_entry_findings (rglob_py (tree env)))) as Hlater.
  { unfold later_issues. intros H.
    apply in_app_or in H as [H | H].
    - destruct (wants args ScanCode); [auto | destruct H].
    - apply in_app_or in H as [H | H].
      + destruct (wants args ScanDependencies); [auto | destruct H].
      + destruct (wants args ScanMultiTenant); [auto | destruct H]. }
  destruct (wants args ScanSettings); [|intros H; right; auto].
  destruct (settings_error (tree env)); [intros []|].
  intros H. apply in_app_or in H as [H | H]; [now left | right; auto].
Qed.

(** X21: where the findings of a run point.  Whatever the arguments, the
    tree and the tools, a finding that names a file names a readable file
    of the scanned tree; a finding that names no file is a dependency
    finding. *)
Theorem run_findings_name_scanned_files (args : Args) (env : Env) (issue : SecurityIssue) :
  In issue (issues (self_ (fst (main args env)))) ->
  match file_path issue with
  | Some path => exists content, In (path, Readable content) (tree env)
  | None => dependency_shaped issue
  end.
Proof.
  intros H. apply run_finding_cases in H as [H | [H | [H | H]]].
  - apply settings_issues_origin in H as (path & content & Hin & Hs).
    destruct Hs as (_ & -> & _). now exists content.
  - apply code_entry_origin in H as (path & content & Hin & H).
    apply file_findings_located in H as (-> & _). now exists content.
  - pose proof (dependency_findings_shaped _ _ _ _ H) as Hd.
    destruct Hd as (Hc & Hf & Hrest). rewrite Hf.
    repeat split; try assumption; tauto.
  - apply tenant_entry_origin in H as (path & content & Hin & H).
    apply tenant_findings_medium in H as (_ & _ & _ & -> & _). now exists content.
Qed.

Lemma run_findings_name_scanned_files_witness :
  exists content, In ("proj/settings.py", Readable content) Sample3.project.
Proof.
  apply (run_findings_name_scanned_files
           (Sample.args_of ScanAll Text) (Sample.env_of Sample3.project)
           (debug_enabled_issue "proj/settings.py")).
  vm_compute. left. reflexivity.
Defined.

(** X22: the secret findings of a run.  Whatever is scanned, a finding
    of category Secrets is Critical, names a file and a line of the tree,
    and carries a snippet of at most 100 characters. *)
Theorem run_secret_findings_bounded (args : Args) (env : Env) (issue : SecurityIssue) :
  In issue (issues (self_ (fst (main args env)))) ->
  is_secret issue = true ->
  severity issue = CRITICAL
  /\ snippet_length issue <= 100
  /\ exists path content i line,
       In (path, Readable content) (tree env)
       /\ file_path issue = Some path /\ line_number issue = Some i
       /\ nth_error (Py.splitlines content) (i - 1) = Some line
       /\ code_snippet issue = Some (Py.take 100 (Py.strip line)).
Proof.
  intros H Hsec. unfold is_secret in Hsec.
  apply run_finding_cases in H as [H | [H | [H | H]]].
  - apply settings_issues_origin in H as (path & content & _ & Hs & _).
    rewrite Hs in Hsec. discriminate Hsec.
  - apply code_entry_origin in H as (path & content & Hin & H).
    apply secret_finding_origin in H as
        (pattern & secret_type & i & line & cap & _ & Hline & _ & _ & _ & _ & _ & _ & ->);
      [|exact Hsec].
    split; [reflexivity|]. split; [apply secret_snippet_bound|].
    now exists path, content, i, line.
  - apply dependency_findings_shaped in H as (Hc & _).
    rewrite Hc in Hsec. discriminate Hsec.
  - apply tenant_entry_origin in H as (path & content & _ & H).
    apply tenant_findings_medium in H as (_ & Hc & _).
    rewrite Hc in Hsec. discriminate Hsec.
Qed.

Lemma run_secret_findings_bounded_witness :
  let issue := secret_issue "app/keys.py" "SECRET_KEY" 2 Sample.secret_key_line in
  severity issue = CRITICAL /\ snippet_length issue <= 100.
Proof.
  cbv zeta.
  destruct (run_secret_findings_bounded
              (Sample.args_of ScanCode Text) (Sample.env_of [Sample5.keys])
              (secret_issue "app/keys.py" "SECRET_KEY" 2 Sample.secret_key_line))
    as (Hsev & Hlen & _).
  - vm_compute. left. reflexivity.
  - reflexivity.
  - split; assumption.
Defined.

(** ** The path traversal patterns *)

Lemma search_from_run (icase : bool) (r : Re.regex) (prev : option ascii) (s : string)
      (cap : Re.capture) :
  Re.run icase r Re.accept prev s None = Some cap ->
  Re.search_from icase r prev s = Some cap.
Proof. intros H. destruct s; simpl; now rewrite H. Qed.

Lemma search_from_later (icase : bool) (r : Re.regex) (prev : option ascii) (c : ascii)
      (s : string) :
  Re.found (Re.search_from icase r (Some c) s) = true ->
  Re.found (Re.search_from icase r prev (String c s)) = true.
Proof.
  intros H. cbn [Re.search_from].
  destruct (Re.run icase r Re.accept prev (String c s) None); [reflexivity | exact H].
Qed.

Lemma run_lit (w : string) :
  Py.lower w = w ->
  forall (s : string) (prev : option ascii) (cap : Re.capture),
    prefix w (Py.lower s) = true ->
    Re.run true (Re.lit w) Re.accept prev s cap = Some cap.
Proof.
  induction w as [|c w IH]; intros Hw s prev cap Hp; [reflexivity|].
  injection Hw as Hc Hw.
  destruct s as [|d s]; [discriminate Hp|].
  cbn [Py.lower Py.map_str prefix] in Hp.
  destruct (ascii_dec c (Py.lower_char d)) as [Hd|]; [|discriminate Hp].
  assert (Re.item_match true (Re.Lit c) d = true) as Hm.
  { cbn [Re.item_match Re.char_eq]. rewrite Hc, <- Hd. apply Ascii.eqb_refl. }
  destruct w as [|c' w].
  - cbn [Re.lit Re.run]. now rewrite Hm.
  - change (Re.lit (String c (String c' w)))
      with (Re.Seq (Re.One (Re.Lit c)) (Re.lit (String c' w))).
    cbn [Re.run]. rewrite Hm. now apply IH.
Qed.

Lemma search_i_prefix (r : Re.regex) (w line : string) (prev : option ascii) :
  Py.lower w = w ->
  prefix w (Py.lower line) = true ->
  Re.found (Re.search_from true (Re.Alt r (Re.lit w)) prev line) = true.
Proof.
  intros Hw Hp.
  destruct (Re.run true (Re.Alt r (Re.lit w)) Re.accept prev line None) as [cap|] eqn:E.
  - now rewrite (search_from_run _ _ _ _ _ E).
  - exfalso. cbn [Re.run] in E.
    destruct (Re.run true r Re.accept prev line None); [discriminate E|].
    rewrite (run_lit w Hw line prev None Hp) in E. discriminate E.
Qed.

Lemma search_i_word (r : Re.regex) (w line : string) :
  Py.lower w = w ->
  Py.contains w (Py.lower line) = true ->
  forall prev, Re.found (Re.search_from true (Re.Alt r (Re.lit w)) prev line) = true.
Proof.
  intros Hw. induction line as [|c line IH]; intros Hc prev.
  - cbn [Py.lower Py.map_str Py.contains] in Hc. rewrite orb_false_r in Hc.
    now apply search_i_prefix.
  - cbn [Py.lower Py.map_str Py.contains] in Hc.
    apply orb_prop in Hc as [Hc | Hc].
    + now apply search_i_prefix.
    + apply search_from_later. now apply IH.
Qed.

Lemma filter_none {A : Type} (p : A -> bool) (l : list A) :
  (forall x, In x l -> p x = false) -> filter p l = [].
Proof.
  induction l as [|x l IH]; intros H; [reflexivity|].
  cbn [filter]. rewrite (H x (or_introl eq_refl)). apply IH.
  intros y Hy. apply H. now right.
Qed.

Lemma on_line_later (P : string -> bool) (path : string) (lines : list string) (i n : nat) :
  i < n ->
  filter (fun x => is_traversal x && on_line i x)
         (flat_map (fun '(j, l) => when (P l) (traversal_issue path j l))
                   (Py.enumerate_from n lines)) = [].
Proof.
  intros Hlt. apply filter_none. intros x Hx.
  apply in_flat_map in Hx as ([j l] & Hj & Hx).
  apply in_enumerate_from in Hj as [_ Hj].
  apply in_when in Hx as [_ ->].
  unfold on_line. cbn [line_number traversal_issue].
  apply andb_false_intro2. apply Nat.eqb_neq. lia.
Qed.

Lemma on_line_hit (P : string -> bool) (path : string) (lines : list string)
      (i : nat) (line : string) :
  forall n,
    n <= i -> nth_error lines (i - n) = Some line ->
    filter (fun x => is_traversal x && on_line i x)
           (flat_map (fun '(j, l) => when (P l) (traversal_issue path j l))
                     (Py.enumerate_from n lines))
    = when (P line) (traversal_issue path i line).
Proof.
  induction lines as [|x lines IH]; intros n Hn Hline.
  - destruct (i - n); discriminate Hline.
  - cbn [Py.enumerate_from flat_map]. rewrite filter_app.
    destruct (Nat.eq_dec n i) as [-> | Hne].
    + rewrite Nat.sub_diag in Hline. injection Hline as ->.
      rewrite on_line_later by lia. rewrite app_nil_r.
      destruct (P line); [|reflexivity].
      cbn [when filter]. unfold on_line. cbn [line_number traversal_issue].
      rewrite Nat.eqb_refl. reflexivity.
    + replace (i - n) with (S (i - S n)) in Hline by lia. cbn [nth_error] in Hline.
      rewrite (IH (S n)) by (lia || assumption).
      destruct (P x); [|reflexivity].
      cbn [when filter]. unfold on_line. cbn [line_number traversal_issue].
      apply Nat.eqb_neq in Hne. rewrite Hne, andb_false_r. reflexivity.
Qed.

Ltac not_traversal H :=
  apply in_flat_map in H as (? & _ & H);
  repeat match type of H with
         | In _ (let '(_, _) := ?r in _) => destruct r
         end;
  apply in_flat_map in H as ([? ?] & _ & H);
  apply in_when in H as [_ ->]; reflexivity.

(** X23: the word request on a line.  The three path traversal patterns
    end in the alternative [|request], which stands alone and is searched
    without regard to letter case.  So a line in which [request] occurs,
    in any letter case and whether or not it opens a file, gets three path
    traversal findings, one per pattern, all the same. *)
Theorem request_line_gets_three_findings
        (path : string) (lines : list string) (i : nat) (line : string) :
  1 <= i ->
  nth_error lines (i - 1) = Some line ->
  Py.contains "request" (Py.lower line) = true ->
  filter (fun x => is_traversal x && on_line i x) (file_findings path lines)
  = [ traversal_issue path i line; traversal_issue path i line;
      traversal_issue path i line ].
Proof.
  intros Hi Hline Hreq. unfold file_findings, secret_findings.
  rewrite !filter_app.
  rewrite (filter_none _ (flat_map _ CodePat.sql_injection_patterns))
    by (intros x H; not_traversal H).
  rewrite (filter_none _ (flat_map _ CodePat.xss_patterns))
    by (intros x H; not_traversal H).
  rewrite (filter_none _ (flat_map _ CodePat.secret_patterns))
    by (intros x H; not_traversal H).
  rewrite (filter_none _ (flat_map _ CodePat.dangerous_patterns))
    by (intros x H; not_traversal H).
  cbn [app]. unfold CodePat.path_traversal_patterns. cbn [flat_map].
  rewrite !filter_app. unfold enumerate1.
  rewrite !(on_line_hit _ path lines i line 1 Hi Hline).
  unfold CodePat.user_or_request, Re.search_i.
  rewrite !(search_i_word _ "request" line eq_refl Hreq).
  reflexivity.
Qed.

Lemma request_line_gets_three_findings_witness :
  let line := "return JsonResponse({'ok': Request.method})" in
  filter (fun x => is_traversal x && on_line 2 x)
         (file_findings "app/api.py" ["import json"; line])
  = [ traversal_issue "app/api.py" 2 line; traversal_issue "app/api.py" 2 line;
      traversal_issue "app/api.py" 2 line ].
Proof.
  cbv zeta.
  apply (request_line_gets_three_findings "app/api.py" _ 2).
  - lia.
  - reflexivity.
  - reflexivity.
Defined.

(** ** The text report *)

(** X24: the text report shows the findings through their five severity
    groups only.  Two auditors whose findings agree group by group, each
    group in its discovery order, give the same text report: how findings
    of different severities were interleaved when they were found does not
    show. *)
Theorem text_report_groups_by_severity (self1 self2 : SecurityAuditor) :
  (forall s, by_severity (issues self1) s = by_severity (issues self2) s) ->
  _generate_text_report self1 = _generate_text_report self2.
Proof.
  intros H.
  assert (List.length (issues self1) = List.length (issues self2)) as Hlen.
  { rewrite (length_by_severity (issues self1)), (length_by_severity (issues self2)).
    now rewrite !H. }
  unfold _generate_text_report, all_severities. cbv zeta. cbn [flat_map].
  rewrite Hlen, !H. reflexivity.
Qed.

Lemma text_report_groups_by_severity_witness :
  _generate_text_report
    (Sample.auditor [Sample.finding HIGH; Sample.finding CRITICAL; Sample.finding INFO])
  = _generate_text_report
      (Sample.auditor [Sample.finding CRITICAL; Sample.finding INFO; Sample.finding HIGH]).
Proof.
  apply text_report_groups_by_severity.
  intros []; reflexivity.
Defined.
